(** * lab-recorder-python: configuration ingestion and filename resolution

    A shallow embedding of [labrecorder/cfg_loader.py] and
    [labrecorder/utils/config.py], and the properties of the legacy [.cfg]
    parser, the template expander, the path sanitizer and the hierarchical
    [Config] store.

    Modelling conventions.
    - A Python [str] is a Stdlib [string]: the code points 0..255.  The
      character classes ([str.isspace], [\d], [str.lower]) are the Python
      ones restricted to that range.
    - A Python [dict] that the code only looks up is a [gmap string _]; a
      [dict] the code iterates over keeps its insertion order as an
      association list.
    - The [Config] store is a heap of dict objects addressed by location,
      because [Config.__init__] copies [DEFAULT_CONFIG] shallowly and
      [set]/[_deep_update] mutate dict objects in place.
    - Exceptions are values of [exn].  A function without effect on the
      store returns an [outcome _]; a computation on the store is a function
      from the heap to the new heap and a [res _], and the new heap is there
      also when the computation raises.
    - [os.path] is [posixpath].  The host name, the clock, the environment
      and the files come in as the records [Host] and [Files]. *)

From Stdlib Require Import ZArith List String Ascii Bool Lia DecimalString.
From Stdlib Require DecimalPos.
From stdpp Require Import base option gmap strings list fin_maps.

Local Open Scope string_scope.
Local Open Scope Z_scope.

(** ** Python string primitives *)

Module Py.

(** [str.isspace] of one character, code points 0..255: TAB..CR, FS..US,
    SPACE, NEL and NBSP. *)
Definition isspace (c : ascii) : bool :=
  let n := N_of_ascii c in
  (((9 <=? n) && (n <=? 13)) || ((28 <=? n) && (n <=? 32))
   || (n =? 133) || (n =? 160))%N.

(** [\d] of the [re] module on [str] patterns, code points 0..255. *)
Definition isdigit (c : ascii) : bool :=
  let n := N_of_ascii c in ((48 <=? n) && (n <=? 57))%N.

(** [c in chars] for a one-character [c]. *)
Fixpoint mem (c : ascii) (chars : string) : bool :=
  match chars with
  | EmptyString => false
  | String d rest => Ascii.eqb c d || mem c rest
  end.

Fixpoint lstrip_by (p : ascii -> bool) (s : string) : string :=
  match s with
  | EmptyString => EmptyString
  | String c s' => if p c then lstrip_by p s' else s
  end.

Fixpoint rstrip_by (p : ascii -> bool) (s : string) : string :=
  match s with
  | EmptyString => EmptyString
  | String c s' =>
      match rstrip_by p s' with
      | EmptyString => if p c then EmptyString else String c EmptyString
      | r => String c r
      end
  end.

(** [s.strip()], [s.strip(chars)], [s.rstrip(chars)]. *)
Definition strip (s : string) : string := rstrip_by isspace (lstrip_by isspace s).
Definition strip_chars (chars s : string) : string :=
  rstrip_by (fun c => mem c chars) (lstrip_by (fun c => mem c chars) s).
Definition rstrip_chars (chars s : string) : string :=
  rstrip_by (fun c => mem c chars) s.

(** [s.startswith(p)] and [s.endswith(p)]. *)
Definition startswith (p s : string) : bool := String.prefix p s.

Fixpoint endswith (p s : string) : bool :=
  if String.eqb p s then true
  else match s with
       | EmptyString => false
       | String _ s' => endswith p s'
       end.

(** [s.find(sub)]: the lowest index where [sub] starts, or -1. *)
Fixpoint find (sub s : string) : Z :=
  if String.prefix sub s then 0
  else match s with
       | EmptyString => -1
       | String _ s' => let i := find sub s' in if i <? 0 then -1 else i + 1
       end.

(** [s.rfind(sub)]: the highest index where [sub] starts, or -1. *)
Fixpoint rfind (sub s : string) : Z :=
  match s with
  | EmptyString => if String.prefix sub s then 0 else -1
  | String _ s' =>
      let i := rfind sub s' in
      if 0 <=? i then i + 1 else if String.prefix sub s then 0 else -1
  end.

(** [sub in s]. *)
Definition contains (sub s : string) : bool := 0 <=? find sub s.

Fixpoint take (n : nat) (s : string) : string :=
  match n, s with
  | S n', String c s' => String c (take n' s')
  | _, _ => EmptyString
  end.

Fixpoint drop (n : nat) (s : string) : string :=
  match n, s with
  | S n', String _ s' => drop n' s'
  | _, _ => s
  end.

(** A slice bound as Python resolves it: a negative bound counts from the
    end, and every bound is clamped to [0, len(s)]. *)
Definition bound (s : string) (i : Z) : nat :=
  let n := Z.of_nat (String.length s) in
  Z.to_nat (Z.min n (if i <? 0 then Z.max 0 (n + i) else i)).

(** [s[:i]] and [s[i:]]. *)
Definition slice_to (s : string) (i : Z) : string := take (bound s i) s.
Definition slice_from (s : string) (i : Z) : string := drop (bound s i) s.

(** [s[1:-1]]. *)
Definition slice_inner (s : string) : string :=
  take (bound s (-1) - bound s 1) (drop (bound s 1) s).

(** [s.split(sep)] for a one-character separator: never the empty list. *)
Fixpoint split (sep : ascii) (s : string) : list string :=
  match s with
  | EmptyString => [EmptyString]
  | String c s' =>
      if Ascii.eqb c sep then EmptyString :: split sep s'
      else match split sep s' with
           | x :: xs => String c x :: xs
           | [] => [String c EmptyString]
           end
  end.

(** [s.split(sep, 1)] for a one-character separator: one or two pieces. *)
Fixpoint split1 (sep : ascii) (s : string) : list string :=
  match s with
  | EmptyString => [EmptyString]
  | String c s' =>
      if Ascii.eqb c sep then [EmptyString; s']
      else match split1 sep s' with
           | x :: xs => String c x :: xs
           | [] => [String c EmptyString]
           end
  end.

(** [s.replace(old, new)]: the occurrences of [old] are found left to right
    and do not overlap; [skip] counts the characters of a found occurrence
    that are still to be passed over.  For an empty [old], [new] goes before
    every character and at the end. *)
Fixpoint replace_from (old new : string) (skip : nat) (s : string) : string :=
  match s with
  | EmptyString =>
      match old with EmptyString => new | _ => EmptyString end
  | String c s' =>
      match skip with
      | S k => replace_from old new k s'
      | O =>
          if String.prefix old s then
            match old with
            | EmptyString => new +:+ String c (replace_from old new 0 s')
            | _ => new +:+ replace_from old new (String.length old - 1) s'
            end
          else String c (replace_from old new 0 s')
      end
  end.

Definition replace (old new s : string) : string := replace_from old new 0 s.

(** [str.lower] of one character, code points 0..255: A..Z and the
    Latin-1 capitals 0xC0..0xDE (but the multiplication sign 0xD7). *)
Definition lower_char (c : ascii) : ascii :=
  let n := N_of_ascii c in
  if (((65 <=? n) && (n <=? 90))
      || ((192 <=? n) && (n <=? 222) && negb (n =? 215)))%N
  then ascii_of_N (n + 32) else c.

Fixpoint map_chars (f : ascii -> ascii) (s : string) : string :=
  match s with
  | EmptyString => EmptyString
  | String c s' => String (f c) (map_chars f s')
  end.

Definition lower (s : string) : string := map_chars lower_char s.

(** Truthiness of a [str]. *)
Definition nonempty (s : string) : bool :=
  match s with EmptyString => false | _ => true end.

End Py.

(** ** The legacy [.cfg] line parser *)

(** [cfg_loader._strip_comment]. *)
Module CfgLoader.

Definition strip_comment_sep (sep : string) (line : string) : string :=
  if Py.contains sep line then
    let idx := Py.find sep line in
    if (idx =? 0) || negb (String.eqb (Py.strip (Py.slice_to line idx)) "")
    then Py.slice_to line idx
    else line
  else line.

Definition _strip_comment (line : string) : string :=
  Py.strip (fold_left (fun l sep => strip_comment_sep sep l) [";"; "#"] line).

End CfgLoader.

(** [utils.config._strip_comment]. *)
Module UtilsConfig.

Definition strip_comment_sep (sep : string) (line : string) : string :=
  if Py.contains sep line then
    let idx := Py.find sep line in
    if 0 <=? idx then Py.slice_to line idx else line
  else line.

Definition _strip_comment (line : string) : string :=
  Py.strip (fold_left (fun l sep => strip_comment_sep sep l) [";"; "#"] line).

End UtilsConfig.

(** The exceptions the code can meet, all subclasses of [Exception]. *)
Inductive exn : Type :=
| KeyError | TypeError | ValueError | AttributeError | OverflowError
| OSError | UnicodeDecodeError | JSONDecodeError.

(** What a Python function without effect on the store does, or a read of
    a file: it returns or it raises. *)
Inductive outcome (A : Type) : Type :=
| Returns (a : A)
| Raises (e : exn).
Arguments Returns {A} a.
Arguments Raises {A} e.

(** The typed right-hand side of a [key=value] line: what [_parse_value]
    returns.  A [float] is kept as the literal it was read from. *)
Inductive ConfigValue : Type :=
| CStr (s : string)
| CInt (z : Z)
| CFloat (literal : string)
| CList (items : list string).

(** The double quote and the single quote, as one-character strings. *)
Definition DQ : string := String "034"%char EmptyString.
Definition SQ : string := String "039"%char EmptyString.

Fixpoint all_chars (p : ascii -> bool) (s : string) : bool :=
  match s with
  | EmptyString => true
  | String c s' => p c && all_chars p s'
  end.

(** The optional sign of [[-+]?]. *)
Definition after_sign (s : string) : string :=
  match s with
  | String c s' => if Py.mem c "-+" then s' else s
  | EmptyString => s
  end.

(** [re.fullmatch(r"[-+]?\d+", s)]. *)
Definition is_int_literal (s : string) : bool :=
  let d := after_sign s in Py.nonempty d && all_chars Py.isdigit d.

(** [re.fullmatch(r"[-+]?\d*\.\d+", s)]: the digits before the first dot
    may be missing, the ones after it may not. *)
Definition is_float_literal (s : string) : bool :=
  match Py.split1 "." (after_sign s) with
  | [whole; frac] =>
      all_chars Py.isdigit whole && Py.nonempty frac && all_chars Py.isdigit frac
  | _ => false
  end.

Fixpoint digits_value (acc : Z) (s : string) : Z :=
  match s with
  | EmptyString => acc
  | String c s' => digits_value (10 * acc + (Z.of_N (N_of_ascii c) - 48)) s'
  end.

(** The limit of the interpreter on the digits of a decimal text that
    [int] converts: [sys.get_int_max_str_digits()], 4300 when the program
    does not set it, and this program does not.  The sign, the underscores
    and the blanks around the text are not counted; leading zeros are. *)
Definition int_max_str_digits : Z := 4300.

Definition within_int_limit (digits : string) : bool :=
  Z.of_nat (String.length digits) <=? int_max_str_digits.

(** [int(s)] for an [s] that matches [[-+]?\d+]: the number, or a
    [ValueError] for a text of more digits than the limit. *)
Definition int_of_literal (s : string) : outcome Z :=
  if within_int_limit (after_sign s) then
    Returns match s with
            | String "-" d => - digits_value 0 d
            | String "+" d => digits_value 0 d
            | _ => digits_value 0 s
            end
  else Raises ValueError.

(** [try: return int(s)], [except Exception: pass]: the value returned, if
    one is. *)
Definition try_int (s : string) : option Z :=
  match int_of_literal s with
  | Returns i => Some i
  | Raises _ => None
  end.

(** One item of a quoted list: one layer of double quotes when the item has
    them on both ends, else every double quote and then every single quote
    on either end. *)
Definition clean_item (item : string) : string :=
  if Py.startswith DQ item && Py.endswith DQ item
     && (2 <=? Z.of_nat (String.length item))
  then Py.slice_inner item
  else Py.strip_chars SQ (Py.strip_chars DQ item).

(** [_parse_value], the same text in [cfg_loader.py] and [utils/config.py].
    The [int] of the integer branch is under [try]: when it raises, the
    text goes on to the tests that follow.  [float] of a text that matches
    the float pattern returns, and so does [int] of the texts 0 and 1. *)
Definition _parse_value (raw : string) : ConfigValue :=
  let s := Py.strip raw in
  if negb (Py.nonempty s) then CStr EmptyString
  else if Py.contains DQ s then
    let items := map Py.strip (Py.split "," s) in
    let cleaned := map clean_item items in
    match cleaned with
    | [one] => CStr one
    | _ => CList cleaned
    end
  else
    match (if is_int_literal s then try_int s else None) with
    | Some i => CInt i
    | None =>
        if is_float_literal s then CFloat s
        else if String.eqb s "0" then CInt 0
        else if String.eqb s "1" then CInt 1
        else CStr s
    end.

(** One line of the file, in the loop of [parse_cfg_file] and of
    [Config._load_from_cfg]; [strip_comment] is the module's own
    [_strip_comment].  The line is split at its first [=]; the unpacking of
    the two pieces cannot fail, because the line holds an [=]. *)
Definition parse_line (strip_comment : string -> string)
    (config : gmap string ConfigValue) (raw : string) : gmap string ConfigValue :=
  let line := strip_comment raw in
  if negb (Py.nonempty line) then config
  else if negb (Py.contains "=" line) then config
  else match Py.split1 "=" line with
       | [key; value] => <[Py.strip key := _parse_value value]> config
       | _ => config
       end.

Definition parse_lines (strip_comment : string -> string) (lines : list string)
    : gmap string ConfigValue :=
  fold_left (parse_line strip_comment) lines ∅.


(** ** Template expansion and path handling *)

(** [expand_template] of [cfg_loader.py], and with the same body
    [_expand_template] of [utils/config.py]: one [str.replace] per item of
    the placeholder dict, in the dict's order. *)
Definition expand_template (template : string)
    (placeholders : list (string * string)) : string :=
  fold_left (fun result kv => Py.replace ("%" +:+ kv.1) kv.2 result)
            placeholders template.

(** [_sanitize_basename], the same in both files: [re.sub] of a character
    class by a hyphen, then [rstrip] of spaces and dots.  The class holds
    the characters of codes 60, 62, 58, 34, 47, 92, 124, 63 and 42. *)
Definition windows_invalid (c : ascii) : bool :=
  Py.mem c ("<>:" +:+ DQ +:+ "/\|?*").

Definition _sanitize_basename (name : string) : string :=
  Py.rstrip_chars " ." (Py.map_chars (fun c => if windows_invalid c then "-"%char else c) name).

(** [os.path.split] and [os.path.join] of [posixpath]. *)
Module PosixPath.

Fixpoint repeat_sep (n : nat) : string :=
  match n with O => EmptyString | S n' => String "/" (repeat_sep n') end.

Definition split (p : string) : string * string :=
  let i := Py.rfind "/" p + 1 in
  let head := Py.slice_to p i in
  let tail := Py.slice_from p i in
  let head :=
    if Py.nonempty head && negb (String.eqb head (repeat_sep (String.length head)))
    then Py.rstrip_chars "/" head else head in
  (head, tail).

Definition join (a b : string) : string :=
  if Py.startswith "/" b then b
  else if negb (Py.nonempty a) || Py.endswith "/" a then a +:+ b
  else a +:+ "/" +:+ b.

End PosixPath.

(** What the code reads from the machine it runs on, and the Python
    built-ins on values the embedding keeps abstract: the host name, the
    three UTC tokens as [_utc_datetime_token], [_utc_date_token] and
    [_utc_time_token] return them at this call, [os.path.expanduser] and
    [os.path.expandvars], and for a float literal [x] the results of
    [str(float(x))], [bool(float(x))] and [int(float(x))] (an overflow is
    [None]), and [str] of a list of strings. *)
Record Host : Type := {
  hostname : string;
  utc_datetime_token : string;
  utc_date_token : string;
  utc_time_token : string;
  expanduser : string -> string;
  expandvars : string -> string;
  float_str : string -> string;
  float_bool : string -> bool;
  float_int : string -> option Z;
  list_str : list string -> string;
}.

(** [str(z)] of an [int].  The limit of the interpreter on the digits is
    not reached by an [int] that [_parse_value] has returned. *)
Definition str_of_int (z : Z) : string := NilZero.string_of_int (Z.to_int z).

(** [bool(v)] and [str(v)] of a parsed value. *)
Definition truthy (host : Host) (v : ConfigValue) : bool :=
  match v with
  | CStr s => Py.nonempty s
  | CInt z => negb (z =? 0)
  | CFloat x => float_bool host x
  | CList items => match items with [] => false | _ => true end
  end.

Definition str_of (host : Host) (v : ConfigValue) : string :=
  match v with
  | CStr s => s
  | CInt z => str_of_int z
  | CFloat x => float_str host x
  | CList items => list_str host items
  end.

(** [str(cfg.get(key) or default)]. *)
Definition str_or (host : Host) (cfg : gmap string ConfigValue)
    (key default : string) : string :=
  match cfg !! key with
  | Some v => if truthy host v then str_of host v else default
  | None => default
  end.

(** The placeholder dict of [build_filename_from_cfg] and of
    [_load_from_cfg], in the order of the dict display. *)
Definition placeholders_of (host : Host) (cfg : gmap string ConfigValue)
    : list (string * string) :=
  [ ("datetime", utc_datetime_token host);
    ("date", utc_date_token host);
    ("time", utc_time_token host);
    ("hostname", hostname host);
    ("m", str_or host cfg "BidsModality" "eeg");
    ("p", str_or host cfg "Participant" "P001");
    ("s", str_or host cfg "Session" "S001");
    ("b", str_or host cfg "Block" "task");
    ("a", str_or host cfg "Acq" "acq");
    ("r", str_or host cfg "Run" "01") ].

(** [placeholders['datetime']]. *)
Definition placeholder_datetime (placeholders : list (string * string)) : string :=
  match placeholders with
  | (_, v) :: _ => v
  | [] => EmptyString
  end.

(** The three path fields: [str(cfg.get(key) or '').strip()]. *)
Definition path_field (host : Host) (cfg : gmap string ConfigValue)
    (key : string) : string :=
  Py.strip (str_or host cfg key EmptyString).

(** The extension check. *)
Definition ensure_xdf (dest : string) : string :=
  if negb (Py.endswith ".xdf" (Py.lower dest)) then dest +:+ ".xdf" else dest.

(** The split, the sanitized base name and the join. *)
Definition sanitize_path (dest : string) : string :=
  let '(dir_name, base_name) := PosixPath.split dest in
  PosixPath.join dir_name (_sanitize_basename base_name).

(** Everything after the choice of [dest]. *)
Definition finish_dest (host : Host) (dest : string) : string :=
  expandvars host (expanduser host (sanitize_path (ensure_xdf dest))).

(** [cfg_loader.build_filename_from_cfg]. *)
Definition build_filename_from_cfg (host : Host)
    (cfg : gmap string ConfigValue) : string :=
  let study_root := path_field host cfg "StudyRoot" in
  let storage_location := path_field host cfg "StorageLocation" in
  let path_template := path_field host cfg "PathTemplate" in
  let placeholders := placeholders_of host cfg in
  let dest :=
    if Py.nonempty storage_location then
      expand_template storage_location placeholders
    else if Py.nonempty study_root && Py.nonempty path_template then
      PosixPath.join study_root (expand_template path_template placeholders)
    else if Py.nonempty study_root then
      let fname := "LabRecorder_" +:+ hostname host +:+ "_"
                   +:+ placeholder_datetime placeholders +:+ "_eeg.xdf" in
      PosixPath.join study_root fname
    else if Py.nonempty path_template then
      expand_template path_template placeholders
    else "recording.xdf" in
  finish_dest host dest.

(** ** The hierarchical [Config] store *)

(** The result of a computation: a value, a raised exception, or [Stuck]
    when the heap has no object at a location the computation follows.
    [Stuck] is no Python outcome: a closed heap never produces it. *)
Inductive res (A : Type) : Type :=
| Ok (a : A)
| Raise (e : exn)
| Stuck.
Arguments Ok {A} a.
Arguments Raise {A} e.
Arguments Stuck {A}.

(** A parsed JSON document, or any Python data without sharing: what
    [json.load] returns. *)
#[warnings="-register-all"]
Inductive tree : Type :=
| TNone
| TBool (b : bool)
| TInt (z : Z)
| TFloat (literal : string)
| TStr (s : string)
| TList (items : list tree)
| TDict (items : list (string * tree)).

(** A value held in the store.  A dict is a reference to a dict object of
    the heap; a list is never mutated by this code and is kept by value. *)
Inductive value : Type :=
| VNone
| VBool (b : bool)
| VInt (z : Z)
| VFloat (literal : string)
| VStr (s : string)
| VList (items : list tree)
| VDict (loc : nat).

(** The dict objects, by location. *)
Abbreviation heap := (list (gmap string value)).

(** A computation on the heap: the heap it leaves, and its result. *)
Definition M (A : Type) : Type := heap -> heap * res A.

Definition ret {A} (a : A) : M A := fun h => (h, Ok a).
Definition raise {A} (e : exn) : M A := fun h => (h, Raise e).
Definition lift {A} (r : outcome A) : M A :=
  fun h => (h, match r with Returns a => Ok a | Raises e => Raise e end).
Definition bind {A B} (m : M A) (f : A -> M B) : M B :=
  fun h => match m h with
           | (h', Ok a) => f a h'
           | (h', Raise e) => (h', Raise e)
           | (h', Stuck) => (h', Stuck)
           end.

Notation "x <- m ;; k" := (bind m (fun x => k))
  (at level 100, m at next level, right associativity).
Notation "m ;;; k" := (bind m (fun _ => k))
  (at level 100, right associativity).

(** [try: m except Exception: pass]. *)
Definition try_pass (m : M unit) : M unit :=
  fun h => match m h with
           | (h', Raise _) => (h', Ok tt)
           | r => r
           end.

(** A new dict object. *)
Definition alloc (d : gmap string value) : M nat :=
  fun h => ((h ++ [d])%list, Ok (length h)).

Definition tree_is_str (k : string) (t : tree) : bool :=
  match t with TStr s => String.eqb s k | _ => false end.

(** [k in v] for a [str] key. *)
Definition py_in (k : string) (v : value) : M bool :=
  fun h =>
    match v with
    | VDict l =>
        match h !! l with
        | Some d => (h, Ok (bool_decide (is_Some (d !! k))))
        | None => (h, Stuck)
        end
    | VStr s => (h, Ok (Py.contains k s))
    | VList items => (h, Ok (existsb (tree_is_str k) items))
    | VNone | VBool _ | VInt _ | VFloat _ => (h, Raise TypeError)
    end.

(** [v[k]] for a [str] key. *)
Definition getitem (v : value) (k : string) : M value :=
  fun h =>
    match v with
    | VDict l =>
        match h !! l with
        | Some d =>
            match d !! k with
            | Some x => (h, Ok x)
            | None => (h, Raise KeyError)
            end
        | None => (h, Stuck)
        end
    | _ => (h, Raise TypeError)
    end.

(** [v[k] = x] for a [str] key. *)
Definition setitem (v : value) (k : string) (x : value) : M unit :=
  fun h =>
    match v with
    | VDict l =>
        match h !! l with
        | Some d => (<[l := <[k := x]> d]> h, Ok tt)
        | None => (h, Stuck)
        end
    | _ => (h, Raise TypeError)
    end.

(** [d.get(k, default)] on a dict object. *)
Definition dict_get (l : nat) (k : string) (fallback : value) : M value :=
  fun h =>
    match h !! l with
    | Some d => (h, Ok (default fallback (d !! k)))
    | None => (h, Stuck)
    end.

(** [int(s)] of a [str]: blanks around, a sign, then groups of digits with
    one underscore between two groups, and no more digits than the limit of
    the interpreter. *)
Definition int_of_str (s : string) : outcome Z :=
  let t := Py.strip s in
  let groups := Py.split "_" (after_sign t) in
  let digits := String.concat EmptyString groups in
  if forallb (fun g => Py.nonempty g && all_chars Py.isdigit g) groups
     && within_int_limit digits
  then
    let n := digits_value 0 digits in
    Returns (match t with String "-" _ => - n | _ => n end)
  else Raises ValueError.

(** [int(v)] of a parsed value. *)
Definition int_of (host : Host) (v : ConfigValue) : outcome Z :=
  match v with
  | CInt z => Returns z
  | CFloat x =>
      match float_int host x with
      | Some z => Returns z
      | None => Raises OverflowError
      end
  | CStr s => int_of_str s
  | CList _ => Raises TypeError
  end.

(** The files as the code finds them: [os.path.exists], the lines
    [_read_cfg_lines] returns, and what [open] followed by [json.load]
    returns; the last two raise on an unreadable or ill-formed file. *)
Record Files : Type := {
  exists_path : string -> bool;
  read_cfg_lines : string -> outcome (list string);
  load_json : string -> outcome tree;
}.

(** The class [Config] of [utils/config.py]. *)
Module Config.

(** [Config.DEFAULT_CONFIG]: the class attribute is the dict object at
    location 0, its three nested dicts are at 1, 2 and 3. *)
Definition DEFAULT_CONFIG : nat := 0%nat.

Definition initial_heap : heap :=
  [ {[ "filename" := VStr "recording.xdf";
       "remote_control" := VDict 1;
       "recording" := VDict 2;
       "streams" := VDict 3 ]};
    {[ "enabled" := VBool true; "port" := VInt 22345 ]};
    {[ "buffer_size" := VInt 360;
       "max_samples_per_pull" := VInt 500;
       "clock_sync_interval" := VFloat "5.0" ]};
    {[ "timeout" := VFloat "2.0"; "recover" := VBool true ]} ].

(** [Config.get]: the loop over the segments, then the handler of
    [KeyError] and [TypeError]. *)
Fixpoint get_walk (keys : list string) (v : value) : M value :=
  match keys with
  | [] => ret v
  | k :: keys' => v' <- getitem v k ;; get_walk keys' v'
  end.

Definition get (self : nat) (key : string) (fallback : value) : M value :=
  fun h =>
    match get_walk (Py.split "." key) (VDict self) h with
    | (h', Raise KeyError) | (h', Raise TypeError) => (h', Ok fallback)
    | r => r
    end.

(** [Config.set]: the loop over [keys[:-1]], then the assignment at
    [keys[-1]]. *)
Fixpoint set_walk (keys : list string) (config : value) : M value :=
  match keys with
  | [] => ret config
  | k :: keys' =>
      present <- py_in k config ;;
      (if negb present
       then fresh <- alloc ∅ ;; setitem config k (VDict fresh)
       else ret tt) ;;;
      config' <- getitem config k ;;
      set_walk keys' config'
  end.

Definition set (self : nat) (key : string) (x : value) : M unit :=
  let keys := Py.split "." key in
  config <- set_walk (removelast keys) (VDict self) ;;
  setitem config (List.last keys EmptyString) x.

(** The dict objects of a parsed tree, allocated when the tree is assigned
    into the store. *)
Fixpoint store_tree (t : tree) : M value :=
  match t with
  | TNone => ret VNone
  | TBool b => ret (VBool b)
  | TInt z => ret (VInt z)
  | TFloat x => ret (VFloat x)
  | TStr s => ret (VStr s)
  | TList items => ret (VList items)
  | TDict items =>
      d <- (fix store_items (items : list (string * tree))
                (d : gmap string value) : M (gmap string value) :=
              match items with
              | [] => ret d
              | (k, t') :: rest =>
                  v <- store_tree t' ;; store_items rest (<[k := v]> d)
              end) items ∅ ;;
      l <- alloc d ;;
      ret (VDict l)
  end.

(** The condition of [_deep_update]: the dict to descend into when [key]
    is in [base_dict], [base_dict[key]] is a dict and the new value [x] is
    a dict. *)
Definition nested_dict (base_dict : nat) (key : string) (x : tree)
    : M (option nat) :=
  present <- py_in key (VDict base_dict) ;;
  if present then
    old <- getitem (VDict base_dict) key ;;
    ret (match old, x with
         | VDict sub, TDict _ => Some sub
         | _, _ => None
         end)
  else ret None.

(** [Config._deep_update(base_dict, update_dict)], with [update_dict] the
    parsed tree: [items()] of anything but a dict raises. *)
Fixpoint _deep_update (base_dict : nat) (update_dict : tree) : M unit :=
  match update_dict with
  | TDict items =>
      (fix each (items : list (string * tree)) : M unit :=
         match items with
         | [] => ret tt
         | (key, x) :: rest =>
             nested <- nested_dict base_dict key x ;;
             match nested with
             | Some sub => _deep_update sub x
             | None => v <- store_tree x ;; setitem (VDict base_dict) key v
             end ;;;
             each rest
         end) items
  | _ => raise AttributeError
  end.

(** [Config._load_from_cfg], block by block; [cfg] is the dict the loop
    over the lines has filled. *)

(** The block that builds the file name, up to [self.set('filename', dest)].
    A [dest] that is no [str] has no [lower]. *)
Definition cfg_filename (host : Host) (self : nat)
    (cfg : gmap string ConfigValue) : M unit :=
  let study_root := path_field host cfg "StudyRoot" in
  let storage_location := path_field host cfg "StorageLocation" in
  let path_template := path_field host cfg "PathTemplate" in
  let placeholders := placeholders_of host cfg in
  dest <-
    (if Py.nonempty storage_location then
       ret (VStr (expand_template storage_location placeholders))
     else if Py.nonempty study_root && Py.nonempty path_template then
       ret (VStr (PosixPath.join study_root
                    (expand_template path_template placeholders)))
     else if Py.nonempty study_root then
       let fname := "LabRecorder_" +:+ hostname host +:+ "_"
                    +:+ placeholder_datetime placeholders +:+ "_eeg.xdf" in
       ret (VStr (PosixPath.join study_root fname))
     else if Py.nonempty path_template then
       ret (VStr (expand_template path_template placeholders))
     else dict_get self "filename" (VStr "recording.xdf")) ;;
  dest <- match dest with
          | VStr s => ret s
          | _ => raise AttributeError
          end ;;
  set self "filename" (VStr (finish_dest host dest)).

(** The remote control settings. *)
Definition cfg_remote_control (host : Host) (self : nat)
    (cfg : gmap string ConfigValue) : M unit :=
  match cfg !! "RCSEnabled" with
  | Some rc_enabled_raw =>
      try_pass (i <- lift (int_of host rc_enabled_raw) ;;
                set self "remote_control.enabled" (VBool (negb (i =? 0))))
  | None => ret tt
  end ;;;
  match cfg !! "RCSPort" with
  | Some rc_port_raw =>
      try_pass (i <- lift (int_of host rc_port_raw) ;;
                set self "remote_control.port" (VInt i))
  | None => ret tt
  end.

(** The auto start flag. *)
Definition cfg_auto_start (host : Host) (self : nat)
    (cfg : gmap string ConfigValue) : M unit :=
  match cfg !! "AutoStart" with
  | Some auto_start_raw =>
      try_pass (i <- lift (int_of host auto_start_raw) ;;
                set self "auto_start" (VBool (negb (i =? 0))))
  | None => ret tt
  end.

(** The required streams.  The empty dict that is the default of
    [self.config.get('streams', {})] is allocated when it is used. *)
Definition cfg_required_streams (host : Host) (self : nat)
    (cfg : gmap string ConfigValue) : M unit :=
  match cfg !! "RequiredStreams" with
  | Some required =>
      let required_list :=
        match required with
        | CList items => map TStr items
        | _ => [TStr (str_of host required)]
        end in
      present <- py_in "streams" (VDict self) ;;
      streams_cfg <- (if present then getitem (VDict self) "streams"
                      else fresh <- alloc ∅ ;; ret (VDict fresh)) ;;
      setitem streams_cfg "required_labels" (VList required_list) ;;;
      setitem (VDict self) "streams" streams_cfg
  | None => ret tt
  end.

Definition _load_from_cfg (host : Host) (files : Files) (self : nat)
    (cfg_path : string) : M unit :=
  lines <- lift (read_cfg_lines files cfg_path) ;;
  let cfg := parse_lines UtilsConfig._strip_comment lines in
  cfg_filename host self cfg ;;;
  cfg_remote_control host self cfg ;;;
  cfg_auto_start host self cfg ;;;
  cfg_required_streams host self cfg.

(** [Config.load_from_file]: the result is the warning it prints, if any. *)
Definition load_from_file (host : Host) (files : Files) (self : nat)
    (filename : string) : M (option exn) :=
  fun h =>
    let body :=
      if Py.endswith ".cfg" (Py.lower filename)
      then _load_from_cfg host files self filename
      else (file_config <- lift (load_json files filename) ;;
            _deep_update self file_config) in
    match body h with
    | (h', Ok _) => (h', Ok None)
    | (h', Raise e) => (h', Ok (Some e))
    | (h', Stuck) => (h', Stuck)
    end.

(** [Config.__init__]: the new instance is the location of its [config]
    dict, a [dict.copy] of [DEFAULT_CONFIG]. *)
Definition __init__ (host : Host) (files : Files) (config_file : option string)
    : M nat :=
  defaults <- (fun h => match h !! DEFAULT_CONFIG with
                        | Some d => (h, Ok d)
                        | None => (h, Stuck)
                        end) ;;
  self <- alloc defaults ;;
  match config_file with
  | Some path =>
      if Py.nonempty path && exists_path files path
      then load_from_file host files self path ;;; ret self
      else ret self
  | None => ret self
  end.

End Config.

(** ** Predicates of the statements *)

(** A comment marker of the legacy format. *)
Definition is_marker (c : ascii) : bool := Py.mem c ";#".

(** An indented comment line: blanks, then a marker. *)
Definition indented_comment (line : string) : bool :=
  match line with
  | String c _ =>
      Py.isspace c &&
      match Py.lstrip_by Py.isspace line with
      | String m _ => is_marker m
      | EmptyString => false
      end
  | EmptyString => false
  end.

(** Template expansion as the specification words it, to compare with
    [expand_template]: one scan of the template, and at a [%name] of the
    set the value is written and the scan goes on behind the token, so that
    no written value is scanned. *)
Fixpoint token_at (placeholders : list (string * string)) (s : string)
    : option (string * string) :=
  match placeholders with
  | [] => None
  | (k, v) :: rest =>
      if String.prefix ("%" +:+ k) s then Some (k, v) else token_at rest s
  end.

Fixpoint spec_expand_from (placeholders : list (string * string))
    (skip : nat) (s : string) : string :=
  match s with
  | EmptyString => EmptyString
  | String c s' =>
      match skip with
      | S n => spec_expand_from placeholders n s'
      | O =>
          match token_at placeholders s with
          | Some (k, v) => v +:+ spec_expand_from placeholders (String.length k) s'
          | None => String c (spec_expand_from placeholders 0 s')
          end
      end
  end.

Definition spec_expand_template (template : string)
    (placeholders : list (string * string)) : string :=
  spec_expand_from placeholders 0 template.

(** The first and the last character of a string. *)
Definition head_char (s : string) : option ascii :=
  match s with String c _ => Some c | EmptyString => None end.

Fixpoint last_char (s : string) : option ascii :=
  match s with
  | EmptyString => None
  | String c EmptyString => Some c
  | String _ s' => last_char s'
  end.

(** [trimmed p s r]: [r] is [s] without its leading and its trailing
    characters of the class [p]; [rtrimmed p s r]: without the trailing
    ones. *)
Definition trimmed (p : ascii -> bool) (s r : string) : Prop :=
  exists a b, s = a +:+ r +:+ b
    /\ all_chars p a = true /\ all_chars p b = true
    /\ (forall c, head_char r = Some c -> p c = false)
    /\ (forall c, last_char r = Some c -> p c = false).

Definition rtrimmed (p : ascii -> bool) (s r : string) : Prop :=
  exists b, s = r +:+ b /\ all_chars p b = true
    /\ (forall c, last_char r = Some c -> p c = false).

(** An item of a quoted list and what the code makes of it: one layer of
    double quotes is taken off an item that has them on both ends; from any
    other item the double quotes on either end go, then the single quotes
    on either end. *)
Definition cleans_to (item cleaned : string) : Prop :=
  (exists inner, item = DQ +:+ inner +:+ DQ /\ cleaned = inner)
  \/ ((forall inner, item <> DQ +:+ inner +:+ DQ)
      /\ exists mid, trimmed (Ascii.eqb "034") item mid
                     /\ trimmed (Ascii.eqb "039") mid cleaned).

(** The quoted-list rule as the specification words it, to compare with
    [_parse_value]: a quote is taken off an item only when the same quote
    character is on both of its ends. *)
Definition spec_clean_item (item : string) : string :=
  if (2 <=? Z.of_nat (String.length item))
     && ((Py.startswith DQ item && Py.endswith DQ item)
         || (Py.startswith SQ item && Py.endswith SQ item))
  then Py.slice_inner item else item.

Definition spec_parse_quoted (raw : string) : ConfigValue :=
  match map spec_clean_item (map Py.strip (Py.split "," (Py.strip raw))) with
  | [one] => CStr one
  | cleaned => CList cleaned
  end.


(** The head [os.path.split] makes of the text up to the last slash. *)
Definition head_of (h : string) : string :=
  if all_chars (Ascii.eqb "/") h then h else Py.rstrip_chars "/" h.

(** The value a dict object holds at a key. *)
Definition key_at (h : heap) (l : nat) (k : string) : option value :=
  h !! l ≫= (fun d : gmap string value => d !! k).

(** A computation that leaves the key [k] of every dict object as it is. *)
Definition keeps (k : string) {A : Type} (m : M A) : Prop :=
  forall h h' r l, m h = (h', r) -> key_at h' l k = key_at h l k.

(** The text of a path field as the amended claim reads it.  A field is
    given when it is present, its value is truthy (a [str] that is not
    empty, an [int] that is not 0, a [float] that is not zero, a list that
    is not empty) and the value as a [str], trimmed, is not empty.  The text
    of a given field is that trimmed [str]; the text of any other field is
    the empty string. *)
Definition field_text (host : Host) (cfg : gmap string ConfigValue)
    (key : string) : string :=
  match cfg !! key with
  | None => EmptyString
  | Some (CStr s) => Py.strip s
  | Some (CInt z) => if z =? 0 then EmptyString else str_of_int z
  | Some (CFloat x) =>
      if float_bool host x then Py.strip (float_str host x) else EmptyString
  | Some (CList []) => EmptyString
  | Some (CList items) => Py.strip (list_str host items)
  end.

(** The fallback order of the amended claim, rule by rule: the destination
    chosen for the texts of the three path fields, with [fallback] the file
    name the store already has. *)
Inductive fallback_rule (host : Host) (cfg : gmap string ConfigValue)
    (fallback : string) : string -> Prop :=
| rule_storage_location :
    field_text host cfg "StorageLocation" <> EmptyString ->
    fallback_rule host cfg fallback
      (expand_template (field_text host cfg "StorageLocation")
         (placeholders_of host cfg))
| rule_root_and_template :
    field_text host cfg "StorageLocation" = EmptyString ->
    field_text host cfg "StudyRoot" <> EmptyString ->
    field_text host cfg "PathTemplate" <> EmptyString ->
    fallback_rule host cfg fallback
      (PosixPath.join (field_text host cfg "StudyRoot")
         (expand_template (field_text host cfg "PathTemplate")
            (placeholders_of host cfg)))
| rule_root_only :
    field_text host cfg "StorageLocation" = EmptyString ->
    field_text host cfg "StudyRoot" <> EmptyString ->
    field_text host cfg "PathTemplate" = EmptyString ->
    fallback_rule host cfg fallback
      (PosixPath.join (field_text host cfg "StudyRoot")
         ("LabRecorder_" +:+ hostname host +:+ "_"
          +:+ utc_datetime_token host +:+ "_eeg.xdf"))
| rule_template_only :
    field_text host cfg "StorageLocation" = EmptyString ->
    field_text host cfg "StudyRoot" = EmptyString ->
    field_text host cfg "PathTemplate" <> EmptyString ->
    fallback_rule host cfg fallback
      (expand_template (field_text host cfg "PathTemplate")
         (placeholders_of host cfg))
| rule_default :
    field_text host cfg "StorageLocation" = EmptyString ->
    field_text host cfg "StudyRoot" = EmptyString ->
    field_text host cfg "PathTemplate" = EmptyString ->
    fallback_rule host cfg fallback fallback.

(** The fallback order as the specification words it, to compare with
    [build_filename_from_cfg]: a field counts when it is present and its
    value, as a string, is not empty. *)
Definition spec_field (host : Host) (cfg : gmap string ConfigValue)
    (key : string) : string :=
  match cfg !! key with
  | Some v => str_of host v
  | None => EmptyString
  end.

Definition spec_build_filename (host : Host) (cfg : gmap string ConfigValue)
    : string :=
  let study_root := spec_field host cfg "StudyRoot" in
  let storage_location := spec_field host cfg "StorageLocation" in
  let path_template := spec_field host cfg "PathTemplate" in
  let placeholders := placeholders_of host cfg in
  let dest :=
    if Py.nonempty storage_location then
      expand_template storage_location placeholders
    else if Py.nonempty study_root && Py.nonempty path_template then
      PosixPath.join study_root (expand_template path_template placeholders)
    else if Py.nonempty study_root then
      PosixPath.join study_root
        ("LabRecorder_" +:+ hostname host +:+ "_"
         +:+ utc_datetime_token host +:+ "_eeg.xdf")
    else if Py.nonempty path_template then
      expand_template path_template placeholders
    else "recording.xdf" in
  finish_dest host dest.

(** The value a list of segments leads to from [v], through nested dicts:
    what the specification calls the stored value at a dot path. *)
Inductive resolves (h : heap) : value -> list string -> value -> Prop :=
| resolves_here (v : value) : resolves h v [] v
| resolves_step (l : nat) (d : gmap string value) (k : string) (v : value)
    (keys : list string) (w : value) :
    h !! l = Some d -> d !! k = Some v -> resolves h v keys w ->
    resolves h (VDict l) (k :: keys) w.

(** A heap is closed when every dict reference in it is to one of its
    objects; a Python heap is. *)
Definition value_closed (n : nat) (v : value) : Prop :=
  match v with VDict l => (l < n)%nat | _ => True end.

Definition heap_closed (h : heap) : Prop :=
  Forall (map_Forall (fun (_ : string) v => value_closed (length h) v)) h.

#[global] Instance value_closed_dec (n : nat) (v : value) : Decision (value_closed n v).
Proof. destruct v; simpl; apply _. Defined.

(** What [set] meets on its way along the segments: [Clear] when every
    segment before the last is absent or holds a dict, [Blocked] when one of
    them, or the place of the last, holds something that is no dict. *)
Inductive scan : Type := Clear | Blocked | Dangling.

Fixpoint path_scan (h : heap) (keys : list string) (v : value) : scan :=
  match keys with
  | [] => Clear
  | k :: keys' =>
      match v with
      | VDict l =>
          match h !! l with
          | Some d =>
              match keys' with
              | [] => Clear
              | _ :: _ =>
                  match d !! k with
                  | Some v' => path_scan h keys' v'
                  | None => Clear
                  end
              end
          | None => Dangling
          end
      | _ => Blocked
      end
  end.

(** The dict objects the segments lead through. *)
Fixpoint path_locs (h : heap) (keys : list string) (v : value) : list nat :=
  match keys, v with
  | k :: keys', VDict l =>
      l :: match key_at h l k with
           | Some v' => path_locs h keys' v'
           | None => []
           end
  | _, _ => []
  end.

(** The body of [set] from a value on, for a list of segments. *)
Definition set_from (keys : list string) (v : value) (x : value) : M unit :=
  config <- Config.set_walk (removelast keys) v ;;
  setitem config (List.last keys EmptyString) x.

(** Two instances made one after the other, [Config()] twice, at the
    locations 4 and 5 of the heap [two_instances]. *)
Definition two_instances (host : Host) (files : Files) : heap :=
  (Config.__init__ host files None
     (Config.__init__ host files None Config.initial_heap).1).1.

(** A host and a file system for the closed instances of the theorems. *)
Definition sample_host : Host :=
  {| hostname := "lab";
     utc_datetime_token := "2024-01-02T030405.678Z";
     utc_date_token := "2024-01-02";
     utc_time_token := "030405.678Z";
     expanduser := fun p => p;
     expandvars := fun p => p;
     float_str := fun x => x;
     float_bool := fun _ => true;
     float_int := fun _ => Some 0;
     list_str := fun _ => "[]" |}.

Definition sample_lines : list string :=
  ["StorageLocation=out"; "RequiredStreams=EEG"; "RCSPort=7"].

Definition sample_files : Files :=
  {| exists_path := fun _ => true;
     read_cfg_lines := fun _ => Returns sample_lines;
     load_json := fun _ => Raises JSONDecodeError |}.

(** A file system where no file can be read. *)
Definition broken_files : Files :=
  {| exists_path := fun _ => true;
     read_cfg_lines := fun _ => Raises OSError;
     load_json := fun _ => Raises OSError |}.

(** The [streams] entry of an instance is absent or holds a dict. *)
Definition streams_is_mapping (h : heap) (self : nat) : Prop :=
  forall v, key_at h self "streams" = Some v -> exists l, v = VDict l.

(** A computation that raises in no heap. *)
Definition never_raises {A : Type} (m : M A) : Prop :=
  forall h h' e, m h <> (h', Raise e).

(** A computation that is safe from heaps of [n0] objects on: it keeps a
    closed heap closed, drops no object, is never [Stuck], and its value
    satisfies [Q] at the size of the heap it leaves. *)
Definition safe {A : Type} (n0 : nat) (m : M A) (Q : A -> nat -> Prop) : Prop :=
  forall h, heap_closed h -> (n0 <= length h)%nat ->
  exists h' r, m h = (h', r) /\ heap_closed h' /\ (length h <= length h')%nat
    /\ match r with
       | Ok a => Q a (length h')
       | Raise _ => True
       | Stuck => False
       end.

Definition any {A : Type} : A -> nat -> Prop := fun _ _ => True.

(** ** Further predicates and source functions *)

(** A character the sanitizer keeps. *)
Definition plain (c : ascii) : bool := negb (windows_invalid c).

(** The keys of the dicts of a parsed tree, at every depth.  A list is kept
    by value: the dicts inside it are no dict objects of the store. *)
Fixpoint tree_keys (t : tree) : list string :=
  match t with
  | TDict items =>
      (fix keys_of (items : list (string * tree)) : list string :=
         match items with
         | [] => []
         | (k, t') :: rest => k :: (tree_keys t' ++ keys_of rest)%list
         end) items
  | _ => []
  end.

(** [extends h h']: the heap [h'] has every dict object of [h] and every
    entry of these, with the same or with another value. *)
Definition extends (h h' : heap) : Prop :=
  (length h <= length h')%nat
  /\ forall l k, is_Some (key_at h l k) -> is_Some (key_at h' l k).

(** A computation that removes no entry and no dict object. *)
Definition grows {A : Type} (m : M A) : Prop :=
  forall h h' r, m h = (h', r) -> extends h h'.

(** A computation that leaves the key [k] of every dict object as it is and
    whose value satisfies [Q]. *)
Definition keeps_with (k : string) {A : Type} (m : M A) (Q : A -> Prop) : Prop :=
  forall h h' r l, m h = (h', r) ->
    key_at h' l k = key_at h l k
    /\ match r with Ok a => Q a | _ => True end.

(** The value a parsed tree is stored as when it is no dict. *)
Definition tree_value (t : tree) : option value :=
  match t with
  | TNone => Some VNone
  | TBool b => Some (VBool b)
  | TInt z => Some (VInt z)
  | TFloat x => Some (VFloat x)
  | TStr s => Some (VStr s)
  | TList items => Some (VList items)
  | TDict _ => None
  end.

(** The document that nests [t] under a list of keys: for the keys [a] and
    [b], the document with the one key [a], whose value has the one key [b],
    whose value is [t]. *)
Definition path_tree (keys : list string) (t : tree) : tree :=
  foldr (fun k t' => TDict [(k, t')]) t keys.

(** [cfg_loader._parse_required_streams]; the items of a parsed list are
    [str] already. *)
Definition _parse_required_streams (host : Host)
    (cfg : gmap string ConfigValue) : list string :=
  match cfg !! "RequiredStreams" with
  | None => []
  | Some (CList items) => map (fun x => str_of host (CStr x)) items
  | Some raw => [str_of host raw]
  end.

(** The settings [cfg_loader.run_with_cfg] computes from the parsed file
    before it makes the recorder. *)
Module RunWithCfg.



(** [int(rc_port)] under [try], with 22345 on any exception. *)
Definition rc_port (host : Host) (cfg : gmap string ConfigValue) : Z :=
  let rc_port := default (CInt 22345) (cfg !! "RCSPort") in
  match int_of host rc_port with
  | Returns i => i
  | Raises _ => 22345
  end.


End RunWithCfg.

(** What a parsed field makes of the entry [old]: the new value when [int]
    returns, [old] when the field is missing or [int] raises. *)
Definition field_result (host : Host) (raw : option ConfigValue)
    (f : Z -> value) (old : option value) : option value :=
  match raw with
  | Some raw =>
      match int_of host raw with
      | Returns z => Some (f z)
      | Raises _ => old
      end
  | None => old
  end.

(** ** The time stamps *)

(** What [datetime.now(timezone.utc)] returns: the fields of the clock
    reading. *)
Record DateTime : Type := {
  year : Z; month : Z; day : Z;
  hour : Z; minute : Z; second : Z; microsecond : Z;
}.

(** The ranges of the fields of a [datetime], for a year of four digits. *)
Definition valid_datetime (dt : DateTime) : Prop :=
  1000 <= year dt <= 9999 /\ 1 <= month dt <= 12 /\ 1 <= day dt <= 31
  /\ 0 <= hour dt <= 23 /\ 0 <= minute dt <= 59 /\ 0 <= second dt <= 59
  /\ 0 <= microsecond dt <= 999999.

Fixpoint zeros (n : nat) : string :=
  match n with O => EmptyString | S n' => String "0" (zeros n') end.

(** A number that is not negative as decimal digits, with zeros on the
    left up to the width [w]: the format [0wd], and the directives [%m],
    [%d], [%H], [%M], [%S] with [w] 2 and [%Y] with [w] 4. *)
Definition zero_pad (w : nat) (n : Z) : string :=
  let s := str_of_int n in zeros (w - String.length s) +:+ s.

(** [dt.strftime('%Y-%m-%d')] and [dt.strftime('%H%M%S')]. *)
Definition strftime_date (dt : DateTime) : string :=
  zero_pad 4 (year dt) +:+ "-" +:+ zero_pad 2 (month dt) +:+ "-"
  +:+ zero_pad 2 (day dt).

Definition strftime_time (dt : DateTime) : string :=
  zero_pad 2 (hour dt) +:+ zero_pad 2 (minute dt) +:+ zero_pad 2 (second dt).

(** [int(dt.microsecond / 1000)]. *)
Definition millis (dt : DateTime) : Z := microsecond dt / 1000.

(** [_utc_datetime_token], [_utc_date_token] and [_utc_time_token], the same
    in both files, for the clock reading [dt]. *)
Definition _utc_datetime_token (dt : DateTime) : string :=
  (strftime_date dt +:+ "T" +:+ strftime_time dt) +:+ "."
  +:+ zero_pad 3 (millis dt) +:+ "Z".

Definition _utc_date_token (dt : DateTime) : string := strftime_date dt.

Definition _utc_time_token (dt : DateTime) : string :=
  strftime_time dt +:+ "." +:+ zero_pad 3 (millis dt) +:+ "Z".

(** A character of a time stamp: a digit, a hyphen, [T], a dot or [Z]. *)
Definition stamp_char (c : ascii) : bool := Py.isdigit c || Py.mem c "-T.Z".

(** A field that prints as [w] digits. *)
Definition pad_good (w : nat) (n : Z) : bool :=
  (String.length (zero_pad w n) =? w)%nat && all_chars Py.isdigit (zero_pad w n).

(** A clock reading for the closed instances of the theorems. *)
Definition sample_datetime : DateTime :=
  {| year := 2024; month := 1; day := 2; hour := 3; minute := 4;
     second := 5; microsecond := 678901 |}.

(** [__init__] is given no file to load: no name, an empty name, or the
    name of a file that does not exist. *)
Definition no_file (files : Files) (config_file : option string) : Prop :=
  match config_file with
  | Some path => Py.nonempty path && exists_path files path = false
  | None => True
  end.

(** [cfg_loader.parse_cfg_file]: the lines of the file, through the loop
    with the [_strip_comment] of [cfg_loader.py].  This is the dict
    [run_with_cfg] works on. *)
Definition parse_cfg_file (files : Files) (path : string)
    : outcome (gmap string ConfigValue) :=
  match read_cfg_lines files path with
  | Returns lines => Returns (parse_lines CfgLoader._strip_comment lines)
  | Raises e => Raises e
  end.

(** A key that starts with a comment marker. *)
Definition commented_key (k : string) : bool :=
  match k with
  | String m _ => is_marker m
  | EmptyString => false
  end.

(** A file with commented lines, indented and not, for the closed
    instances of the theorems. *)
Definition commented_lines : list string :=
  ["  ;RCSPort=9"; "RCSPort=7"; "  # RCSEnabled=1"; "RCSEnabled=0";
   "# AutoStart=0"; "AutoStart=1"; "  ; RequiredStreams=none";
   "RequiredStreams=EEG"].

Definition commented_files : Files :=
  {| exists_path := fun _ => true;
     read_cfg_lines := fun _ => Returns commented_lines;
     load_json := fun _ => Raises JSONDecodeError |}.

(** * Properties *)

(** ** The primitives on examples *)

Example replace_examples :
  Py.replace "ab" "X" "ababa-abab" = "XXa-XX"
  /\ Py.replace "aa" "b" "aaa" = "ba"
  /\ Py.replace EmptyString "-" "ab" = "-a-b-".
Proof. vm_compute. done. Qed.

Example find_examples :
  Py.find ";" "val=a;b" = 5 /\ Py.find "#" "val=a;b" = -1
  /\ Py.rfind "/" "a/b/c" = 3 /\ Py.rfind "/" "abc" = -1.
Proof. vm_compute. done. Qed.

Example split_examples :
  Py.split "," "a,,b," = ["a"; EmptyString; "b"; EmptyString]
  /\ Py.split "." "remote_control.port" = ["remote_control"; "port"]
  /\ Py.split "." EmptyString = [EmptyString]
  /\ Py.split1 "=" "k=v=w" = ["k"; "v=w"].
Proof. vm_compute. done. Qed.

Example strip_examples :
  Py.strip "  key=1 " = "key=1"
  /\ Py.rstrip_chars " ." "name. " = "name"
  /\ Py.slice_inner (DQ +:+ "ab" +:+ DQ) = "ab"
  /\ Py.lower "Rec.XDF" = "rec.xdf".
Proof. vm_compute. done. Qed.

Example posixpath_examples :
  PosixPath.split "a//b" = ("a", "b")
  /\ PosixPath.split "/b" = ("/", "b")
  /\ PosixPath.split "b" = (EmptyString, "b")
  /\ PosixPath.split "a/b/" = ("a/b", EmptyString)
  /\ PosixPath.join "/data" "x.xdf" = "/data/x.xdf"
  /\ PosixPath.join "/data/" "x.xdf" = "/data/x.xdf"
  /\ PosixPath.join "/data" "/x.xdf" = "/x.xdf".
Proof. vm_compute. done. Qed.

Example parse_value_examples :
  _parse_value " -12 " = CInt (-12)
  /\ _parse_value "0" = CInt 0
  /\ _parse_value ".5" = CFloat ".5"
  /\ _parse_value "1.5.2" = CStr "1.5.2"
  /\ _parse_value "  " = CStr EmptyString
  /\ _parse_value "%p_%r" = CStr "%p_%r".
Proof. vm_compute. done. Qed.

Example int_of_str_examples :
  int_of_str " -1_000 " = Returns (-1000)
  /\ int_of_str "+7" = Returns 7
  /\ int_of_str "1__0" = Raises ValueError
  /\ int_of_str EmptyString = Raises ValueError.
Proof. vm_compute. done. Qed.

Example build_filename_examples :
  build_filename_from_cfg sample_host
    (parse_lines CfgLoader._strip_comment ["StudyRoot=/data"])
  = "/data/LabRecorder_lab_2024-01-02T030405.678Z_eeg.xdf"
  /\ build_filename_from_cfg sample_host
       (parse_lines CfgLoader._strip_comment
          ["StudyRoot=/data"; "PathTemplate=sub-%p/%b_%datetime"])
     = "/data/sub-P001/task_2024-01-02T030405.678Z.xdf"
  /\ build_filename_from_cfg sample_host
       (parse_lines CfgLoader._strip_comment
          ["StorageLocation=%hostname.xdf"; "StudyRoot=/data"; "PathTemplate=x"])
     = "lab.xdf".
Proof. vm_compute. done. Qed.

(** ** Strings *)

#[local] Arguments String.append !_ _ / : simpl nomatch.

Lemma str_app_empty_r (s : string) : s +:+ EmptyString = s.
Proof. induction s as [|c s IH]; simpl; [done | by rewrite IH]. Qed.

Lemma str_app_assoc (a b c : string) : (a +:+ b) +:+ c = a +:+ (b +:+ c).
Proof. induction a as [|x a IH]; simpl; [done | by rewrite IH]. Qed.

Lemma str_length_app (a b : string) :
  String.length (a +:+ b) = (String.length a + String.length b)%nat.
Proof. induction a as [|x a IH]; simpl; [done | by rewrite IH]. Qed.

Lemma prefix_char (c d : ascii) (s : string) :
  String.prefix (String c EmptyString) (String d s) = Ascii.eqb c d.
Proof.
  simpl. destruct (ascii_dec c d) as [->|Hne].
  - rewrite Ascii.eqb_refl. by destruct s.
  - symmetry. by apply Ascii.eqb_neq.
Qed.

Lemma take_app_length (a b : string) : Py.take (String.length a) (a +:+ b) = a.
Proof. induction a as [|x a IH]; simpl; [by destruct b | by rewrite IH]. Qed.

Lemma drop_app_length (a b : string) : Py.drop (String.length a) (a +:+ b) = b.
Proof. induction a as [|x a IH]; simpl; [by destruct b | done]. Qed.

Lemma bound_inside (s : string) (n : nat) :
  (n <= String.length s)%nat -> Py.bound s (Z.of_nat n) = n.
Proof. intros Hn. unfold Py.bound. destruct (Z.ltb_spec (Z.of_nat n) 0); lia. Qed.

Lemma slice_to_app (a b : string) :
  Py.slice_to (a +:+ b) (Z.of_nat (String.length a)) = a.
Proof.
  unfold Py.slice_to. rewrite bound_inside; [apply take_app_length|].
  rewrite str_length_app. lia.
Qed.

Lemma slice_from_app (a b : string) :
  Py.slice_from (a +:+ b) (Z.of_nat (String.length a)) = b.
Proof.
  unfold Py.slice_from. rewrite bound_inside; [apply drop_app_length|].
  rewrite str_length_app. lia.
Qed.

(** The first occurrence of a character: either there is none, or the
    string splits at it. *)
Lemma find_char_cases (c : ascii) (s : string) :
  (Py.mem c s = false /\ Py.find (String c EmptyString) s = -1)
  \/ (exists a b, s = a +:+ String c b /\ Py.mem c a = false
        /\ Py.find (String c EmptyString) s = Z.of_nat (String.length a)).
Proof.
  induction s as [|d s IH].
  - left. done.
  - cbn [Py.find]. rewrite prefix_char. cbn [Py.mem].
    destruct (Ascii.eqb c d) eqn:Hcd.
    + right. exists EmptyString, s. apply Ascii.eqb_eq in Hcd as ->. done.
    + destruct IH as [[Hm Hf]|(a & b & -> & Hm & Hf)].
      * left. rewrite Hf. done.
      * right. exists (String d a), b. simpl. rewrite Hcd, Hm, Hf.
        split_and!; [done..|].
        destruct (Z.ltb_spec (Z.of_nat (String.length a)) 0); lia.
Qed.

Lemma lstrip_all (p : ascii -> bool) (a t : string) :
  all_chars p a = true -> Py.lstrip_by p (a +:+ t) = Py.lstrip_by p t.
Proof.
  induction a as [|x a IH]; simpl; [done|].
  intros [Hx Ha]%andb_true_iff. rewrite Hx. auto.
Qed.

Lemma lstrip_some (p : ascii -> bool) (a t : string) :
  all_chars p a = false -> Py.lstrip_by p (a +:+ t) = Py.lstrip_by p a +:+ t.
Proof.
  induction a as [|x a IH]; simpl; [done|].
  destruct (p x); simpl; [auto | done].
Qed.

Lemma rstrip_empty_iff (p : ascii -> bool) (s : string) :
  Py.rstrip_by p s = EmptyString <-> all_chars p s = true.
Proof.
  induction s as [|x s IH]; simpl; [done|].
  destruct (Py.rstrip_by p s) eqn:Hr.
  - destruct IH as [IH _]. rewrite (IH eq_refl), andb_true_r.
    destruct (p x); naive_solver.
  - split; [done|]. intros [_ Hs]%andb_true_iff.
    destruct IH as [_ IH]. by specialize (IH Hs).
Qed.

Lemma lstrip_all_chars (p : ascii -> bool) (s : string) :
  all_chars p (Py.lstrip_by p s) = all_chars p s.
Proof.
  induction s as [|x s IH]; simpl; [done|].
  destruct (p x) eqn:Hx; simpl; [done | by rewrite Hx].
Qed.

Lemma strip_empty_iff (s : string) :
  Py.strip s = EmptyString <-> all_chars Py.isspace s = true.
Proof. unfold Py.strip. by rewrite rstrip_empty_iff, lstrip_all_chars. Qed.

Lemma all_chars_mem (p : ascii -> bool) (c : ascii) (s : string) :
  all_chars p s = true -> p c = false -> Py.mem c s = false.
Proof.
  induction s as [|x s IH]; simpl; [done|].
  intros [Hx Hs]%andb_true_iff Hc. rewrite IH by done.
  destruct (Ascii.eqb_spec c x) as [->|]; [congruence | done].
Qed.

Lemma mem_app_char (c x : ascii) (a b : string) :
  Py.mem c (a +:+ String x b) = Py.mem c a || (Ascii.eqb c x || Py.mem c b).
Proof. induction a as [|y a IH]; simpl; [done | by rewrite IH, orb_assoc]. Qed.

Lemma str_all_chars_app (p : ascii -> bool) (a b : string) :
  all_chars p (a +:+ b) = all_chars p a && all_chars p b.
Proof. induction a as [|x a IH]; simpl; [done | by rewrite IH, andb_assoc]. Qed.

Lemma all_chars_false_lstrip (p : ascii -> bool) (s : string) :
  all_chars p s = false ->
  exists m r, Py.lstrip_by p s = String m r /\ p m = false.
Proof.
  induction s as [|x s IH]; simpl; [done|].
  destruct (p x) eqn:Hx; simpl; [auto | eauto].
Qed.

(** ** Comment stripping *)

Lemma marker_cases (c : ascii) :
  is_marker c = true -> c = ";"%char \/ c = "#"%char.
Proof.
  unfold is_marker. simpl.
  destruct (Ascii.eqb_spec c ";"); [auto|].
  destruct (Ascii.eqb_spec c "#"); [auto | done].
Qed.

Lemma marker_not_space (c : ascii) : is_marker c = true -> Py.isspace c = false.
Proof. by intros [->| ->]%marker_cases. Qed.

(** A marker that comes after blanks only, and not at column 0, makes the
    line an indented comment. *)
Lemma blank_prefix_indented (c x : ascii) (a b : string) :
  is_marker c = true -> all_chars Py.isspace (String x a) = true ->
  indented_comment (String x a +:+ String c b) = true.
Proof.
  intros Hc Hall. unfold indented_comment.
  rewrite (lstrip_all _ _ _ Hall). simpl in *.
  apply andb_true_iff in Hall as [-> _].
  by rewrite (marker_not_space _ Hc).
Qed.

Lemma strip_comment_sep_agree (c : ascii) (line : string) :
  is_marker c = true -> indented_comment line = false ->
  CfgLoader.strip_comment_sep (String c EmptyString) line
  = UtilsConfig.strip_comment_sep (String c EmptyString) line.
Proof.
  intros Hc Hline.
  unfold CfgLoader.strip_comment_sep, UtilsConfig.strip_comment_sep, Py.contains.
  destruct (find_char_cases c line) as [[_ ->]|(a & b & -> & _ & ->)]; [done|].
  rewrite slice_to_app.
  destruct (Z.leb_spec 0 (Z.of_nat (String.length a))); [|lia].
  destruct a as [|x a]; [done|].
  destruct (String.eqb_spec (Py.strip (String x a)) EmptyString) as [He|_].
  - apply strip_empty_iff in He.
    by rewrite (blank_prefix_indented c x a b) in Hline.
  - by rewrite orb_true_r.
Qed.

Lemma strip_comment_sep_keeps (c : ascii) (line : string) :
  is_marker c = true -> indented_comment line = false ->
  indented_comment (UtilsConfig.strip_comment_sep (String c EmptyString) line) = false.
Proof.
  intros Hc Hline. unfold UtilsConfig.strip_comment_sep, Py.contains.
  destruct (find_char_cases c line) as [[_ ->]|(a & b & -> & _ & ->)]; [done|].
  rewrite slice_to_app.
  destruct (Z.leb_spec 0 (Z.of_nat (String.length a))); [|lia].
  destruct a as [|x a]; [done|].
  destruct (all_chars Py.isspace (String x a)) eqn:Hall.
  - by rewrite (blank_prefix_indented c x a b) in Hline.
  - unfold indented_comment in *.
    rewrite (lstrip_some _ _ _ Hall) in Hline.
    destruct (all_chars_false_lstrip _ _ Hall) as (m & r & Hm & _).
    rewrite Hm in *. exact Hline.
Qed.

(** C1: the comment rule of the specification fails on the code.  On the
    line [val=a;b] the semicolon follows a non-blank character, and both
    copies of [_strip_comment] cut the line there, so the parsed value is
    [a] and not [a;b]; in [cfg_loader.py] a marker that follows blanks only
    is not cut, against the comment in the function.  The line
    [key=1 ; trailing] does parse to the integer 1. *)
Theorem C1_strip_comment_cuts_embedded_marker :
  CfgLoader._strip_comment "val=a;b" = "val=a"
  /\ UtilsConfig._strip_comment "val=a;b" = "val=a"
  /\ parse_lines CfgLoader._strip_comment ["val=a;b"] !! "val" = Some (CStr "a")
  /\ parse_lines UtilsConfig._strip_comment ["val=a;b"] !! "val" = Some (CStr "a")
  /\ CfgLoader._strip_comment "  ; note" = "; note"
  /\ parse_lines CfgLoader._strip_comment ["key=1 ; trailing"] !! "key" = Some (CInt 1)
  /\ parse_lines UtilsConfig._strip_comment ["key=1 ; trailing"] !! "key" = Some (CInt 1).
Proof. vm_compute. repeat split; reflexivity. Qed.

(** The two copies agree on every line that is not an indented comment
    line (blanks, then a marker). *)
Lemma copies_agree_off_indented (line : string) :
  indented_comment line = false ->
  CfgLoader._strip_comment line = UtilsConfig._strip_comment line.
Proof.
  intros Hline. unfold CfgLoader._strip_comment, UtilsConfig._strip_comment.
  cbn [fold_left]. f_equal.
  rewrite (strip_comment_sep_agree ";" line) by done.
  apply strip_comment_sep_agree; [done|].
  by apply strip_comment_sep_keeps.
Qed.

(** ** Template expansion *)

Lemma prefix_app (p s : string) :
  String.prefix p s = true -> exists b, s = p +:+ b.
Proof.
  revert s. induction p as [|x p IH]; intros s; simpl.
  - intros _. by exists s.
  - destruct s as [|y s]; [done|]. cbn [String.prefix].
    destruct (ascii_dec x y) as [->|]; [|done].
    intros [b ->]%IH. by exists b.
Qed.

Lemma replace_from_skip (old new x b : string) :
  Py.replace_from old new (String.length x) (x +:+ b) = Py.replace_from old new 0 b.
Proof. induction x as [|c x IH]; simpl; [by destruct b | done]. Qed.

(** One pass of [str.replace] for a non-empty [old]: either [old] does not
    occur and nothing changes, or the string splits at the first occurrence,
    [new] is written there, and the pass goes on behind the occurrence. *)
Lemma replace_cases (o : ascii) (old' new s : string) :
  let old := String o old' in
  (Py.contains old s = false /\ Py.replace old new s = s)
  \/ (exists a b, s = a +:+ old +:+ b
        /\ Py.find old s = Z.of_nat (String.length a)
        /\ Py.replace old new s = a +:+ new +:+ Py.replace old new b).
Proof.
  intros old. unfold Py.contains, Py.replace.
  induction s as [|c s IH].
  - left. done.
  - cbn [Py.find Py.replace_from].
    destruct (String.prefix old (String c s)) eqn:Hp.
    + right. apply prefix_app in Hp as [b Hb]. exists EmptyString, b.
      split_and!; [done..|]. subst old. simpl in Hb. injection Hb as -> ->.
      simpl. by rewrite Nat.sub_0_r, replace_from_skip.
    + destruct IH as [[Hc Hr]|(a & b & -> & Hf & Hr)].
      * left. rewrite Hr. split; [|done].
        destruct (Z.leb_spec 0 (Py.find old s)); [done|].
        by destruct (Z.ltb_spec (Py.find old s) 0); [|lia].
      * right. exists (String c a), b. rewrite Hf, Hr.
        split_and!; [done| |done].
        destruct (Z.ltb_spec (Z.of_nat (String.length a)) 0); simpl; lia.
Qed.

Lemma expand_template_snoc (template : string) (ps : list (string * string))
    (k v : string) :
  expand_template template (ps ++ [(k, v)])%list
  = Py.replace ("%" +:+ k) v (expand_template template ps).
Proof. unfold expand_template. by rewrite fold_left_app. Qed.

(** C3, as stated: a substituted value is scanned by the passes of the
    later placeholders.  With [p] set to [%r], the template [%p] expands to
    the value of [r], where one scan of the template gives [%r]. *)
Lemma C3_value_rescanned :
  expand_template "%p" [("p", "%r"); ("r", "01")] = "01"
  /\ spec_expand_template "%p" [("p", "%r"); ("r", "01")] = "%r"
  /\ expand_template "%p" [("p", "%r"); ("r", "01")]
     <> spec_expand_template "%p" [("p", "%r"); ("r", "01")].
Proof. vm_compute. split_and!; [reflexivity..|discriminate]. Qed.

(** C3, amended: template expansion is one [str.replace] pass per
    placeholder, in the order of the set, each on the result of the pass
    before.  A pass replaces the occurrences of [%name] from left to right:
    when there is none the string is unchanged, otherwise the value is
    written at the first occurrence and the pass goes on behind it, so a
    pass does not scan what it has written itself. *)
Theorem C3_expand_template_passes (template : string)
    (ps : list (string * string)) (k v : string) :
  expand_template template [] = template
  /\ expand_template template (ps ++ [(k, v)])%list
     = Py.replace ("%" +:+ k) v (expand_template template ps)
  /\ forall s,
       (Py.contains ("%" +:+ k) s = false /\ Py.replace ("%" +:+ k) v s = s)
       \/ (exists a b, s = a +:+ ("%" +:+ k) +:+ b
             /\ Py.find ("%" +:+ k) s = Z.of_nat (String.length a)
             /\ Py.replace ("%" +:+ k) v s
                = a +:+ v +:+ Py.replace ("%" +:+ k) v b).
Proof.
  split_and!; [done | apply expand_template_snoc |].
  intros s. apply (replace_cases "%" k v s).
Qed.

(** ** Quoted values *)

Lemma all_chars_ext (p q : ascii -> bool) (s : string) :
  (forall c, p c = q c) -> all_chars p s = all_chars q s.
Proof. intros Hpq. induction s as [|c s IH]; simpl; [done | by rewrite Hpq, IH]. Qed.

Lemma lstrip_ext (p q : ascii -> bool) (s : string) :
  (forall c, p c = q c) -> Py.lstrip_by p s = Py.lstrip_by q s.
Proof. intros Hpq. induction s as [|c s IH]; simpl; [done | by rewrite Hpq, IH]. Qed.

Lemma rstrip_ext (p q : ascii -> bool) (s : string) :
  (forall c, p c = q c) -> Py.rstrip_by p s = Py.rstrip_by q s.
Proof. intros Hpq. induction s as [|c s IH]; simpl; [done | by rewrite Hpq, IH]. Qed.

Lemma lstrip_spec (p : ascii -> bool) (s : string) :
  exists a, s = a +:+ Py.lstrip_by p s /\ all_chars p a = true
    /\ forall c, head_char (Py.lstrip_by p s) = Some c -> p c = false.
Proof.
  induction s as [|x s (a & Hs & Ha & Hh)]; simpl.
  - by exists EmptyString.
  - destruct (p x) eqn:Hx.
    + exists (String x a). simpl. rewrite Hx, Ha, <- Hs. done.
    + exists EmptyString. split_and!; [done..|]. simpl. congruence.
Qed.

Lemma last_char_cons (x : ascii) (s : string) :
  s <> EmptyString -> last_char (String x s) = last_char s.
Proof. by destruct s. Qed.

Lemma rstrip_spec (p : ascii -> bool) (s : string) : rtrimmed p s (Py.rstrip_by p s).
Proof.
  unfold rtrimmed.
  induction s as [|x s (b & Hs & Hb & Hl)]; cbn [Py.rstrip_by].
  - by exists EmptyString.
  - destruct (Py.rstrip_by p s) as [|y r] eqn:Hr.
    + destruct (p x) eqn:Hx.
      * exists (String x s). simpl in Hs. subst b. simpl. by rewrite Hx, Hb.
      * exists b. simpl in *. split_and!; [by rewrite <- Hs | done | congruence].
    + exists b. split_and!; [simpl; f_equal; exact Hs | done |].
      by rewrite last_char_cons.
Qed.

Lemma strip_by_trimmed (p : ascii -> bool) (s : string) :
  trimmed p s (Py.rstrip_by p (Py.lstrip_by p s)).
Proof.
  destruct (lstrip_spec p s) as (a & Hs & Ha & Hh).
  destruct (rstrip_spec p (Py.lstrip_by p s)) as (b & Hl & Hb & Hlast).
  exists a, b. split_and!; [by rewrite <- Hl | done..| |done].
  intros c Hc. apply Hh. rewrite Hl.
  by destruct (Py.rstrip_by p (Py.lstrip_by p s)).
Qed.

Lemma strip_chars_one (q : ascii) (s : string) :
  trimmed (Ascii.eqb q) s (Py.strip_chars (String q EmptyString) s).
Proof.
  unfold Py.strip_chars.
  assert (forall c, Py.mem c (String q EmptyString) = Ascii.eqb q c) as Hext.
  { intros c. simpl. by rewrite orb_false_r, Ascii.eqb_sym. }
  rewrite (lstrip_ext _ _ _ Hext), (rstrip_ext _ _ _ Hext).
  apply strip_by_trimmed.
Qed.

Lemma endswith_app (a p : string) : Py.endswith p (a +:+ p) = true.
Proof.
  induction a as [|x a IH].
  - simpl. destruct p as [|c p]; cbn [Py.endswith]; by rewrite String.eqb_refl.
  - cbn [String.append Py.endswith]. rewrite IH. by destruct (String.eqb _ _).
Qed.

Lemma endswith_split (p s : string) :
  Py.endswith p s = true -> exists a, s = a +:+ p.
Proof.
  induction s as [|x s IH]; cbn [Py.endswith].
  - destruct (String.eqb_spec p EmptyString) as [->|]; [|done].
    by exists EmptyString.
  - destruct (String.eqb_spec p (String x s)) as [->|_].
    + by exists EmptyString.
    + intros [a ->]%IH. by exists (String x a).
Qed.

Lemma slice_inner_wrapped (q : ascii) (inner : string) :
  Py.slice_inner (String q inner +:+ String q EmptyString) = inner.
Proof.
  unfold Py.slice_inner, Py.bound. cbn [String.append String.length].
  rewrite str_length_app. cbn [String.length].
  replace (_ - _)%nat with (String.length inner).
  - replace (Z.to_nat _) with 1%nat.
    + cbn [Py.drop]. apply take_app_length.
    + destruct (Z.ltb_spec 1 0); lia.
  - destruct (Z.ltb_spec (-1) 0), (Z.ltb_spec 1 0); lia.
Qed.

(** The items with a double quote on both ends are the ones the first
    branch of [clean_item] takes. *)
Lemma wrapped_iff (item : string) :
  Py.startswith DQ item && Py.endswith DQ item
    && (2 <=? Z.of_nat (String.length item)) = true
  <-> exists inner, item = DQ +:+ inner +:+ DQ.
Proof.
  split.
  - intros [[Hs He]%andb_true_iff Hl]%andb_true_iff.
    apply prefix_app in Hs as [rest ->].
    cbn [DQ String.append] in *. cbn [Py.endswith] in He.
    destruct (String.eqb_spec DQ (String "034" rest)) as [Heq|_].
    { injection Heq as <-. simpl in Hl. done. }
    apply endswith_split in He as [inner ->]. by exists inner.
  - intros [inner ->]. unfold DQ. cbn [String.append].
    apply andb_true_iff. split; [apply andb_true_iff; split|].
    + unfold Py.startswith. cbn [String.prefix].
      destruct (ascii_dec "034" "034"); [by destruct (_ +:+ _) | done].
    + apply (endswith_app (String "034" inner) (String "034" EmptyString)).
    + apply Z.leb_le. cbn [String.length]. rewrite str_length_app.
      cbn [String.length]. lia.
Qed.

Lemma clean_item_cleans (item : string) : cleans_to item (clean_item item).
Proof.
  unfold clean_item.
  destruct (_ && _ && _) eqn:Hw.
  - left. apply wrapped_iff in Hw as [inner ->]. exists inner. split; [done|].
    apply slice_inner_wrapped.
  - right. split.
    + intros inner Heq.
      assert (exists i, item = DQ +:+ i +:+ DQ) as Hex by eauto.
      apply wrapped_iff in Hex. congruence.
    + exists (Py.strip_chars DQ item). split; apply strip_chars_one.
Qed.

Lemma split_not_nil (sep : ascii) (s : string) : Py.split sep s <> [].
Proof.
  induction s as [|c s IH]; simpl; [done|].
  destruct (Ascii.eqb c sep); [done|]. by destruct (Py.split sep s).
Qed.

(** C4, as stated: a quote on one end only is taken off as well. *)
Lemma C4_one_sided_quote_stripped :
  Py.contains DQ (Py.strip (DQ +:+ "a")) = true
  /\ _parse_value (DQ +:+ "a") = CStr "a"
  /\ spec_parse_quoted (DQ +:+ "a") = CStr (DQ +:+ "a")
  /\ _parse_value (DQ +:+ "a") <> spec_parse_quoted (DQ +:+ "a").
Proof. vm_compute. split_and!; [reflexivity..|discriminate]. Qed.

(** C4, amended: for a value text that holds a double quote, [_parse_value]
    splits the trimmed text at the commas and trims each item; an item with
    a double quote on both ends loses exactly that one layer, and any other
    item loses every double quote and then every single quote on either
    end; a single resulting element is returned as a string, and two or
    more as a list. *)
Theorem C4_parse_value_quoted (raw : string) :
  Py.contains DQ (Py.strip raw) = true ->
  exists cleaned,
    Forall2 cleans_to (map Py.strip (Py.split "," (Py.strip raw))) cleaned
    /\ cleaned <> []
    /\ _parse_value raw
       = match cleaned with [one] => CStr one | _ => CList cleaned end.
Proof.
  intros Hq. unfold _parse_value. rewrite Hq.
  destruct (Py.strip raw) as [|c s] eqn:Hs; [done|]. cbn [Py.nonempty negb].
  exists (map clean_item (map Py.strip (Py.split "," (String c s)))).
  split_and!; [| |done].
  - apply Forall2_fmap_r, Forall_Forall2_diag, Forall_forall.
    intros item _. apply clean_item_cleans.
  - pose proof (split_not_nil "," (String c s)).
    by destruct (Py.split "," (String c s)).
Qed.

Lemma C4_parse_value_quoted_witness :
  exists cleaned,
    Forall2 cleans_to
      (map Py.strip (Py.split "," (Py.strip (DQ +:+ "a" +:+ DQ +:+ ", " +:+ DQ +:+ "b" +:+ DQ))))
      cleaned
    /\ cleaned <> []
    /\ _parse_value (DQ +:+ "a" +:+ DQ +:+ ", " +:+ DQ +:+ "b" +:+ DQ)
       = match cleaned with [one] => CStr one | _ => CList cleaned end.
Proof.
  apply (C4_parse_value_quoted (DQ +:+ "a" +:+ DQ +:+ ", " +:+ DQ +:+ "b" +:+ DQ)).
  reflexivity.
Defined.

(** The two examples of the specification. *)
Lemma parse_value_quoted_examples :
  _parse_value (DQ +:+ "a" +:+ DQ +:+ ", " +:+ DQ +:+ "b" +:+ DQ) = CList ["a"; "b"]
  /\ _parse_value (DQ +:+ "solo" +:+ DQ) = CStr "solo".
Proof. vm_compute. done. Qed.

(** ** Comment stripping: the indented comment lines *)

Lemma find_char_app (c : ascii) (a b : string) :
  Py.mem c a = false ->
  Py.find (String c EmptyString) (a +:+ String c b) = Z.of_nat (String.length a).
Proof.
  induction a as [|x a IH]; cbn [String.append Py.find Py.mem String.length].
  - intros _. by rewrite prefix_char, Ascii.eqb_refl.
  - intros [Hx Ha]%orb_false_iff. rewrite prefix_char, Hx, (IH Ha).
    destruct (Z.ltb_spec (Z.of_nat (String.length a)) 0); lia.
Qed.

Lemma find_char_absent (c : ascii) (s : string) :
  Py.mem c s = false -> Py.find (String c EmptyString) s = -1.
Proof.
  intros Hs. destruct (find_char_cases c s) as [[_ Hf]|(a & b & -> & _ & _)];
    [done|].
  rewrite mem_app_char in Hs. by rewrite Ascii.eqb_refl, orb_true_r in Hs.
Qed.

Lemma char_cases (c : ascii) (s : string) :
  Py.mem c s = false
  \/ exists a b, s = a +:+ String c b /\ Py.mem c a = false.
Proof.
  destruct (find_char_cases c s) as [[Hs _]|(a & b & Hs & Ha & _)]; eauto.
Qed.

Lemma utils_step_absent (c : ascii) (s : string) :
  Py.mem c s = false -> UtilsConfig.strip_comment_sep (String c EmptyString) s = s.
Proof.
  intros Hs. unfold UtilsConfig.strip_comment_sep, Py.contains.
  by rewrite (find_char_absent c s Hs).
Qed.

Lemma utils_step_split (c : ascii) (a b : string) :
  Py.mem c a = false ->
  UtilsConfig.strip_comment_sep (String c EmptyString) (a +:+ String c b) = a.
Proof.
  intros Ha. unfold UtilsConfig.strip_comment_sep, Py.contains.
  rewrite (find_char_app c a b Ha), slice_to_app.
  by destruct (Z.leb_spec 0 (Z.of_nat (String.length a))); [|lia].
Qed.

Lemma cfg_step_absent (c : ascii) (s : string) :
  Py.mem c s = false -> CfgLoader.strip_comment_sep (String c EmptyString) s = s.
Proof.
  intros Hs. unfold CfgLoader.strip_comment_sep, Py.contains.
  by rewrite (find_char_absent c s Hs).
Qed.

Lemma cfg_step_split (c : ascii) (a b : string) :
  Py.mem c a = false ->
  CfgLoader.strip_comment_sep (String c EmptyString) (a +:+ String c b)
  = if negb (Py.nonempty a) || negb (all_chars Py.isspace a)
    then a else a +:+ String c b.
Proof.
  intros Ha. unfold CfgLoader.strip_comment_sep, Py.contains.
  rewrite (find_char_app c a b Ha), slice_to_app.
  destruct (Z.leb_spec 0 (Z.of_nat (String.length a))); [|lia].
  destruct a as [|x a]; [done|]. cbn [Py.nonempty negb orb].
  replace (Z.of_nat (String.length (String x a)) =? 0) with false
    by (symmetry; apply Z.eqb_neq; simpl; lia).
  cbn [orb].
  destruct (all_chars Py.isspace (String x a)) eqn:Hall.
  - apply strip_empty_iff in Hall as ->. done.
  - destruct (String.eqb_spec (Py.strip (String x a)) EmptyString) as [He|]; [|done].
    apply strip_empty_iff in He. congruence.
Qed.

(** On an indented comment line the two copies differ: [utils/config.py]
    returns the empty string, [cfg_loader.py] a text that starts with the
    marker. *)
Lemma rstrip_head (p : ascii -> bool) (m : ascii) (t : string) :
  p m = false -> exists t', Py.rstrip_by p (String m t) = String m t'.
Proof.
  intros Hm. cbn [Py.rstrip_by]. rewrite Hm.
  destruct (Py.rstrip_by p t); eauto.
Qed.

(** On an indented comment line the copy of [utils/config.py] returns the
    empty string, and the copy of [cfg_loader.py] a text that starts with
    the marker. *)
Lemma strip_comment_indented (line : string) :
  indented_comment line = true ->
  UtilsConfig._strip_comment line = EmptyString
  /\ exists m t, is_marker m = true
       /\ CfgLoader._strip_comment line = String m t.
Proof.
  unfold indented_comment. destruct line as [|c0 rest]; [done|].
  intros [Hc0 Hm]%andb_true_iff.
  destruct (lstrip_spec Py.isspace (String c0 rest)) as (w & Hline & Hw & _).
  destruct (Py.lstrip_by Py.isspace (String c0 rest)) as [|m r] eqn:Hl; [done|].
  assert (Py.nonempty w = true) as Hwne.
  { destruct w; [|done]. simpl in Hline. injection Hline as -> _.
    by rewrite (marker_not_space _ Hm) in Hc0. }
  assert (forall c, is_marker c = true -> Py.mem c w = false) as Hwm.
  { intros c Hc. apply (all_chars_mem _ _ _ Hw). by apply marker_not_space. }
  rewrite Hline. clear Hline Hl Hc0 c0 rest.
  unfold UtilsConfig._strip_comment, CfgLoader._strip_comment. cbn [fold_left].
  assert (forall t, exists m' t', is_marker m' = true
            /\ Py.strip (w +:+ String m t) = String m' t') as Hstrip.
  { intros t. exists m. unfold Py.strip. rewrite (lstrip_all _ w _ Hw).
    cbn [Py.lstrip_by]. rewrite (marker_not_space _ Hm).
    destruct (rstrip_head Py.isspace m t (marker_not_space _ Hm)) as [t' ->].
    eauto. }
  destruct (marker_cases _ Hm) as [-> | ->].
  - (* the marker is a semicolon *)
    rewrite (utils_step_split ";" w r) by auto.
    rewrite (utils_step_absent "#" w) by auto.
    rewrite (cfg_step_split ";" w r) by auto. rewrite Hwne, Hw. cbn [negb orb].
    split; [by apply strip_empty_iff|].
    destruct (char_cases "#" r) as [Hr|(r1 & r2 & -> & Hr1)].
    + rewrite cfg_step_absent; [apply Hstrip|].
      rewrite mem_app_char, Hr, (Hwm "#"%char) by done. done.
    + replace (w +:+ String ";" (r1 +:+ String "#" r2))
        with ((w +:+ String ";" r1) +:+ String "#" r2)
        by (by rewrite str_app_assoc).
      rewrite cfg_step_split.
      * rewrite str_all_chars_app. cbn [all_chars].
        replace (Py.isspace ";") with false by done.
        rewrite andb_false_r, orb_true_r. apply Hstrip.
      * rewrite mem_app_char, Hr1, (Hwm "#"%char) by done. done.
  - (* the marker is a hash *)
    assert (exists r1,
      UtilsConfig.strip_comment_sep ";" (w +:+ String "#" r) = w +:+ String "#" r1
      /\ CfgLoader.strip_comment_sep ";" (w +:+ String "#" r) = w +:+ String "#" r1)
      as (r1 & -> & ->).
    { destruct (char_cases ";" r) as [Hr|(r1 & r2 & -> & Hr1)].
      - exists r. rewrite utils_step_absent, cfg_step_absent; [done| |];
          rewrite mem_app_char, Hr, (Hwm ";"%char) by done; done.
      - exists r1.
        replace (w +:+ String "#" (r1 +:+ String ";" r2))
          with ((w +:+ String "#" r1) +:+ String ";" r2)
          by (by rewrite str_app_assoc).
        assert (Py.mem ";" (w +:+ String "#" r1) = false) as Hno.
        { rewrite mem_app_char, Hr1, (Hwm ";"%char) by done. done. }
        rewrite utils_step_split, cfg_step_split by done.
        rewrite str_all_chars_app. cbn [all_chars].
        replace (Py.isspace "#") with false by done.
        by rewrite andb_false_r, orb_true_r. }
    rewrite (utils_step_split "#" w r1) by auto.
    rewrite (cfg_step_split "#" w r1) by auto. rewrite Hwne, Hw. cbn [negb orb].
    split; [by apply strip_empty_iff | apply Hstrip].
Qed.

Lemma strip_comment_copies_differ_on_indented (line : string) :
  indented_comment line = true ->
  UtilsConfig._strip_comment line = EmptyString
  /\ CfgLoader._strip_comment line <> EmptyString.
Proof.
  intros (Hu & m & t & _ & Hc)%strip_comment_indented. by rewrite Hc.
Qed.

(** C10: the two copies of [_strip_comment] are not equivalent, and the
    line they differ on is the one where [cfg_loader.py] goes against its
    own comment.  That comment says that a marker is a comment at the start
    of the line or behind whitespace; the test under it,
    [line[:idx].strip() != ''], is the inverse for a marker behind
    whitespace.  So [cfg_loader.py] keeps the indented comment line
    [  ; note] as [; note], where [utils/config.py] returns the empty
    string, and it reads the commented line [  ;RCSPort=9] as an entry of
    the key [;RCSPort], where [utils/config.py] reads no entry.  The copies
    agree exactly on the lines that are no indented comment lines. *)
Theorem C10_strip_comment_copies_differ :
  CfgLoader._strip_comment "  ; note" = "; note"
  /\ UtilsConfig._strip_comment "  ; note" = EmptyString
  /\ parse_lines CfgLoader._strip_comment ["  ;RCSPort=9"] !! ";RCSPort"
     = Some (CInt 9)
  /\ parse_lines UtilsConfig._strip_comment ["  ;RCSPort=9"] !! ";RCSPort" = None
  /\ (forall line,
        CfgLoader._strip_comment line = UtilsConfig._strip_comment line
        <-> indented_comment line = false).
Proof.
  split_and!; [by vm_compute..|].
  intros line. split; [|apply copies_agree_off_indented].
  intros Heq. destruct (indented_comment line) eqn:Hi; [|done].
  destruct (strip_comment_copies_differ_on_indented line Hi) as [Hu Hc].
  by rewrite Heq, Hu in Hc.
Qed.

(** The unpacking in [parse_line] does not fail: a line with an [=] splits
    in two at the first one. *)
Lemma split1_at_first (c : ascii) (a b : string) :
  Py.mem c a = false -> Py.split1 c (a +:+ String c b) = [a; b].
Proof.
  induction a as [|x a IH]; cbn [String.append Py.split1 Py.mem].
  - intros _. by rewrite Ascii.eqb_refl.
  - intros [Hx Ha]%orb_false_iff. rewrite Ascii.eqb_sym, Hx, (IH Ha). done.
Qed.

Lemma parse_line_unpack (line : string) :
  Py.contains "=" line = true ->
  exists key value, Py.split1 "=" line = [key; value].
Proof.
  unfold Py.contains.
  destruct (find_char_cases "=" line) as [[_ ->]|(a & b & -> & Ha & _)]; [done|].
  intros _. exists a, b. by apply split1_at_first.
Qed.

(** ** The path sanitizer *)

Lemma mem_app (c : ascii) (a b : string) :
  Py.mem c (a +:+ b) = Py.mem c a || Py.mem c b.
Proof. induction a as [|x a IH]; simpl; [done | by rewrite IH, orb_assoc]. Qed.

Lemma all_chars_app (p : ascii -> bool) (a b : string) :
  all_chars p (a +:+ b) = all_chars p a && all_chars p b.
Proof. induction a as [|x a IH]; simpl; [done | by rewrite IH, andb_assoc]. Qed.

Lemma all_chars_last (p : ascii -> bool) (s : string) (c : ascii) :
  all_chars p s = true -> last_char s = Some c -> p c = true.
Proof.
  induction s as [|x s IH]; [done|].
  cbn [all_chars]. intros [Hx Hs]%andb_true_iff.
  destruct s as [|y s]; [simpl; congruence|].
  rewrite last_char_cons by done. auto.
Qed.


Lemma rstrip_app (p : ascii -> bool) (d t : string) :
  all_chars p t = true ->
  (forall c, last_char d = Some c -> p c = false) ->
  Py.rstrip_by p (d +:+ t) = d.
Proof.
  intros Ht. induction d as [|x d IH]; intros Hlast.
  - by apply rstrip_empty_iff.
  - cbn [String.append Py.rstrip_by]. destruct d as [|y d].
    + simpl. apply rstrip_empty_iff in Ht as ->. by rewrite Hlast.
    + rewrite IH; [done|]. intros c. rewrite <- (last_char_cons x) by done. auto.
Qed.

Lemma mem_rstrip (p : ascii -> bool) (c : ascii) (s : string) :
  Py.mem c s = false -> Py.mem c (Py.rstrip_by p s) = false.
Proof.
  destruct (rstrip_spec p s) as (b & Hs & _). rewrite Hs at 1.
  rewrite mem_app. by intros [-> _]%orb_false_iff.
Qed.


Lemma repeat_sep_all (h : string) :
  String.eqb h (PosixPath.repeat_sep (String.length h)) = all_chars (Ascii.eqb "/") h.
Proof.
  induction h as [|x h IH]; [done|].
  cbn [String.length PosixPath.repeat_sep String.eqb all_chars].
  rewrite IH, (Ascii.eqb_sym x). by destruct (Ascii.eqb "/" x).
Qed.

Lemma rfind_none (b : string) : Py.mem "/" b = false -> Py.rfind "/" b = -1.
Proof.
  induction b as [|x b IH]; [done|]. cbn [Py.mem Py.rfind].
  intros [Hx Hb]%orb_false_iff. rewrite (IH Hb), prefix_char, Hx. done.
Qed.

Lemma rfind_app (a b : string) :
  Py.mem "/" b = false ->
  Py.rfind "/" (a +:+ String "/" b) = Z.of_nat (String.length a).
Proof.
  intros Hb. induction a as [|x a IH].
  - cbn [String.append Py.rfind]. rewrite (rfind_none b Hb), prefix_char. done.
  - cbn [String.append Py.rfind String.length]. rewrite IH.
    destruct (Z.leb_spec 0 (Z.of_nat (String.length a))); lia.
Qed.

Lemma split_none (b : string) :
  Py.mem "/" b = false -> PosixPath.split b = (EmptyString, b).
Proof.
  intros Hb. unfold PosixPath.split, Py.slice_to, Py.slice_from.
  rewrite (rfind_none b Hb). change (-1 + 1) with (Z.of_nat 0).
  rewrite bound_inside by lia. by destruct b.
Qed.

Lemma split_app (a b : string) :
  Py.mem "/" b = false ->
  PosixPath.split (a +:+ String "/" b) = (head_of (a +:+ "/"), b).
Proof.
  intros Hb. unfold PosixPath.split. rewrite (rfind_app a b Hb).
  replace (a +:+ String "/" b) with ((a +:+ "/") +:+ b)
    by (by rewrite str_app_assoc).
  replace (Z.of_nat (String.length a) + 1)
    with (Z.of_nat (String.length (a +:+ "/")))
    by (rewrite str_length_app; simpl; lia).
  rewrite slice_to_app, slice_from_app, repeat_sep_all. unfold head_of.
  destruct (all_chars (Ascii.eqb "/") (a +:+ "/")); [|].
  - by rewrite andb_false_r.
  - rewrite andb_true_r. by destruct (a +:+ "/") eqn:Ha; [destruct a|].
Qed.

(** A path has no slash, or splits at its last one. *)
Lemma last_slash (p : string) :
  Py.mem "/" p = false
  \/ exists a b, p = a +:+ String "/" b /\ Py.mem "/" b = false.
Proof.
  induction p as [|x p [Hp|(a & b & -> & Hb)]].
  - by left.
  - cbn [Py.mem]. destruct (Ascii.eqb_spec "/" x) as [<-|].
    + right. by exists EmptyString, p.
    + by left.
  - right. by exists (String x a), b.
Qed.


Lemma split_tail_no_slash (p : string) : Py.mem "/" (PosixPath.split p).2 = false.
Proof.
  destruct (last_slash p) as [Hp|(a & b & -> & Hb)].
  - by rewrite (split_none p Hp).
  - by rewrite (split_app a b Hb).
Qed.







(** ** The store: what a computation leaves alone *)

Lemma key_at_insert (h : heap) (l l' : nat) (d : gmap string value)
    (k kk : string) (x : value) :
  h !! l = Some d -> k <> kk ->
  key_at (<[l := <[k := x]> d]> h) l' kk = key_at h l' kk.
Proof.
  intros Hl Hk. unfold key_at. destruct (decide (l = l')) as [<-|Hne].
  - rewrite list_lookup_insert_eq by (by eapply lookup_lt_Some).
    rewrite Hl. simpl. by rewrite lookup_insert_ne.
  - by rewrite list_lookup_insert_ne.
Qed.

Lemma key_at_insert_eq (h : heap) (l : nat) (d : gmap string value)
    (k : string) (x : value) :
  h !! l = Some d -> key_at (<[l := <[k := x]> d]> h) l k = Some x.
Proof.
  intros Hl. unfold key_at.
  rewrite list_lookup_insert_eq by (by eapply lookup_lt_Some).
  simpl. by rewrite lookup_insert_eq.
Qed.

Lemma key_at_alloc_empty (h : heap) (l : nat) (kk : string) :
  key_at (h ++ [∅])%list l kk = key_at h l kk.
Proof.
  unfold key_at. destruct (decide (l < length h)%nat) as [Hlt|Hge].
  - by rewrite lookup_app_l.
  - rewrite (lookup_ge_None_2 h l) by lia.
    destruct (decide (l = length h)) as [->|Hne].
    + by rewrite list_lookup_middle.
    + rewrite lookup_ge_None_2; [done|]. rewrite length_app. simpl. lia.
Qed.

Section Frame.
Context (kk : string).

Lemma keeps_ret {A} (a : A) : keeps kk (ret a).
Proof. intros h h' r l [= <- _]. done. Qed.

Lemma keeps_raise {A} (e : exn) : keeps kk (@raise A e).
Proof. intros h h' r l [= <- _]. done. Qed.

Lemma keeps_lift {A} (r : outcome A) : keeps kk (lift r).
Proof. intros h h' r' l [= <- _]. done. Qed.

Lemma keeps_bind {A B} (m : M A) (f : A -> M B) :
  keeps kk m -> (forall a, keeps kk (f a)) -> keeps kk (bind m f).
Proof.
  intros Hm Hf h h' r l. unfold bind.
  destruct (m h) as [h1 [a|e|]] eqn:E; intros Heq.
  - rewrite (Hf a _ _ _ l Heq). apply (Hm _ _ _ l E).
  - injection Heq as <- _. apply (Hm _ _ _ l E).
  - injection Heq as <- _. apply (Hm _ _ _ l E).
Qed.

Lemma keeps_try_pass (m : M unit) : keeps kk m -> keeps kk (try_pass m).
Proof.
  intros Hm h h' r l. unfold try_pass.
  destruct (m h) as [h1 [a|e|]] eqn:E; intros [= <- _]; apply (Hm _ _ _ l E).
Qed.

Lemma keeps_alloc_empty : keeps kk (alloc ∅).
Proof. intros h h' r l [= <- _]. apply key_at_alloc_empty. Qed.

Lemma keeps_py_in (k : string) (v : value) : keeps kk (py_in k v).
Proof.
  intros h h' r l. unfold py_in.
  destruct v as [| | | | | |l0]; try (by intros [= <- _]).
  by destruct (h !! l0); intros [= <- _].
Qed.

Lemma keeps_getitem (v : value) (k : string) : keeps kk (getitem v k).
Proof.
  intros h h' r l. unfold getitem.
  destruct v as [| | | | | |l0]; try (by intros [= <- _]).
  destruct (h !! l0) as [d|]; [|by intros [= <- _]].
  by destruct (d !! k); intros [= <- _].
Qed.

Lemma keeps_dict_get (l0 : nat) (k : string) (x : value) :
  keeps kk (dict_get l0 k x).
Proof.
  intros h h' r l. unfold dict_get. by destruct (h !! l0); intros [= <- _].
Qed.

Lemma keeps_setitem (v : value) (k : string) (x : value) :
  k <> kk -> keeps kk (setitem v k x).
Proof.
  intros Hk h h' r l. unfold setitem.
  destruct v as [| | | | | |l0]; try (by intros [= <- _]).
  destruct (h !! l0) as [d|] eqn:Hd; intros [= <- _]; [|done].
  by apply key_at_insert.
Qed.

Lemma keeps_set_walk (keys : list string) (v : value) :
  Forall (fun k => k <> kk) keys -> keeps kk (Config.set_walk keys v).
Proof.
  intros Hkeys. revert v.
  induction Hkeys as [|k keys Hk _ IH]; intros v; cbn [Config.set_walk].
  - apply keeps_ret.
  - apply keeps_bind; [apply keeps_py_in|]. intros present.
    apply keeps_bind.
    + destruct present; cbn [negb]; [apply keeps_ret|].
      apply keeps_bind; [apply keeps_alloc_empty|].
      intros fresh. by apply keeps_setitem.
    + intros _. apply keeps_bind; [apply keeps_getitem | apply IH].
Qed.

Lemma Forall_removelast {A} (P : A -> Prop) (l : list A) :
  Forall P l -> Forall P (removelast l).
Proof.
  induction 1 as [|x l Hx Hl IH]; [constructor|].
  cbn [removelast]. destruct l; [constructor | by constructor].
Qed.

Lemma Forall_last {A} (P : A -> Prop) (l : list A) (d : A) :
  Forall P l -> l <> [] -> P (List.last l d).
Proof.
  induction 1 as [|x l Hx Hl IH]; [done|]. intros _.
  cbn [List.last]. destruct l; [done | by apply IH].
Qed.

Lemma keeps_set (self : nat) (key : string) (x : value) :
  Forall (fun k => k <> kk) (Py.split "." key) ->
  keeps kk (Config.set self key x).
Proof.
  intros Hkeys. unfold Config.set. apply keeps_bind.
  - by apply keeps_set_walk, Forall_removelast.
  - intros config. apply keeps_setitem.
    apply (Forall_last (fun k => k <> kk)); [done | apply split_not_nil].
Qed.

Lemma keeps_cfg_remote_control (host : Host) (self : nat)
    (cfg : gmap string ConfigValue) :
  Forall (fun k => k <> kk) ["remote_control"; "enabled"; "port"] ->
  keeps kk (Config.cfg_remote_control host self cfg).
Proof.
  intros Hk. unfold Config.cfg_remote_control.
  apply keeps_bind; [|intros _];
    (destruct (cfg !! _); [|apply keeps_ret]);
    apply keeps_try_pass, keeps_bind; try apply keeps_lift;
    intros i; apply keeps_set; vm_compute Py.split;
    inversion Hk as [|? ? ? Hk']; inversion Hk' as [|? ? ? Hk''];
    inversion Hk''; subst; by repeat constructor.
Qed.

Lemma keeps_cfg_auto_start (host : Host) (self : nat)
    (cfg : gmap string ConfigValue) :
  "auto_start" <> kk -> keeps kk (Config.cfg_auto_start host self cfg).
Proof.
  intros Hk. unfold Config.cfg_auto_start.
  destruct (cfg !! _); [|apply keeps_ret].
  apply keeps_try_pass, keeps_bind; [apply keeps_lift|].
  intros i. apply keeps_set. vm_compute Py.split. by repeat constructor.
Qed.

Lemma keeps_cfg_required_streams (host : Host) (self : nat)
    (cfg : gmap string ConfigValue) :
  "required_labels" <> kk -> "streams" <> kk ->
  keeps kk (Config.cfg_required_streams host self cfg).
Proof.
  intros Hk1 Hk2. unfold Config.cfg_required_streams.
  destruct (cfg !! _); [|apply keeps_ret].
  apply keeps_bind; [apply keeps_py_in|]. intros present.
  apply keeps_bind.
  - destruct present; [apply keeps_getitem|].
    apply keeps_bind; [apply keeps_alloc_empty | intros; apply keeps_ret].
  - intros streams_cfg. apply keeps_bind; intros; by apply keeps_setitem.
Qed.
End Frame.

(** ** Filename resolution *)

Lemma nonempty_true (s : string) : Py.nonempty s = true <-> s <> EmptyString.
Proof. by destruct s. Qed.

Lemma nonempty_false (s : string) : Py.nonempty s = false <-> s = EmptyString.
Proof. by destruct s. Qed.

Ltac ascii_cases c :=
  destruct c as [[] [] [] [] [] [] [] []]; vm_compute; try done.

Lemma digit_not_space (c : ascii) : Py.isdigit c = true -> Py.isspace c = false.
Proof. ascii_cases c. Qed.

Lemma rstrip_fixed (p : ascii -> bool) (s : string) :
  (forall c, last_char s = Some c -> p c = false) -> Py.rstrip_by p s = s.
Proof.
  intros Hl. pose proof (rstrip_app p s EmptyString eq_refl Hl) as H.
  by rewrite str_app_empty_r in H.
Qed.

Lemma strip_fixed (s : string) :
  (forall c, head_char s = Some c -> Py.isspace c = false) ->
  (forall c, last_char s = Some c -> Py.isspace c = false) ->
  Py.strip s = s.
Proof.
  intros Hh Hl. unfold Py.strip.
  assert (Py.lstrip_by Py.isspace s = s) as ->.
  { destruct s as [|c s]; [done|]. simpl. by rewrite (Hh c eq_refl). }
  by apply rstrip_fixed.
Qed.

Lemma all_chars_head (p : ascii -> bool) (s : string) (c : ascii) :
  all_chars p s = true -> head_char s = Some c -> p c = true.
Proof. destruct s as [|x s]; [done|]. simpl. intros [Hx _]%andb_true_iff [= <-]. done. Qed.

Lemma strip_digits (d : string) :
  all_chars Py.isdigit d = true -> Py.strip d = d.
Proof.
  intros Hd. apply strip_fixed; intros c Hc; apply digit_not_space.
  - by apply (all_chars_head _ d).
  - by apply (all_chars_last _ d).
Qed.

Lemma strip_minus_digits (d : string) :
  Py.nonempty d = true -> all_chars Py.isdigit d = true ->
  Py.strip (String "-" d) = String "-" d.
Proof.
  intros Hne Hd. apply strip_fixed.
  - by intros c [= <-].
  - intros c. rewrite last_char_cons by by destruct d.
    intros Hc. apply digit_not_space. by apply (all_chars_last _ d).
Qed.

Lemma uint_digits (u : Decimal.uint) :
  all_chars Py.isdigit (NilEmpty.string_of_uint u) = true.
Proof. induction u; simpl; done. Qed.

Lemma uint_nonempty (u : Decimal.uint) :
  u <> Decimal.Nil -> Py.nonempty (NilEmpty.string_of_uint u) = true.
Proof. by destruct u. Qed.

(** The text of a positive number: its digits, and at least one. *)
Lemma str_of_pos (p : positive) :
  str_of_int (Z.pos p) = NilEmpty.string_of_uint (Pos.to_uint p)
  /\ str_of_int (Z.neg p) = String "-" (NilEmpty.string_of_uint (Pos.to_uint p))
  /\ Py.nonempty (NilEmpty.string_of_uint (Pos.to_uint p)) = true.
Proof.
  pose proof (DecimalPos.Unsigned.to_uint_nonnil p) as Hnil.
  unfold str_of_int. cbn [Z.to_int NilZero.string_of_int].
  assert (NilZero.string_of_uint (Pos.to_uint p)
          = NilEmpty.string_of_uint (Pos.to_uint p)) as ->
    by by destruct (Pos.to_uint p).
  split_and!; [done..|]. by apply uint_nonempty.
Qed.

(** [str] of an [int] has no blank at either end. *)
Lemma strip_str_of_int (z : Z) : Py.strip (str_of_int z) = str_of_int z.
Proof.
  destruct z as [|p|p]; [done| |]; destruct (str_of_pos p) as (Hp & Hn & Hne).
  - rewrite Hp. apply strip_digits, uint_digits.
  - rewrite Hn. apply strip_minus_digits; [done | apply uint_digits].
Qed.

(** The path fields of the code, [str(cfg.get(key) or '').strip()], are the
    texts of the fields. *)
Lemma path_field_text (host : Host) (cfg : gmap string ConfigValue)
    (key : string) :
  path_field host cfg key = field_text host cfg key.
Proof.
  unfold path_field, field_text, str_or.
  destruct (cfg !! key) as [[s|z|x|items]|]; simpl; [| | | |done].
  - by destruct s.
  - destruct (z =? 0); [done|]. apply strip_str_of_int.
  - by destruct (float_bool host x).
  - by destruct items.
Qed.

Lemma fallback_rule_deterministic (host : Host) (cfg : gmap string ConfigValue)
    (fallback d1 d2 : string) :
  fallback_rule host cfg fallback d1 -> fallback_rule host cfg fallback d2 ->
  d1 = d2.
Proof. destruct 1; destruct 1; congruence. Qed.

Lemma build_filename_rule (host : Host) (cfg : gmap string ConfigValue) :
  exists dest, fallback_rule host cfg "recording.xdf" dest
    /\ build_filename_from_cfg host cfg = finish_dest host dest.
Proof.
  unfold build_filename_from_cfg. rewrite !path_field_text.
  destruct (Py.nonempty (field_text host cfg "StorageLocation")) eqn:Hsl.
  { eexists. split; [|done]. apply rule_storage_location. by apply nonempty_true. }
  destruct (Py.nonempty (field_text host cfg "StudyRoot")) eqn:Hsr;
    destruct (Py.nonempty (field_text host cfg "PathTemplate")) eqn:Hpt;
    cbn [andb]; (eexists; split; [|reflexivity]);
    apply nonempty_false in Hsl;
    try apply nonempty_true in Hsr; try apply nonempty_false in Hsr;
    try apply nonempty_true in Hpt; try apply nonempty_false in Hpt.
  - by apply rule_root_and_template.
  - by apply rule_root_only.
  - by apply rule_template_only.
  - by apply rule_default.
Qed.

Lemma set_top_level (self : nat) (k : string) (x : value) (h : heap)
    (d : gmap string value) :
  Py.split "." k = [k] -> h !! self = Some d ->
  Config.set self k x h = (<[self := <[k := x]> d]> h, Ok tt).
Proof.
  intros Hk Hd. unfold Config.set. rewrite Hk.
  cbn [removelast List.last Config.set_walk]. unfold bind, ret, setitem.
  by rewrite Hd.
Qed.

(** The block of the file name: the stored file name is read, and has to
    be a [str], only when none of the three fields is given. *)
Lemma cfg_filename_rule (host : Host) (self : nat)
    (cfg : gmap string ConfigValue) (h : heap) (d : gmap string value)
    (fallback : string) :
  h !! self = Some d ->
  (field_text host cfg "StorageLocation" = EmptyString ->
   field_text host cfg "StudyRoot" = EmptyString ->
   field_text host cfg "PathTemplate" = EmptyString ->
   default (VStr "recording.xdf") (d !! "filename") = VStr fallback) ->
  exists dest, fallback_rule host cfg fallback dest
    /\ Config.cfg_filename host self cfg h
       = (<[self := <["filename" := VStr (finish_dest host dest)]> d]> h, Ok tt).
Proof.
  intros Hd Hf. unfold Config.cfg_filename. rewrite !path_field_text.
  destruct (Py.nonempty (field_text host cfg "StorageLocation")) eqn:Hsl.
  { eexists. split; [apply rule_storage_location; by apply nonempty_true|].
    unfold bind, ret. by apply set_top_level. }
  destruct (Py.nonempty (field_text host cfg "StudyRoot")) eqn:Hsr;
    destruct (Py.nonempty (field_text host cfg "PathTemplate")) eqn:Hpt;
    cbn [andb];
    apply nonempty_false in Hsl;
    try apply nonempty_true in Hsr; try apply nonempty_false in Hsr;
    try apply nonempty_true in Hpt; try apply nonempty_false in Hpt.
  - eexists. split; [by apply rule_root_and_template|].
    unfold bind, ret. by apply set_top_level.
  - eexists. split; [by apply rule_root_only|].
    unfold bind, ret. by apply set_top_level.
  - eexists. split; [by apply rule_template_only|].
    unfold bind, ret. by apply set_top_level.
  - exists fallback. split; [by apply rule_default|].
    unfold bind, ret, dict_get. rewrite Hd, (Hf Hsl Hsr Hpt).
    by apply set_top_level.
Qed.

Lemma cfg_filename_sets (host : Host) (self : nat)
    (cfg : gmap string ConfigValue) (h : heap) (d : gmap string value)
    (fallback : string) :
  h !! self = Some d ->
  default (VStr "recording.xdf") (d !! "filename") = VStr fallback ->
  exists dest, fallback_rule host cfg fallback dest
    /\ Config.cfg_filename host self cfg h
       = (<[self := <["filename" := VStr (finish_dest host dest)]> d]> h, Ok tt).
Proof. intros Hd Hf. by apply cfg_filename_rule. Qed.

Lemma load_from_cfg_filename (host : Host) (files : Files) (self : nat)
    (path : string) (lines : list string) (h : heap) (d : gmap string value)
    (fallback : string) :
  read_cfg_lines files path = Returns lines ->
  h !! self = Some d ->
  (field_text host (parse_lines UtilsConfig._strip_comment lines)
     "StorageLocation" = EmptyString ->
   field_text host (parse_lines UtilsConfig._strip_comment lines)
     "StudyRoot" = EmptyString ->
   field_text host (parse_lines UtilsConfig._strip_comment lines)
     "PathTemplate" = EmptyString ->
   default (VStr "recording.xdf") (d !! "filename") = VStr fallback) ->
  exists dest,
    fallback_rule host (parse_lines UtilsConfig._strip_comment lines) fallback dest
    /\ key_at (Config._load_from_cfg host files self path h).1 self "filename"
       = Some (VStr (finish_dest host dest)).
Proof.
  intros Hread Hd Hf. unfold Config._load_from_cfg.
  set (cfg := parse_lines UtilsConfig._strip_comment lines) in *.
  destruct (cfg_filename_rule host self cfg h d fallback Hd Hf) as (dest & Hrule & Hset).
  exists dest. split; [done|].
  unfold bind at 1, lift. rewrite Hread. fold cfg.
  unfold bind at 1. rewrite Hset.
  match goal with |- key_at (?m ?h1).1 _ _ = _ =>
    assert (keeps "filename" m) as Hkeeps; [|destruct (m h1) as [h' r] eqn:E]
  end.
  { apply keeps_bind; [|intros _; apply keeps_bind; intros].
    - apply keeps_cfg_remote_control. by repeat constructor.
    - by apply keeps_cfg_auto_start.
    - by apply keeps_cfg_required_streams. }
  cbn [fst]. rewrite (Hkeeps _ _ _ self E). by apply key_at_insert_eq.
Qed.

(** C2, as stated: a field that is present and not empty can still be
    passed over.  The lines [StorageLocation=0], [StudyRoot=/data] and
    [PathTemplate=x] give a [StorageLocation] that is present, with the
    value 0; the code reads it as [str(0 or '')], the empty string, and
    joins [StudyRoot] and [PathTemplate], where rule (1) of the
    specification uses the [StorageLocation]. *)
Lemma C2_zero_storage_location_passed_over :
  let cfg := parse_lines CfgLoader._strip_comment
               ["StorageLocation=0"; "StudyRoot=/data"; "PathTemplate=x"] in
  cfg !! "StorageLocation" = Some (CInt 0)
  /\ build_filename_from_cfg sample_host cfg = "/data/x.xdf"
  /\ spec_build_filename sample_host cfg = "0.xdf"
  /\ build_filename_from_cfg sample_host cfg <> spec_build_filename sample_host cfg.
Proof. vm_compute. split_and!; [reflexivity..|discriminate]. Qed.

(** C2, amended: the fallback order of filename resolution, first match
    wins, with the fields read as the code reads them.  A field is given
    when it is present, its value is truthy and its text (the value as a
    [str], trimmed) is not empty; [field_text] spells this out value by
    value, and a present Integer 0, a Float that is zero or a blank text
    is not given.  For every parsed map, [build_filename_from_cfg] returns
    the finished form (extension, sanitizer, expansion of the home directory
    and of the environment variables) of the one destination the five rules
    give, with [recording.xdf] as the last resort; and
    [Config._load_from_cfg] writes under [filename] the finished form of the
    destination the same five rules give, with the file name the store had
    before as the last resort; that file name is read, and has to be a
    [str], only when rule (5) applies. *)
Theorem C2_filename_fallback_order (host : Host) (cfg : gmap string ConfigValue) :
  (exists dest, fallback_rule host cfg "recording.xdf" dest
     /\ build_filename_from_cfg host cfg = finish_dest host dest)
  /\ (forall fallback d1 d2,
        fallback_rule host cfg fallback d1 ->
        fallback_rule host cfg fallback d2 -> d1 = d2)
  /\ (forall files self path lines h d fallback,
        read_cfg_lines files path = Returns lines ->
        cfg = parse_lines UtilsConfig._strip_comment lines ->
        h !! self = Some d ->
        (field_text host cfg "StorageLocation" = EmptyString ->
         field_text host cfg "StudyRoot" = EmptyString ->
         field_text host cfg "PathTemplate" = EmptyString ->
         default (VStr "recording.xdf") (d !! "filename") = VStr fallback) ->
        exists dest, fallback_rule host cfg fallback dest
          /\ key_at (Config._load_from_cfg host files self path h).1 self "filename"
             = Some (VStr (finish_dest host dest))).
Proof.
  split_and!.
  - apply build_filename_rule.
  - apply fallback_rule_deterministic.
  - intros files self path lines h d fallback Hread -> Hd Hf.
    by eapply load_from_cfg_filename.
Qed.

Lemma C2_filename_fallback_order_witness :
  exists dest,
    fallback_rule sample_host
      (parse_lines UtilsConfig._strip_comment sample_lines) "recording.xdf" dest
    /\ key_at (Config._load_from_cfg sample_host sample_files 0 "lab.cfg"
                 Config.initial_heap).1 0 "filename"
       = Some (VStr (finish_dest sample_host dest)).
Proof.
  apply (proj2 (proj2 (C2_filename_fallback_order sample_host
                         (parse_lines UtilsConfig._strip_comment sample_lines)))
           sample_files 0%nat "lab.cfg" sample_lines Config.initial_heap
           {[ "filename" := VStr "recording.xdf"; "remote_control" := VDict 1;
              "recording" := VDict 2; "streams" := VDict 3 ]} "recording.xdf");
    reflexivity.
Defined.

(** ** The store: [get] *)

Lemma heap_closed_lookup (h : heap) (l : nat) (d : gmap string value)
    (k : string) (v : value) :
  heap_closed h -> h !! l = Some d -> d !! k = Some v ->
  value_closed (length h) v.
Proof.
  intros Hh Hl Hk. unfold heap_closed in Hh.
  rewrite Forall_lookup in Hh. apply (Hh l d Hl k v Hk).
Qed.

Lemma get_walk_cases (h : heap) (keys : list string) (v : value) :
  heap_closed h -> value_closed (length h) v ->
  (exists w, Config.get_walk keys v h = (h, Ok w) /\ resolves h v keys w)
  \/ ((Config.get_walk keys v h = (h, Raise KeyError)
       \/ Config.get_walk keys v h = (h, Raise TypeError))
      /\ forall w, ~ resolves h v keys w).
Proof.
  intros Hh. revert v. induction keys as [|k keys IH]; intros v Hv.
  - left. exists v. split; [done | constructor].
  - cbn [Config.get_walk]. unfold bind, getitem.
    destruct v as [| | | | | |l];
      try (right; split; [by right | intros w Hw; inversion Hw]).
    simpl in Hv. apply lookup_lt_is_Some in Hv as [d Hd]. rewrite Hd.
    destruct (d !! k) as [v'|] eqn:Hk.
    + destruct (IH v' (heap_closed_lookup h l d k v' Hh Hd Hk))
        as [(w & Hw & Hr)|[Hw Hr]].
      * left. exists w. split; [done|]. by econstructor.
      * right. split; [done|]. intros w Hres. inversion Hres; subst.
        apply (Hr w). congruence.
    + right. split; [by left|]. intros w Hres. inversion Hres; congruence.
Qed.

(** C7: [get] never raises and never succeeds in part.  On a closed heap,
    for every dot path and every default, [get] returns, changes nothing,
    and its result is the stored value when every segment leads through a
    dict to an entry, and the default otherwise; so
    [get("remote_control.port", 9999)] is 9999 when [remote_control] is
    absent or holds something that is no dict. *)
Theorem C7_get_returns_value_or_default (h : heap) (self : nat) (key : string)
    (fallback : value) :
  heap_closed h -> (self < length h)%nat ->
  (exists v, Config.get self key fallback h = (h, Ok v)
     /\ (resolves h (VDict self) (Py.split "." key) v
         \/ ((forall w, ~ resolves h (VDict self) (Py.split "." key) w)
             /\ v = fallback)))
  /\ (forall d, h !! self = Some d ->
        (d !! "remote_control" = None
         \/ exists v, d !! "remote_control" = Some v /\ forall l, v <> VDict l) ->
        Config.get self "remote_control.port" (VInt 9999) h = (h, Ok (VInt 9999))).
Proof.
  intros Hh Hself. split.
  - unfold Config.get.
    destruct (get_walk_cases h (Py.split "." key) (VDict self) Hh Hself)
      as [(w & -> & Hr)|[[-> | ->] Hr]]; eauto.
  - intros d Hd Hrc. unfold Config.get.
    change (Py.split "." "remote_control.port") with ["remote_control"; "port"].
    cbn [Config.get_walk]. unfold bind, getitem, ret. rewrite Hd.
    destruct Hrc as [-> | (v & -> & Hv)]; [done|].
    destruct v; try done. by destruct (Hv loc).
Qed.

Lemma sample_heap_closed (host : Host) (files : Files) :
  heap_closed (two_instances host files).
Proof. apply (bool_decide_unpack _). vm_compute. exact I. Qed.

Lemma C7_get_returns_value_or_default_witness :
  (exists v, Config.get 4 "remote_control.port" (VInt 9999)
               (two_instances sample_host sample_files)
             = (two_instances sample_host sample_files, Ok v)
     /\ (resolves (two_instances sample_host sample_files) (VDict 4)
           (Py.split "." "remote_control.port") v
         \/ ((forall w, ~ resolves (two_instances sample_host sample_files)
                          (VDict 4) (Py.split "." "remote_control.port") w)
             /\ v = VInt 9999))).
Proof.
  apply (C7_get_returns_value_or_default
           (two_instances sample_host sample_files) 4 "remote_control.port"
           (VInt 9999)).
  - apply (bool_decide_unpack _). vm_compute. exact I.
  - vm_compute. lia.
Defined.

(** ** The store: [set] *)

Lemma bind_assoc {A B C} (m : M A) (f : A -> M B) (g : B -> M C) (h : heap) :
  bind (bind m f) g h = bind m (fun a => bind (f a) g) h.
Proof. unfold bind. by destruct (m h) as [h1 [a|e|]]. Qed.

Lemma bind_ext {A B} (m : M A) (f g : A -> M B) (h : heap) :
  (forall a h1, f a h1 = g a h1) -> bind m f h = bind m g h.
Proof. intros Hfg. unfold bind. by destruct (m h) as [h1 [a|e|]]. Qed.

Lemma set_from_step (k k2 : string) (ks : list string) (v x : value) (h : heap) :
  set_from (k :: k2 :: ks) v x h
  = (present <- py_in k v ;;
     (if negb present
      then fresh <- alloc ∅ ;; setitem v k (VDict fresh)
      else ret tt) ;;;
     config' <- getitem v k ;;
     set_from (k2 :: ks) config' x) h.
Proof.
  unfold set_from. cbn [removelast List.last Config.set_walk].
  rewrite bind_assoc. apply bind_ext. intros present h1.
  rewrite bind_assoc. apply bind_ext. intros [] h2.
  by rewrite bind_assoc.
Qed.

Lemma key_at_lookup (h : heap) (l : nat) (d : gmap string value) (k : string) :
  h !! l = Some d -> key_at h l k = d !! k.
Proof. intros Hd. unfold key_at. by rewrite Hd. Qed.

(** [set] on a clear path: it succeeds, it only writes to the dict
    objects on the path and to new ones, and [get] along the same segments
    then finds the value, when the path meets no dict object twice. *)
Lemma set_from_clear (x : value) (keys : list string) :
  forall v h, keys <> [] -> path_scan h keys v = Clear ->
  exists h', set_from keys v x h = (h', Ok tt)
    /\ (length h <= length h')%nat
    /\ (forall l, (l < length h)%nat -> l ∉ path_locs h keys v -> h' !! l = h !! l)
    /\ (NoDup (path_locs h keys v) -> Config.get_walk keys v h' = (h', Ok x)).
Proof.
  induction keys as [|k keys IH]; [done|]. intros v h _ Hscan.
  cbn [path_scan] in Hscan.
  destruct v as [| | | | | |l]; try done.
  destruct (h !! l) as [d|] eqn:Hd; [|done].
  pose proof (lookup_lt_Some _ _ _ Hd) as Hl.
  cbn [path_locs]. rewrite (key_at_lookup h l d k Hd).
  destruct keys as [|k2 ks].
  - (* the last segment *)
    exists (<[l := <[k := x]> d]> h). split_and!.
    + unfold set_from. cbn [removelast List.last Config.set_walk].
      unfold bind, ret, setitem. by rewrite Hd.
    + by rewrite length_insert.
    + intros l0 _ Hl0. rewrite list_lookup_insert_ne; [done|].
      intros ->. apply Hl0. by left.
    + intros _. cbn [Config.get_walk]. unfold bind, ret, getitem.
      rewrite list_lookup_insert_eq by done. by rewrite lookup_insert_eq.
  - destruct (d !! k) as [v'|] eqn:Hk.
    + (* the segment is there *)
      destruct (IH v' h ltac:(done) Hscan) as (h' & Hset & Hlen & Hframe & Hget).
      exists h'. split_and!; [|done| |].
      * rewrite set_from_step. unfold bind at 1, py_in. rewrite Hd.
        rewrite bool_decide_eq_true_2 by (by rewrite Hk).
        cbn [negb]. unfold bind at 1, ret. unfold bind at 1, getitem.
        by rewrite Hd, Hk.
      * intros l0 Hl0 Hnot. apply Hframe; [done|].
        intros Hin. apply Hnot. by right.
      * intros [Hnot Hnodup]%NoDup_cons. cbn [Config.get_walk].
        unfold bind at 1, getitem. rewrite (Hframe l Hl Hnot), Hd, Hk. auto.
    + (* the segment is absent: a new dict *)
      set (n := length h) in *.
      set (h2 := <[l := <[k := VDict n]> d]> (h ++ [∅])%list).
      assert (length h2 = S n) as Hlen2.
      { unfold h2. rewrite length_insert, length_app. simpl. lia. }
      assert (h2 !! n = Some ∅) as Hn.
      { unfold h2. rewrite list_lookup_insert_ne by lia.
        by rewrite list_lookup_middle. }
      assert (h2 !! l = Some (<[k := VDict n]> d)) as Hl2.
      { unfold h2. rewrite list_lookup_insert_eq; [done|].
        rewrite length_app. simpl. lia. }
      assert (path_scan h2 (k2 :: ks) (VDict n) = Clear) as Hscan2.
      { cbn [path_scan]. rewrite Hn. by destruct ks. }
      assert (path_locs h2 (k2 :: ks) (VDict n) = [n]) as Hlocs2.
      { cbn [path_locs]. by rewrite (key_at_lookup h2 n ∅ k2 Hn). }
      destruct (IH (VDict n) h2 ltac:(done) Hscan2)
        as (h' & Hset & Hlen & Hframe & Hget).
      rewrite Hlocs2 in Hframe, Hget.
      assert (forall l0, (l0 < n)%nat -> h' !! l0 = h2 !! l0) as Hold.
      { intros l0 Hl0. apply Hframe; [lia|].
        intros ->%list_elem_of_singleton. lia. }
      exists h'. split_and!; [|lia| |].
      * rewrite set_from_step. unfold bind at 1, py_in. rewrite Hd.
        rewrite bool_decide_eq_false_2 by (rewrite Hk; by intros [? ?]).
        cbn [negb]. unfold bind at 1. unfold bind at 1, alloc.
        unfold setitem at 1. rewrite lookup_app_l by done. rewrite Hd.
        fold n h2. unfold bind at 1, getitem. rewrite Hl2, lookup_insert_eq.
        exact Hset.
      * intros l0 Hl0 Hnot. rewrite (Hold l0 Hl0). unfold h2.
        rewrite list_lookup_insert_ne.
        -- by rewrite lookup_app_l.
        -- intros ->. apply Hnot. by left.
      * intros _. cbn [Config.get_walk]. unfold bind at 1, getitem.
        rewrite (Hold l Hl), Hl2, lookup_insert_eq. apply Hget.
        apply NoDup_singleton.
Qed.

(** [set] on a blocked path: a [TypeError], and no dict object changed; the
    empty dict made for [config[k] = {}] on a [str] or a [list] stays
    behind, referenced by nothing. *)
Lemma set_from_blocked (x : value) (keys : list string) :
  forall v h, keys <> [] -> path_scan h keys v = Blocked ->
  exists h', set_from keys v x h = (h', Raise TypeError)
    /\ (h' = h \/ h' = (h ++ [∅])%list).
Proof.
  induction keys as [|k keys IH]; [done|]. intros v h _ Hscan.
  cbn [path_scan] in Hscan. destruct keys as [|k2 ks].
  - unfold set_from. cbn [removelast List.last Config.set_walk].
    unfold bind, ret, setitem.
    destruct v as [| | | | | |l]; try (by exists h; auto).
    by destruct (h !! l).
  - rewrite set_from_step. unfold bind at 1, py_in.
    destruct v as [| | | | |items|l]; try (by exists h; auto).
    + (* a str *)
      destruct (Py.contains k s); cbn [negb].
      * exists h. split; [|by left]. by unfold bind, ret, getitem.
      * exists (h ++ [∅])%list. split; [|by right].
        by unfold bind, alloc, setitem.
    + (* a list *)
      destruct (existsb (tree_is_str k) items); cbn [negb].
      * exists h. split; [|by left]. by unfold bind, ret, getitem.
      * exists (h ++ [∅])%list. split; [|by right].
        by unfold bind, alloc, setitem.
    + destruct (h !! l) as [d|] eqn:Hd; [|done].
      destruct (d !! k) as [v'|] eqn:Hk; [|done].
      destruct (IH v' h ltac:(done) Hscan) as (h' & Hset & Hh').
      exists h'. split; [|done].
      rewrite bool_decide_eq_true_2 by eauto.
      cbn [negb]. unfold bind at 1, ret. unfold bind at 1, getitem.
      by rewrite Hd, Hk.
Qed.

Lemma path_scan_closed (h : heap) (keys : list string) (v : value) :
  heap_closed h -> value_closed (length h) v -> path_scan h keys v <> Dangling.
Proof.
  intros Hh. revert v. induction keys as [|k keys IH]; intros v Hv; [done|].
  cbn [path_scan]. destruct v as [| | | | | |l]; try done.
  simpl in Hv. apply lookup_lt_is_Some in Hv as [d Hd]. rewrite Hd.
  destruct keys as [|k2 ks]; [done|].
  destruct (d !! k) as [v'|] eqn:Hk; [|done].
  apply IH. by eapply heap_closed_lookup.
Qed.

Lemma path_scan_blocked (h : heap) (keys : list string) (v : value) :
  path_scan h keys v = Blocked
  <-> exists pre post w, keys = (pre ++ post)%list /\ post <> []
        /\ resolves h v pre w /\ forall l, w <> VDict l.
Proof.
  split.
  - revert v. induction keys as [|k keys IH]; intros v; [done|].
    cbn [path_scan].
    destruct v as [| | | | | |l];
      try (intros _; eexists [], (k :: keys), _;
           split_and!; [done | done | constructor | done]).
    destruct (h !! l) as [d|] eqn:Hd; [|done].
    destruct keys as [|k2 ks]; [done|].
    destruct (d !! k) as [v'|] eqn:Hk; [|done].
    intros (pre & post & w & Hkeys & Hpost & Hres & Hw)%IH.
    exists (k :: pre), post, w. split_and!; [by rewrite Hkeys | done | | done].
    by econstructor.
  - intros (pre & post & w & -> & Hpost & Hres & Hw).
    induction Hres as [v|l d k v keys w Hd Hk Hres IH].
    + destruct post as [|k post]; [done|]. cbn [app path_scan].
      destruct v; try done. by destruct (Hw loc).
    + cbn [app path_scan]. rewrite Hd.
      destruct (keys ++ post)%list as [|k2 ks] eqn:Hks.
      { by apply app_eq_nil in Hks as [_ ->]. }
      rewrite Hk. by apply IH.
Qed.

(** C5, as stated: [set] raises when a segment before the last holds a
    scalar.  On a new instance [remote_control.port] is the integer 22345,
    and [set("remote_control.port.x", 1)] raises [TypeError]. *)
Lemma C5_set_raises_on_scalar_segment :
  (Config.get 4 "remote_control.port" VNone
     (two_instances sample_host sample_files)).2 = Ok (VInt 22345)
  /\ (Config.set 4 "remote_control.port.x" (VInt 1)
        (two_instances sample_host sample_files)).2 = Raise TypeError.
Proof. vm_compute. split; reflexivity. Qed.

(** C5, amended: on a closed heap, [set] succeeds when every segment before
    the last is absent or holds a mapping: it makes a mapping for each
    absent segment, writes the value at the last segment, changes no dict
    object off the path, and [get] of the same path then returns the value
    (when the path meets no dict object twice).  When a segment before the
    last, or the place of the last, holds something that is no mapping --
    a prefix of the path resolves to it -- [set] raises [TypeError] and
    changes no dict object. *)
Theorem C5_set_creates_levels_or_raises (h : heap) (self : nat) (key : string)
    (x : value) :
  heap_closed h -> (self < length h)%nat ->
  match path_scan h (Py.split "." key) (VDict self) with
  | Clear =>
      exists h', Config.set self key x h = (h', Ok tt)
        /\ (forall l, (l < length h)%nat ->
              l ∉ path_locs h (Py.split "." key) (VDict self) ->
              h' !! l = h !! l)
        /\ (NoDup (path_locs h (Py.split "." key) (VDict self)) ->
            forall fallback, Config.get self key fallback h' = (h', Ok x))
  | Blocked =>
      (exists pre post w, Py.split "." key = (pre ++ post)%list /\ post <> []
         /\ resolves h (VDict self) pre w /\ forall l, w <> VDict l)
      /\ exists h', Config.set self key x h = (h', Raise TypeError)
           /\ (h' = h \/ h' = (h ++ [∅])%list)
  | Dangling => False
  end.
Proof.
  intros Hh Hself.
  pose proof (path_scan_closed h (Py.split "." key) (VDict self) Hh Hself) as Hnd.
  pose proof (split_not_nil "." key) as Hne.
  destruct (path_scan h (Py.split "." key) (VDict self)) eqn:Hscan; [| |done].
  - destruct (set_from_clear x _ _ _ Hne Hscan) as (h' & Hset & _ & Hframe & Hget).
    exists h'. split_and!; [done..|].
    intros Hnodup fallback. unfold Config.get. by rewrite (Hget Hnodup).
  - split; [by apply path_scan_blocked|].
    by apply set_from_blocked.
Qed.

Lemma C5_set_creates_levels_or_raises_witness :
  exists h', Config.set 4 "network.tcp.port" (VInt 7)
               (two_instances sample_host sample_files) = (h', Ok tt)
    /\ (forall l, (l < length (two_instances sample_host sample_files))%nat ->
          l ∉ path_locs (two_instances sample_host sample_files)
                (Py.split "." "network.tcp.port") (VDict 4) ->
          h' !! l = two_instances sample_host sample_files !! l)
    /\ (NoDup (path_locs (two_instances sample_host sample_files)
                 (Py.split "." "network.tcp.port") (VDict 4)) ->
        forall fallback,
          Config.get 4 "network.tcp.port" fallback h' = (h', Ok (VInt 7))).
Proof.
  apply (C5_set_creates_levels_or_raises
           (two_instances sample_host sample_files) 4 "network.tcp.port" (VInt 7)).
  - apply (bool_decide_unpack _). vm_compute. exact I.
  - vm_compute. lia.
Defined.

(** ** Instances and the default tree *)

(** C6: a new instance is seeded with the default tree, but it does not
    own its nested dicts: [DEFAULT_CONFIG.copy()] is a shallow copy.  With
    two instances at 4 and 5, [set("remote_control.port", 1)] on the first
    changes what [get] returns on the second, on an instance made
    afterwards, and loading a [.cfg] file with [RCSPort=7] into the first
    changes the second as well.  A write at the top level, as of
    [filename], stays in its instance. *)
Theorem C6_instances_share_nested_dicts (host : Host) (files : Files) :
  let h := two_instances host files in
  let h1 := (Config.set 4 "remote_control.port" (VInt 1) h).1 in
  let h2 := (Config.__init__ host files None h1).1 in
  let h3 := (Config.load_from_file sample_host sample_files 4 "lab.cfg" h).1 in
  let h4 := (Config.set 4 "filename" (VStr "a.xdf") h).1 in
  map (fun key => (Config.get 4 key VNone h).2)
      ["filename"; "remote_control.enabled"; "remote_control.port";
       "recording.buffer_size"; "recording.max_samples_per_pull";
       "recording.clock_sync_interval"; "streams.timeout"; "streams.recover"]
  = [Ok (VStr "recording.xdf"); Ok (VBool true); Ok (VInt 22345);
     Ok (VInt 360); Ok (VInt 500); Ok (VFloat "5.0"); Ok (VFloat "2.0");
     Ok (VBool true)]
  /\ (Config.get 5 "remote_control.port" VNone h).2 = Ok (VInt 22345)
  /\ (Config.get 5 "remote_control.port" VNone h1).2 = Ok (VInt 1)
  /\ (Config.__init__ host files None h1).2 = Ok 6%nat
  /\ (Config.get 6 "remote_control.port" VNone h2).2 = Ok (VInt 1)
  /\ (Config.get 5 "remote_control.port" VNone h3).2 = Ok (VInt 7)
  /\ (Config.get 5 "filename" VNone h4).2 = Ok (VStr "recording.xdf").
Proof. vm_compute. repeat split; reflexivity. Qed.

(** ** Loading a file: errors *)

(** Induction on a parsed tree, with the hypothesis for every value of a
    dict. *)
Lemma tree_ind' (P : tree -> Prop) :
  P TNone -> (forall b, P (TBool b)) -> (forall z, P (TInt z)) ->
  (forall x, P (TFloat x)) -> (forall s, P (TStr s)) ->
  (forall items, P (TList items)) ->
  (forall items, Forall (fun kv => P kv.2) items -> P (TDict items)) ->
  forall t, P t.
Proof.
  intros HNone HBool HInt HFloat HStr HList HDict.
  fix IH 1.
  intros [|b|z|x|s|items|items];
    [exact HNone | apply HBool | apply HInt | apply HFloat | apply HStr
     | apply HList |].
  apply HDict. revert items.
  fix IHitems 1. intros [|[k t'] rest]; constructor; [apply IH | apply IHitems].
Qed.

Lemma never_raises_ret {A} (a : A) : never_raises (ret a).
Proof. by intros h h' e. Qed.

Lemma never_raises_bind {A B} (m : M A) (f : A -> M B) :
  never_raises m -> (forall a, never_raises (f a)) -> never_raises (bind m f).
Proof.
  intros Hm Hf h h' e. unfold bind.
  destruct (m h) as [h1 [a|e1|]] eqn:E; [apply Hf | | done].
  by destruct (Hm h h1 e1).
Qed.

Lemma never_raises_try_pass (m : M unit) : never_raises (try_pass m).
Proof. intros h h' e. unfold try_pass. by destruct (m h) as [h1 [a|e1|]]. Qed.

Lemma never_raises_alloc (d : gmap string value) : never_raises (alloc d).
Proof. by intros h h' e. Qed.

Lemma never_raises_setitem_dict (l : nat) (k : string) (x : value) :
  never_raises (setitem (VDict l) k x).
Proof. intros h h' e. unfold setitem. by destruct (h !! l). Qed.

Lemma never_raises_py_in_dict (l : nat) (k : string) :
  never_raises (py_in k (VDict l)).
Proof. intros h h' e. unfold py_in. by destruct (h !! l). Qed.

Lemma never_raises_store_tree (t : tree) : never_raises (Config.store_tree t).
Proof.
  induction t as [| | | | | |items IH] using tree_ind';
    try apply never_raises_ret.
  cbn [Config.store_tree]. apply never_raises_bind;
    [|intros d; apply never_raises_bind;
      [apply never_raises_alloc | intros; apply never_raises_ret]].
  generalize (∅ : gmap string value).
  induction IH as [|[k t'] rest Ht' _ IHrest]; intros d.
  - apply never_raises_ret.
  - apply never_raises_bind; [exact Ht' | intros v; apply IHrest].
Qed.

Lemma nested_dict_result (base : nat) (key : string) (x : tree) (h : heap) :
  exists r, Config.nested_dict base key x h = (h, r)
    /\ (forall e, r <> Raise e)
    /\ (forall sub, r = Ok (Some sub) ->
          (exists items, x = TDict items) /\ key_at h base key = Some (VDict sub)).
Proof.
  unfold Config.nested_dict, bind, py_in, getitem, ret, key_at.
  destruct (h !! base) as [d|] eqn:Hb; [|by eexists].
  destruct (d !! key) as [old|] eqn:Hk; simpl.
  - rewrite Hb, Hk. eexists. split_and!; [reflexivity | done |].
    intros sub Hsub. destruct old; try done. destruct x; try done.
    injection Hsub as ->. eauto.
  - by eexists.
Qed.

(** [_deep_update] raises only for an update that is no dict, and then
    before it has written anything. *)
Lemma deep_update_raise (t : tree) :
  forall base h h' e,
    Config._deep_update base t h = (h', Raise e) ->
    h' = h /\ forall items, t <> TDict items.
Proof.
  induction t as [| | | | | |items IH] using tree_ind'; intros base h h' e;
    try (by intros [= <- _]).
  cbn [Config._deep_update]. intros Hraise. exfalso.
  revert h Hraise. induction IH as [|[key x] rest Hx _ IHrest]; intros h; [done|].
  destruct (nested_dict_result base key x h) as (r & Hn & Hnr & Hsub).
  unfold bind at 1. rewrite Hn.
  destruct r as [[sub|]|e1|]; [| |by destruct (Hnr e1)|done].
  - unfold bind at 1.
    destruct (Config._deep_update sub x h) as [h1 [[]|e1|]] eqn:E; [apply IHrest| |done].
    apply Hx in E as [_ Hnot]. destruct (Hsub sub eq_refl) as [[it ->] _].
    by destruct (Hnot it).
  - unfold bind at 1.
    destruct ((v <- Config.store_tree x ;; setitem (VDict base) key v) h)
      as [h1 [[]|e1|]] eqn:E; [apply IHrest| |done].
    exfalso. revert E. apply never_raises_bind; [apply never_raises_store_tree|].
    intros v. apply never_raises_setitem_dict.
Qed.

Lemma set_top_level_never_raises (self : nat) (k : string) (x : value) :
  Py.split "." k = [k] -> never_raises (Config.set self k x).
Proof.
  intros Hk h h' e. unfold Config.set. rewrite Hk.
  cbn [removelast List.last Config.set_walk]. unfold bind, ret.
  apply never_raises_setitem_dict.
Qed.

(** The block of the file name raises only before it writes. *)
Lemma cfg_filename_raise (host : Host) (self : nat)
    (cfg : gmap string ConfigValue) (h h' : heap) (e : exn) :
  Config.cfg_filename host self cfg h = (h', Raise e) -> h' = h.
Proof.
  unfold Config.cfg_filename.
  assert (forall s, Config.set self "filename" (VStr (finish_dest host s)) h
                    <> (h', Raise e)) as Hset.
  { intros s. by apply set_top_level_never_raises. }
  destruct (Py.nonempty (path_field host cfg "StorageLocation")).
  { unfold bind, ret. intros Heq. by destruct (Hset _ Heq). }
  destruct (Py.nonempty (path_field host cfg "StudyRoot"));
    destruct (Py.nonempty (path_field host cfg "PathTemplate")); cbn [andb];
    try (unfold bind, ret; intros Heq; by destruct (Hset _ Heq)).
  unfold bind, dict_get. destruct (h !! self) as [d|]; [|done].
  destruct (default (VStr "recording.xdf") (d !! "filename"));
    try (by intros [= <- _]).
  unfold ret. intros Heq. by destruct (Hset _ Heq).
Qed.

Lemma never_raises_cfg_remote_control (host : Host) (self : nat)
    (cfg : gmap string ConfigValue) :
  never_raises (Config.cfg_remote_control host self cfg).
Proof.
  unfold Config.cfg_remote_control. apply never_raises_bind; [|intros _];
    (destruct (cfg !! _); [apply never_raises_try_pass | apply never_raises_ret]).
Qed.

Lemma never_raises_cfg_auto_start (host : Host) (self : nat)
    (cfg : gmap string ConfigValue) :
  never_raises (Config.cfg_auto_start host self cfg).
Proof.
  unfold Config.cfg_auto_start.
  destruct (cfg !! _); [apply never_raises_try_pass | apply never_raises_ret].
Qed.

Lemma cfg_required_streams_no_raise (host : Host) (self : nat)
    (cfg : gmap string ConfigValue) (h h' : heap) (e : exn) :
  streams_is_mapping h self ->
  Config.cfg_required_streams host self cfg h <> (h', Raise e).
Proof.
  intros Hs. unfold Config.cfg_required_streams.
  destruct (cfg !! "RequiredStreams") as [required|]; [|done].
  unfold bind at 1, py_in. destruct (h !! self) as [d|] eqn:Hd; [|done].
  unfold streams_is_mapping in Hs. rewrite (key_at_lookup h self d _ Hd) in Hs.
  destruct (d !! "streams") as [v|] eqn:Hv.
  - rewrite bool_decide_eq_true_2 by eauto.
    unfold bind at 1, getitem. rewrite Hd, Hv.
    destruct (Hs v eq_refl) as [l ->].
    apply never_raises_bind; intros; apply never_raises_setitem_dict.
  - rewrite bool_decide_eq_false_2 by (by intros [? ?]).
    unfold bind at 1. unfold bind at 1, alloc, ret.
    apply never_raises_bind; intros; apply never_raises_setitem_dict.
Qed.

Lemma streams_is_mapping_keeps {A} (m : M A) (h h' : heap) (r : res A)
    (self : nat) :
  keeps "streams" m -> m h = (h', r) ->
  streams_is_mapping h self -> streams_is_mapping h' self.
Proof.
  intros Hm E Hs v. rewrite (Hm _ _ _ self E). apply Hs.
Qed.

Lemma keeps_cfg_filename (kk : string) (host : Host) (self : nat)
    (cfg : gmap string ConfigValue) :
  "filename" <> kk -> keeps kk (Config.cfg_filename host self cfg).
Proof.
  intros Hk. unfold Config.cfg_filename. apply keeps_bind.
  - destruct (Py.nonempty (path_field host cfg "StorageLocation"));
      [apply keeps_ret|].
    destruct (Py.nonempty (path_field host cfg "StudyRoot"));
      destruct (Py.nonempty (path_field host cfg "PathTemplate")); cbn [andb];
      first [apply keeps_ret | apply keeps_dict_get].
  - intros dest. apply keeps_bind.
    + destruct dest; first [apply keeps_ret | apply keeps_raise].
    + intros s. apply keeps_set. vm_compute Py.split. by repeat constructor.
Qed.

(** The legacy loader raises only before it writes, when the [streams]
    entry of the instance is absent or a dict. *)
Lemma load_from_cfg_raise (host : Host) (files : Files) (self : nat)
    (path : string) (h h' : heap) (e : exn) :
  streams_is_mapping h self ->
  Config._load_from_cfg host files self path h = (h', Raise e) -> h' = h.
Proof.
  intros Hs. unfold Config._load_from_cfg. unfold bind at 1, lift.
  destruct (read_cfg_lines files path) as [lines|e1]; [|by intros [= <- _]].
  set (cfg := parse_lines UtilsConfig._strip_comment lines).
  unfold bind at 1.
  destruct (Config.cfg_filename host self cfg h) as [h1 [[]|e1|]] eqn:E1;
    [|intros [= <- _]; by eapply cfg_filename_raise|done].
  assert (streams_is_mapping h1 self) as Hs1.
  { eapply streams_is_mapping_keeps; [|exact E1|done].
    by apply keeps_cfg_filename. }
  unfold bind at 1.
  destruct (Config.cfg_remote_control host self cfg h1) as [h2 [[]|e2|]] eqn:E2;
    [|by destruct (never_raises_cfg_remote_control host self cfg h1 h2 e2)|done].
  assert (streams_is_mapping h2 self) as Hs2.
  { eapply streams_is_mapping_keeps; [|exact E2|done].
    apply keeps_cfg_remote_control. by repeat constructor. }
  unfold bind at 1.
  destruct (Config.cfg_auto_start host self cfg h2) as [h3 [[]|e3|]] eqn:E3;
    [|by destruct (never_raises_cfg_auto_start host self cfg h2 h3 e3)|done].
  assert (streams_is_mapping h3 self) as Hs3.
  { eapply streams_is_mapping_keeps; [|exact E3|done].
    by apply keeps_cfg_auto_start. }
  intros Hraise. by destruct (cfg_required_streams_no_raise _ _ _ _ _ _ Hs3 Hraise).
Qed.

(** A load that reports an error has changed nothing, for a JSON file
    always, and for a legacy file when [streams] is absent or a dict. *)
Lemma load_from_file_error (host : Host) (files : Files) (self : nat)
    (filename : string) (h h' : heap) (e : exn) :
  (Py.endswith ".cfg" (Py.lower filename) = true -> streams_is_mapping h self) ->
  Config.load_from_file host files self filename h = (h', Ok (Some e)) ->
  h' = h.
Proof.
  intros Hs. unfold Config.load_from_file.
  destruct (Py.endswith ".cfg" (Py.lower filename)).
  - destruct (Config._load_from_cfg host files self filename h)
      as [h1 [[]|e1|]] eqn:E; [done| |done].
    intros [= <- _]. eapply load_from_cfg_raise; [by apply Hs | exact E].
  - unfold bind, lift.
    destruct (load_json files filename) as [t|e1]; [|by intros [= <- _]].
    destruct (Config._deep_update self t h) as [h1 [[]|e1|]] eqn:E; [done| |done].
    intros [= <- _]. by apply deep_update_raise in E as [-> _].
Qed.


(** C8: a failed load can leave a part of the load in the store, and the
    code shows that it is a slip.  The three fields before it
    ([RCSEnabled], [RCSPort], [AutoStart]) are each under a [try] with
    [except Exception: pass], so that a field that cannot be used is
    skipped and the load goes on; the block of [RequiredStreams], the last
    one, is not, and its assignment into the [streams] entry raises when
    that entry is no dict.  On an instance whose [streams] entry holds the
    integer 5, loading a [.cfg] file with [StorageLocation] and
    [RequiredStreams] reports a [TypeError], and [filename] has changed
    from [recording.xdf] to [out.xdf]; on the same instance a file whose
    [RCSPort] is no number loads without a warning. *)
Theorem C8_failed_load_keeps_partial_write :
  let h := (Config.set 4 "streams" (VInt 5)
              (two_instances sample_host sample_files)).1 in
  let after := Config.load_from_file sample_host sample_files 4 "lab.cfg" h in
  let guarded :=
    Config.load_from_file sample_host
      {| exists_path := fun _ => true;
         read_cfg_lines := fun _ => Returns ["StorageLocation=out"; "RCSPort=abc"];
         load_json := fun _ => Raises JSONDecodeError |}
      4 "lab.cfg" h in
  sample_lines = ["StorageLocation=out"; "RequiredStreams=EEG"; "RCSPort=7"]
  /\ (Config.get 4 "streams" VNone h).2 = Ok (VInt 5)
  /\ after.2 = Ok (Some TypeError)
  /\ (Config.get 4 "filename" VNone h).2 = Ok (VStr "recording.xdf")
  /\ (Config.get 4 "filename" VNone after.1).2 = Ok (VStr "out.xdf")
  /\ guarded.2 = Ok None.
Proof. vm_compute. split_and!; reflexivity. Qed.

(** ** The store: closed heaps stay closed *)

Lemma value_closed_mono (n m : nat) (v : value) :
  (n <= m)%nat -> value_closed n v -> value_closed m v.
Proof. destruct v; simpl; lia. Qed.

Lemma dict_closed_mono (n m : nat) (d : gmap string value) :
  (n <= m)%nat ->
  map_Forall (fun (_ : string) v => value_closed n v) d ->
  map_Forall (fun (_ : string) v => value_closed m v) d.
Proof.
  intros Hnm Hd. eapply map_Forall_impl; [exact Hd|].
  intros k v. by apply value_closed_mono.
Qed.

Lemma heap_closed_alloc (h : heap) (d : gmap string value) :
  heap_closed h ->
  map_Forall (fun (_ : string) v => value_closed (S (length h)) v) d ->
  heap_closed (h ++ [d]).
Proof.
  intros Hh Hd. unfold heap_closed in *. rewrite length_app. simpl.
  rewrite Nat.add_1_r. apply Forall_app. split.
  - eapply Forall_impl; [exact Hh|]. intros d'. apply dict_closed_mono. lia.
  - by repeat constructor.
Qed.

Lemma heap_closed_insert (h : heap) (l : nat) (d : gmap string value)
    (k : string) (x : value) :
  heap_closed h -> h !! l = Some d -> value_closed (length h) x ->
  heap_closed (<[l := <[k := x]> d]> h).
Proof.
  intros Hh Hl Hx. unfold heap_closed in *. rewrite length_insert.
  apply Forall_insert; [done|]. apply map_Forall_insert_2; [done|].
  rewrite Forall_lookup in Hh. by apply (Hh l d).
Qed.

Lemma safe_ret {A} (n0 : nat) (a : A) (Q : A -> nat -> Prop) :
  (forall n, (n0 <= n)%nat -> Q a n) -> safe n0 (ret a) Q.
Proof. intros HQ h Hh Hn. exists h, (Ok a). split_and!; auto. Qed.

Lemma safe_raise {A} (n0 : nat) (e : exn) (Q : A -> nat -> Prop) :
  safe n0 (raise e) Q.
Proof. intros h Hh Hn. exists h, (Raise e). split_and!; auto. Qed.

Lemma safe_lift {A} (n0 : nat) (r : outcome A) : safe n0 (lift r) any.
Proof.
  intros h Hh Hn. eexists h, _. split_and!; [reflexivity|done..|].
  by destruct r.
Qed.

Lemma safe_bind {A B} (n0 : nat) (m : M A) (f : A -> M B)
    (Q : A -> nat -> Prop) (R : B -> nat -> Prop) :
  safe n0 m Q ->
  (forall a n, (n0 <= n)%nat -> Q a n -> safe n (f a) R) ->
  safe n0 (bind m f) R.
Proof.
  intros Hm Hf h Hh Hn.
  destruct (Hm h Hh Hn) as (h1 & r & E & Hh1 & Hlen & Hr).
  unfold bind. rewrite E. destruct r as [a|e|]; [| |done].
  - destruct (Hf a (length h1) ltac:(lia) Hr h1 Hh1 ltac:(lia))
      as (h2 & r2 & E2 & Hh2 & Hlen2 & Hr2).
    exists h2, r2. split_and!; [done..|lia|done].
  - exists h1, (Raise e). split_and!; done.
Qed.

Lemma safe_weaken {A} (n0 : nat) (m : M A) (Q R : A -> nat -> Prop) :
  safe n0 m Q -> (forall a n, Q a n -> R a n) -> safe n0 m R.
Proof.
  intros Hm HQR h Hh Hn.
  destruct (Hm h Hh Hn) as (h1 & r & E & Hh1 & Hlen & Hr).
  exists h1, r. split_and!; [done..|]. destruct r; auto.
Qed.

Lemma safe_try_pass (n0 : nat) (m : M unit) (Q : unit -> nat -> Prop) :
  safe n0 m Q -> safe n0 (try_pass m) any.
Proof.
  intros Hm h Hh Hn.
  destruct (Hm h Hh Hn) as (h1 & r & E & Hh1 & Hlen & Hr).
  unfold try_pass. rewrite E. destruct r as [a|e|]; [| |done].
  - exists h1, (Ok a). split_and!; done.
  - exists h1, (Ok tt). split_and!; done.
Qed.

Lemma safe_alloc (n0 : nat) (d : gmap string value) :
  map_Forall (fun (_ : string) v => value_closed n0 v) d ->
  safe n0 (alloc d) (fun l n => (l < n)%nat).
Proof.
  intros Hd h Hh Hn. exists (h ++ [d])%list, (Ok (length h)).
  split_and!; [done | | |]; try (rewrite length_app; simpl; lia).
  apply heap_closed_alloc; [done|]. eapply dict_closed_mono; [|exact Hd]. lia.
Qed.

Lemma safe_py_in (n0 : nat) (k : string) (v : value) :
  value_closed n0 v -> safe n0 (py_in k v) any.
Proof.
  intros Hv h Hh Hn. unfold py_in.
  destruct v as [| | | | | |l]; try (by eexists h, _).
  simpl in Hv. destruct (lookup_lt_is_Some_2 h l ltac:(lia)) as [d Hd].
  rewrite Hd. by eexists h, _.
Qed.

Lemma safe_getitem (n0 : nat) (v : value) (k : string) :
  value_closed n0 v -> safe n0 (getitem v k) (fun w n => value_closed n w).
Proof.
  intros Hv h Hh Hn. unfold getitem.
  destruct v as [| | | | | |l]; try (by eexists h, _).
  simpl in Hv. destruct (lookup_lt_is_Some_2 h l ltac:(lia)) as [d Hd].
  rewrite Hd. destruct (d !! k) as [w|] eqn:Hk; [|by eexists h, _].
  exists h, (Ok w). split_and!; [done..|]. by eapply heap_closed_lookup.
Qed.

Lemma safe_setitem (n0 : nat) (v : value) (k : string) (x : value) :
  value_closed n0 v -> value_closed n0 x -> safe n0 (setitem v k x) any.
Proof.
  intros Hv Hx h Hh Hn. unfold setitem.
  destruct v as [| | | | | |l]; try (by eexists h, _).
  simpl in Hv. destruct (lookup_lt_is_Some_2 h l ltac:(lia)) as [d Hd].
  rewrite Hd. eexists _, (Ok tt).
  split_and!; [reflexivity| |by rewrite length_insert|done].
  apply heap_closed_insert; [done..|]. by eapply value_closed_mono.
Qed.

Lemma safe_dict_get (n0 l : nat) (k : string) (x : value) :
  (l < n0)%nat -> value_closed n0 x ->
  safe n0 (dict_get l k x) (fun w n => value_closed n w).
Proof.
  intros Hl Hx h Hh Hn. unfold dict_get.
  destruct (lookup_lt_is_Some_2 h l ltac:(lia)) as [d Hd]. rewrite Hd.
  eexists h, _. split_and!; [reflexivity|done..|].
  destruct (d !! k) as [w|] eqn:Hk; simpl.
  - by eapply heap_closed_lookup.
  - by eapply value_closed_mono.
Qed.

Lemma safe_set_walk (keys : list string) :
  forall n0 v, value_closed n0 v ->
  safe n0 (Config.set_walk keys v) (fun w n => value_closed n w).
Proof.
  induction keys as [|k keys IH]; intros n0 v Hv; cbn [Config.set_walk].
  - apply safe_ret. intros n Hn. by eapply value_closed_mono.
  - eapply safe_bind; [by apply safe_py_in|]. intros present n1 Hn1 _.
    pose proof (value_closed_mono _ _ _ Hn1 Hv) as Hv1.
    eapply (safe_bind _ _ _ any).
    + destruct present; cbn [negb]; [by apply safe_ret|].
      eapply safe_bind; [by apply safe_alloc|]. intros fresh n2 Hn2 Hfresh.
      apply safe_setitem; [by eapply value_closed_mono | done].
    + intros _ n2 Hn2 _. eapply safe_bind.
      * apply safe_getitem. by eapply value_closed_mono.
      * intros w n3 Hn3 Hw. by apply IH.
Qed.

Lemma safe_set (n0 self : nat) (key : string) (x : value) :
  (self < n0)%nat -> value_closed n0 x -> safe n0 (Config.set self key x) any.
Proof.
  intros Hself Hx. unfold Config.set. eapply safe_bind.
  - by apply safe_set_walk.
  - intros config n Hn Hc. apply safe_setitem; [done|].
    by eapply value_closed_mono.
Qed.

Lemma safe_store_tree (t : tree) :
  forall n0, safe n0 (Config.store_tree t) (fun v n => value_closed n v).
Proof.
  induction t as [| | | | | |items IH] using tree_ind'; intros n0;
    try (by apply safe_ret).
  cbn [Config.store_tree].
  eapply (safe_bind _ _ _
            (fun d n => map_Forall (fun (_ : string) v => value_closed n v) d)).
  - assert (map_Forall (fun (_ : string) v => value_closed n0 v)
              (∅ : gmap string value)) as Hd by apply map_Forall_empty.
    revert Hd. generalize (∅ : gmap string value). revert n0.
    induction IH as [|[k t'] rest Ht' _ IHrest]; intros n0 d Hd.
    + apply safe_ret. intros n Hn. by eapply dict_closed_mono.
    + eapply safe_bind; [apply Ht'|]. intros v n1 Hn1 Hv.
      apply IHrest. apply map_Forall_insert_2; [done|].
      by eapply dict_closed_mono.
  - intros d n1 Hn1 Hd. eapply safe_bind; [by apply safe_alloc|].
    intros l n2 Hn2 Hl. apply safe_ret. intros n Hn. simpl in *. lia.
Qed.

Lemma safe_nested_dict (n0 base : nat) (key : string) (x : tree) :
  (base < n0)%nat ->
  safe n0 (Config.nested_dict base key x)
    (fun o n => match o with Some sub => (sub < n)%nat | None => True end).
Proof.
  intros Hbase. unfold Config.nested_dict.
  eapply safe_bind; [by apply safe_py_in|]. intros present n1 Hn1 _.
  destruct present; [|by apply safe_ret].
  eapply safe_bind; [apply safe_getitem; simpl; lia|].
  intros old n2 Hn2 Hold. apply safe_ret. intros n Hn.
  destruct old; try done. destruct x; try done. simpl in *. lia.
Qed.

Lemma safe_deep_update (t : tree) :
  forall n0 base, (base < n0)%nat -> safe n0 (Config._deep_update base t) any.
Proof.
  induction t as [| | | | | |items IH] using tree_ind'; intros n0 base Hbase;
    try (by apply safe_raise).
  cbn [Config._deep_update]. revert n0 Hbase.
  induction IH as [|[key x] rest Hx _ IHrest]; intros n0 Hbase.
  - by apply safe_ret.
  - eapply safe_bind; [by apply safe_nested_dict|].
    intros nested n1 Hn1 Hnested. eapply (safe_bind _ _ _ any).
    + destruct nested as [sub|]; [by apply Hx|].
      eapply safe_bind; [apply safe_store_tree|].
      intros v n2 Hn2 Hv. apply safe_setitem; [simpl; lia | done].
    + intros _ n2 Hn2 _. apply IHrest. lia.
Qed.

Lemma safe_cfg_filename (n0 : nat) (host : Host) (self : nat)
    (cfg : gmap string ConfigValue) :
  (self < n0)%nat -> safe n0 (Config.cfg_filename host self cfg) any.
Proof.
  intros Hself. unfold Config.cfg_filename.
  eapply (safe_bind _ _ _ any).
  - destruct (Py.nonempty (path_field host cfg "StorageLocation"));
      [by apply safe_ret|].
    destruct (Py.nonempty (path_field host cfg "StudyRoot"));
      destruct (Py.nonempty (path_field host cfg "PathTemplate")); cbn [andb];
      try (by apply safe_ret).
    eapply safe_weaken; [by apply safe_dict_get | done].
  - intros dest n1 Hn1 _. eapply (safe_bind _ _ _ any).
    + destruct dest; first [by apply safe_ret | apply safe_raise].
    + intros s n2 Hn2 _. apply safe_set; [lia | done].
Qed.

Lemma safe_try_set (n0 : nat) (host : Host) (self : nat) (key : string)
    (raw : ConfigValue) (f : Z -> value) :
  (self < n0)%nat -> (forall z n, value_closed n (f z)) ->
  safe n0 (try_pass (i <- lift (int_of host raw) ;; Config.set self key (f i))) any.
Proof.
  intros Hself Hf. eapply safe_try_pass, safe_bind; [apply safe_lift|].
  intros i n1 Hn1 _. apply safe_set; [lia | apply Hf].
Qed.

Lemma safe_cfg_remote_control (n0 : nat) (host : Host) (self : nat)
    (cfg : gmap string ConfigValue) :
  (self < n0)%nat -> safe n0 (Config.cfg_remote_control host self cfg) any.
Proof.
  intros Hself. unfold Config.cfg_remote_control.
  eapply (safe_bind _ _ _ any).
  - destruct (cfg !! _); [by apply safe_try_set | by apply safe_ret].
  - intros _ n1 Hn1 _.
    destruct (cfg !! _); [apply safe_try_set; [lia | done] | by apply safe_ret].
Qed.

Lemma safe_cfg_auto_start (n0 : nat) (host : Host) (self : nat)
    (cfg : gmap string ConfigValue) :
  (self < n0)%nat -> safe n0 (Config.cfg_auto_start host self cfg) any.
Proof.
  intros Hself. unfold Config.cfg_auto_start.
  destruct (cfg !! _); [by apply safe_try_set | by apply safe_ret].
Qed.

Lemma safe_cfg_required_streams (n0 : nat) (host : Host) (self : nat)
    (cfg : gmap string ConfigValue) :
  (self < n0)%nat -> safe n0 (Config.cfg_required_streams host self cfg) any.
Proof.
  intros Hself. unfold Config.cfg_required_streams.
  destruct (cfg !! _); [|by apply safe_ret].
  eapply safe_bind; [by apply safe_py_in|]. intros present n1 Hn1 _.
  eapply (safe_bind _ _ _ (fun w n => value_closed n w)).
  - destruct present; [apply safe_getitem; simpl; lia|].
    eapply safe_bind; [apply safe_alloc, map_Forall_empty|].
    intros fresh n2 Hn2 Hfresh. apply safe_ret. intros n Hn. simpl in *. lia.
  - intros streams_cfg n2 Hn2 Hs. eapply (safe_bind _ _ _ any).
    + by apply safe_setitem.
    + intros _ n3 Hn3 _. apply safe_setitem; [simpl; lia|].
      by eapply value_closed_mono.
Qed.

Lemma safe_load_from_cfg (n0 : nat) (host : Host) (files : Files)
    (self : nat) (path : string) :
  (self < n0)%nat -> safe n0 (Config._load_from_cfg host files self path) any.
Proof.
  intros Hself. unfold Config._load_from_cfg.
  eapply safe_bind; [apply safe_lift|]. intros lines n1 Hn1 _.
  eapply safe_bind; [apply safe_cfg_filename; lia|]. intros _ n2 Hn2 _.
  eapply safe_bind; [apply safe_cfg_remote_control; lia|]. intros _ n3 Hn3 _.
  eapply safe_bind; [apply safe_cfg_auto_start; lia|]. intros _ n4 Hn4 _.
  apply safe_cfg_required_streams. lia.
Qed.

(** [load_from_file] returns on a closed heap: every error is caught. *)
Lemma safe_load_from_file (n0 : nat) (host : Host) (files : Files)
    (self : nat) (filename : string) :
  (self < n0)%nat ->
  safe n0 (Config.load_from_file host files self filename)
    (fun _ _ => True).
Proof.
  intros Hself h Hh Hn. unfold Config.load_from_file.
  match goal with |- context [?body h] =>
    assert (safe n0 body any) as Hbody
  end.
  { destruct (Py.endswith ".cfg" (Py.lower filename)).
    - by apply safe_load_from_cfg.
    - eapply safe_bind; [apply safe_lift|]. intros t n1 Hn1 _.
      apply safe_deep_update. lia. }
  destruct (Hbody h Hh Hn) as (h1 & r & E & Hh1 & Hlen & Hr). rewrite E.
  destruct r as [[]|e|]; [| |done]; eexists h1, _; by split_and!.
Qed.

Lemma initial_heap_closed : heap_closed Config.initial_heap.
Proof. apply (bool_decide_unpack _). vm_compute. exact I. Qed.

(** A new instance on a closed heap: the heap stays closed. *)
Lemma safe_init (n0 : nat) (host : Host) (files : Files)
    (config_file : option string) :
  (Config.DEFAULT_CONFIG < n0)%nat ->
  safe n0 (Config.__init__ host files config_file) (fun self n => (self < n)%nat).
Proof.
  intros Hdef. unfold Config.__init__.
  eapply (safe_bind _ _ _
            (fun d n => map_Forall (fun (_ : string) v => value_closed n v) d)).
  - intros h Hh Hn.
    destruct (lookup_lt_is_Some_2 h Config.DEFAULT_CONFIG ltac:(lia)) as [d Hd].
    rewrite Hd. exists h, (Ok d). split_and!; [done..|].
    unfold heap_closed in Hh. rewrite Forall_lookup in Hh. by apply (Hh _ _ Hd).
  - intros d n1 Hn1 Hd. eapply safe_bind; [by apply safe_alloc|].
    intros self n2 Hn2 Hself. simpl in Hself.
    assert (safe n2 (ret self) (fun self n => (self < n)%nat)) as Hret.
    { apply safe_ret. intros n Hn. lia. }
    destruct config_file as [path|]; [|done].
    destruct (Py.nonempty path && exists_path files path); [|done].
    eapply safe_bind; [by apply safe_load_from_file|].
    intros _ n3 Hn3 _. apply safe_ret. intros n Hn. lia.
Qed.

(** * Further properties of the code *)

(** ** The loop over the lines *)

Lemma parse_lines_snoc (sc : string -> string) (lines : list string) (raw : string) :
  parse_lines sc (lines ++ [raw])
  = parse_line sc (parse_lines sc lines) raw.
Proof. unfold parse_lines. by rewrite fold_left_app. Qed.

Lemma contains_char (c : ascii) (s : string) :
  Py.contains (String c EmptyString) s = Py.mem c s.
Proof.
  unfold Py.contains.
  destruct (find_char_cases c s) as [[-> ->]|(a & b & -> & Ha & ->)]; [done|].
  rewrite mem_app_char, Ascii.eqb_refl, orb_true_r.
  by destruct (Z.leb_spec 0 (Z.of_nat (String.length a))); [|lia].
Qed.

(** X1: a line whose text after comment stripping is [key=value], cut at
    its first [=], binds the trimmed key to the typed value, whatever the
    lines before have bound it to, and leaves the other keys. *)
Theorem X1_parse_line_binds_key (sc : string -> string) (lines : list string)
    (raw key value : string) :
  sc raw = key +:+ String "=" value -> Py.mem "=" key = false ->
  parse_lines sc (lines ++ [raw])
  = <[Py.strip key := _parse_value value]> (parse_lines sc lines).
Proof.
  intros Hraw Hkey. rewrite parse_lines_snoc. unfold parse_line. rewrite Hraw.
  rewrite contains_char, mem_app_char, Ascii.eqb_refl, orb_true_r.
  rewrite (split1_at_first "=" key value Hkey). by destruct key.
Qed.

Lemma X1_parse_line_binds_key_witness :
  parse_lines UtilsConfig._strip_comment (["RCSPort=1"] ++ ["RCSPort = 2 ; port"])
  = <[Py.strip "RCSPort " := _parse_value " 2"]>
      (parse_lines UtilsConfig._strip_comment ["RCSPort=1"]).
Proof.
  apply (X1_parse_line_binds_key UtilsConfig._strip_comment ["RCSPort=1"]
           "RCSPort = 2 ; port" "RCSPort " " 2"); reflexivity.
Defined.

(** X2: a line whose text after comment stripping holds no [=] (a blank
    line, a comment, anything else) changes nothing. *)
Theorem X2_parse_line_skips (sc : string -> string) (lines : list string)
    (raw : string) :
  Py.mem "=" (sc raw) = false ->
  parse_lines sc (lines ++ [raw]) = parse_lines sc lines.
Proof.
  intros Hraw. rewrite parse_lines_snoc. unfold parse_line.
  rewrite contains_char, Hraw. by destruct (Py.nonempty (sc raw)).
Qed.

Lemma X2_parse_line_skips_witness :
  parse_lines CfgLoader._strip_comment (["a=1"] ++ ["[section]"])
  = parse_lines CfgLoader._strip_comment ["a=1"].
Proof.
  apply (X2_parse_line_skips CfgLoader._strip_comment ["a=1"] "[section]").
  reflexivity.
Defined.

Lemma utils_step_first (c : ascii) (rest : string) :
  UtilsConfig.strip_comment_sep (String c EmptyString) (String c rest) = EmptyString.
Proof. apply (utils_step_split c EmptyString rest). done. Qed.

Lemma utils_strip_comment_marker_first (c : ascii) (rest : string) :
  is_marker c = true -> UtilsConfig._strip_comment (String c rest) = EmptyString.
Proof.
  intros Hc. unfold UtilsConfig._strip_comment. cbn [fold_left].
  destruct (marker_cases _ Hc) as [-> | ->].
  - by rewrite utils_step_first.
  - destruct (char_cases ";" rest) as [Hr|(r1 & r2 & -> & Hr1)].
    + rewrite (utils_step_absent ";" (String "#" rest)) by (simpl; exact Hr).
      by rewrite utils_step_first.
    + change (String "#" (r1 +:+ String ";" r2))
        with (String "#" r1 +:+ String ";" r2).
      rewrite (utils_step_split ";" (String "#" r1) r2) by (simpl; exact Hr1).
      by rewrite utils_step_first.
Qed.

(** X3: a line that starts with [;] or [#] at column 0 is a comment for
    both parsers: [_strip_comment] returns the empty string, whatever
    follows the marker, and the loop skips the line. *)
Theorem X3_comment_line_at_column_0 (c : ascii) (rest : string)
    (lines : list string) :
  is_marker c = true ->
  CfgLoader._strip_comment (String c rest) = EmptyString
  /\ UtilsConfig._strip_comment (String c rest) = EmptyString
  /\ parse_lines CfgLoader._strip_comment (lines ++ [String c rest])
     = parse_lines CfgLoader._strip_comment lines
  /\ parse_lines UtilsConfig._strip_comment (lines ++ [String c rest])
     = parse_lines UtilsConfig._strip_comment lines.
Proof.
  intros Hc.
  pose proof (utils_strip_comment_marker_first c rest Hc) as Hu.
  assert (CfgLoader._strip_comment (String c rest) = EmptyString) as Hl.
  { rewrite copies_agree_off_indented; [done|].
    unfold indented_comment. by rewrite (marker_not_space _ Hc). }
  split_and!; [done..| |]; rewrite parse_lines_snoc; unfold parse_line;
    by rewrite ?Hl, ?Hu.
Qed.

Lemma X3_comment_line_at_column_0_witness :
  CfgLoader._strip_comment "# StudyRoot=/data ; x" = EmptyString
  /\ UtilsConfig._strip_comment "# StudyRoot=/data ; x" = EmptyString
  /\ parse_lines CfgLoader._strip_comment (["a=1"] ++ ["# StudyRoot=/data ; x"])
     = parse_lines CfgLoader._strip_comment ["a=1"]
  /\ parse_lines UtilsConfig._strip_comment (["a=1"] ++ ["# StudyRoot=/data ; x"])
     = parse_lines UtilsConfig._strip_comment ["a=1"].
Proof.
  apply (X3_comment_line_at_column_0 "#" " StudyRoot=/data ; x" ["a=1"]).
  reflexivity.
Defined.

(** ** Value typing *)

Lemma split_no_sep (sep : ascii) (s : string) :
  Py.mem sep s = false -> Py.split sep s = [s].
Proof.
  induction s as [|c s IH]; [done|]. cbn [Py.mem Py.split].
  intros [Hc Hs]%orb_false_iff. rewrite Ascii.eqb_sym, Hc, (IH Hs). done.
Qed.

(** X4: [_parse_value] returns a list only for a text that holds a double
    quote and a comma, and a list it returns has at least two items; so a
    parsed list is never empty, and an unquoted text is never a list. *)
Theorem X4_parse_value_list_only_quoted (raw : string) (items : list string) :
  _parse_value raw = CList items ->
  Py.mem "034" (Py.strip raw) = true
  /\ Py.mem "," (Py.strip raw) = true
  /\ (2 <= length items)%nat.
Proof.
  unfold _parse_value. destruct (Py.nonempty (Py.strip raw)); [|done].
  cbn [negb]. unfold DQ. rewrite contains_char.
  destruct (Py.mem "034" (Py.strip raw)) eqn:Hq.
  - destruct (Py.mem "," (Py.strip raw)) eqn:Hc.
    + pose proof (split_not_nil "," (Py.strip raw)) as Hne.
      destruct (Py.split "," (Py.strip raw)) as [|x [|y l]]; [done|done|].
      intros [= <-]. split_and!; [done..|]. simpl. lia.
    + by rewrite (split_no_sep _ _ Hc).
  - destruct (if is_int_literal _ then _ else _); [done|].
    destruct (is_float_literal _); [done|].
    destruct (String.eqb _ "0"); [done|]. by destruct (String.eqb _ "1").
Qed.

Lemma X4_parse_value_list_only_quoted_witness :
  Py.mem "034" (Py.strip (DQ +:+ "EEG" +:+ DQ +:+ ", Markers")) = true
  /\ Py.mem "," (Py.strip (DQ +:+ "EEG" +:+ DQ +:+ ", Markers")) = true
  /\ (2 <= length ["EEG"; "Markers"])%nat.
Proof.
  apply (X4_parse_value_list_only_quoted (DQ +:+ "EEG" +:+ DQ +:+ ", Markers")
           ["EEG"; "Markers"]).
  reflexivity.
Defined.

(** ** Integers: printing and typing *)

Lemma digit_not_sign (c : ascii) : Py.isdigit c = true -> Py.mem c "-+" = false.
Proof. ascii_cases c. Qed.

Lemma digit_not_dot (c : ascii) : Py.isdigit c = true -> Ascii.eqb "." c = false.
Proof. ascii_cases c. Qed.

Lemma split1_no_sep (sep : ascii) (s : string) :
  Py.mem sep s = false -> Py.split1 sep s = [s].
Proof.
  induction s as [|c s IH]; [done|]. cbn [Py.mem Py.split1].
  intros [Hc Hs]%orb_false_iff. rewrite Ascii.eqb_sym, Hc, (IH Hs). done.
Qed.

(** A text of digits does not match the float pattern. *)
Lemma digits_no_float (d : string) :
  all_chars Py.isdigit d = true -> Py.split1 "." d = [d].
Proof.
  intros Hd. apply split1_no_sep. by apply (all_chars_mem Py.isdigit).
Qed.

Lemma literal_value_digit (c : ascii) (d : string) :
  Py.isdigit c = true ->
  match String c d with
  | String "-" d' => - digits_value 0 d'
  | String "+" d' => digits_value 0 d'
  | _ => digits_value 0 (String c d)
  end = digits_value 0 (String c d).
Proof.
  intros Hc. destruct c as [[] [] [] [] [] [] [] []];
    first [reflexivity | vm_compute in Hc; discriminate Hc].
Qed.

(** A text over the limit is neither of the texts 0 and 1. *)
Lemma over_limit_not_bit (s : string) :
  within_int_limit (after_sign s) = false ->
  String.eqb s "0" = false /\ String.eqb s "1" = false.
Proof.
  intros Hs. split; apply String.eqb_neq; intros ->; by vm_compute in Hs.
Qed.

(** A text of digits is typed as the integer it denotes when it is within
    the limit of the interpreter, and stays a [str] when it is not. *)
Lemma parse_value_digits (d : string) :
  Py.nonempty d = true -> all_chars Py.isdigit d = true ->
  _parse_value d
  = if within_int_limit d then CInt (digits_value 0 d) else CStr d.
Proof.
  intros Hne Hd. unfold _parse_value. rewrite (strip_digits d Hd), Hne.
  cbn [negb]. unfold DQ. rewrite contains_char.
  rewrite (all_chars_mem Py.isdigit "034" d Hd eq_refl).
  assert (after_sign d = d) as Hsign.
  { destruct d as [|c d]; [done|]. simpl in Hd.
    apply andb_true_iff in Hd as [Hc _]. unfold after_sign.
    by rewrite (digit_not_sign c Hc). }
  unfold is_int_literal, is_float_literal, try_int, int_of_literal.
  rewrite Hsign, Hne, Hd. cbn [andb].
  destruct (within_int_limit d) eqn:Hlim.
  - f_equal. destruct d as [|c d]; [done|]. simpl in Hd.
    apply andb_true_iff in Hd as [Hc _]. by apply literal_value_digit.
  - rewrite (digits_no_float d Hd).
    destruct (over_limit_not_bit d) as [-> ->]; [by rewrite Hsign | done].
Qed.

Lemma parse_value_minus_digits (d : string) :
  Py.nonempty d = true -> all_chars Py.isdigit d = true ->
  _parse_value (String "-" d)
  = if within_int_limit d then CInt (- digits_value 0 d)
    else CStr (String "-" d).
Proof.
  intros Hne Hd. unfold _parse_value.
  rewrite (strip_minus_digits d Hne Hd). cbn [Py.nonempty negb]. unfold DQ.
  rewrite contains_char. cbn [Py.mem].
  rewrite (all_chars_mem Py.isdigit "034" d Hd eq_refl).
  unfold is_int_literal, is_float_literal, try_int, int_of_literal.
  change (after_sign (String "-" d)) with d. rewrite Hne, Hd.
  cbn [andb orb Ascii.eqb]. simpl (Ascii.eqb _ _).
  destruct (within_int_limit d) eqn:Hlim; [done|].
  rewrite (digits_no_float d Hd).
  by destruct (over_limit_not_bit (String "-" d)) as [-> ->].
Qed.

Ltac eval_digit :=
  match goal with
  | |- context [Z.of_N (N_of_ascii ?c)] =>
      let v := eval vm_compute in (Z.of_N (N_of_ascii c)) in
      change (Z.of_N (N_of_ascii c)) with v
  end.

Lemma digits_value_acc (u : Decimal.uint) (acc : positive) :
  digits_value (Z.pos acc) (NilEmpty.string_of_uint u)
  = Z.pos (Pos.of_uint_acc u acc).
Proof.
  revert acc.
  induction u as [|u IH|u IH|u IH|u IH|u IH|u IH|u IH|u IH|u IH|u IH];
    intros acc; cbn [NilEmpty.string_of_uint digits_value Pos.of_uint_acc];
    [done | rewrite <- IH; f_equal; eval_digit; lia ..].
Qed.

Lemma digits_value_uint (u : Decimal.uint) :
  digits_value 0 (NilEmpty.string_of_uint u) = Z.of_N (Pos.of_uint u).
Proof.
  induction u as [|u IH|u IH|u IH|u IH|u IH|u IH|u IH|u IH|u IH|u IH];
    cbn [NilEmpty.string_of_uint digits_value Pos.of_uint];
    [done | exact IH | cbn [Z.of_N]; rewrite <- digits_value_acc; f_equal ..].
Qed.

(** X5: the decimal text of an integer goes through [_parse_value] and
    back up to the limit of the interpreter: for every integer [z], the text
    [str] prints for it (a minus sign for a negative [z], then the digits)
    is typed as the integer [z] when it has at most 4300 digits; a text of
    more digits is not converted, [int] raises under its [try], and the
    text stays a [str]. *)
Theorem X5_parse_value_of_printed_int (z : Z) :
  _parse_value (str_of_int z)
  = if within_int_limit (str_of_int (Z.abs z)) then CInt z
    else CStr (str_of_int z).
Proof.
  destruct z as [|p|p]; [done| |]; destruct (str_of_pos p) as (Hp & Hn & Hne).
  - change (Z.abs (Z.pos p)) with (Z.pos p). rewrite Hp.
    rewrite parse_value_digits by auto using uint_digits.
    by rewrite digits_value_uint, DecimalPos.Unsigned.of_to.
  - change (Z.abs (Z.neg p)) with (Z.pos p). rewrite Hp, Hn.
    rewrite parse_value_minus_digits by auto using uint_digits.
    by rewrite digits_value_uint, DecimalPos.Unsigned.of_to.
Qed.

(** X6: a placeholder field given as a text of digits.  Within the limit
    of 4300 digits the text goes through [int] and back: the field reads as
    the canonical decimal of the number (a leading zero is lost), and a field
    that denotes 0 is falsy, so that the default of the field is used.  A
    text of more digits stays a [str] and is used as it stands. *)
Theorem X6_numeric_field_is_renumbered (host : Host)
    (cfg : gmap string ConfigValue) (key fallback d : string) :
  Py.nonempty d = true -> all_chars Py.isdigit d = true ->
  cfg !! key = Some (_parse_value d) ->
  str_or host cfg key fallback
  = if within_int_limit d then
      if digits_value 0 d =? 0 then fallback else str_of_int (digits_value 0 d)
    else d.
Proof.
  intros Hne Hd Hk. unfold str_or. rewrite Hk, parse_value_digits by done.
  destruct (within_int_limit d); simpl.
  - by destruct (digits_value 0 d =? 0).
  - by rewrite Hne.
Qed.

Lemma X6_numeric_field_is_renumbered_witness :
  str_or sample_host (parse_lines CfgLoader._strip_comment ["Run=01"]) "Run" "01"
  = "1"
  /\ str_or sample_host (parse_lines CfgLoader._strip_comment ["Session=0"])
       "Session" "S001" = "S001"
  /\ str_or sample_host
       {[ "Run" := _parse_value (String "1" (zeros (Z.to_nat 4300))) ]}
       "Run" "01"
     = String "1" (zeros (Z.to_nat 4300)).
Proof.
  split_and!.
  - apply (X6_numeric_field_is_renumbered sample_host
             (parse_lines CfgLoader._strip_comment ["Run=01"]) "Run" "01" "01");
      reflexivity.
  - apply (X6_numeric_field_is_renumbered sample_host
             (parse_lines CfgLoader._strip_comment ["Session=0"])
             "Session" "S001" "0"); reflexivity.
  - apply (X6_numeric_field_is_renumbered sample_host
             {[ "Run" := _parse_value (String "1" (zeros (Z.to_nat 4300))) ]}
             "Run" "01" (String "1" (zeros (Z.to_nat 4300))));
      [reflexivity | by vm_compute | apply lookup_singleton_eq].
Defined.

(** ** Blanks around a value *)

Lemma rstrip_all (p : ascii -> bool) (s b : string) :
  all_chars p b = true -> Py.rstrip_by p (s +:+ b) = Py.rstrip_by p s.
Proof.
  intros Hb. induction s as [|x s IH]; cbn [String.append Py.rstrip_by].
  - by apply rstrip_empty_iff.
  - by rewrite IH.
Qed.

Lemma strip_blanks_around (a s b : string) :
  all_chars Py.isspace a = true -> all_chars Py.isspace b = true ->
  Py.strip (a +:+ s +:+ b) = Py.strip s.
Proof.
  intros Ha Hb. unfold Py.strip. rewrite (lstrip_all _ a _ Ha).
  destruct (all_chars Py.isspace s) eqn:Hs.
  - rewrite (lstrip_all _ s _ Hs).
    transitivity EmptyString; [|symmetry];
      apply rstrip_empty_iff; by rewrite lstrip_all_chars.
  - rewrite (lstrip_some _ s _ Hs). by apply rstrip_all.
Qed.

(** X7: blanks before and after the text of a value do not change how the
    value is typed, so [key = 1] and [key=1] give the same entry. *)
Theorem X7_parse_value_ignores_blanks_around (a s b : string) :
  all_chars Py.isspace a = true -> all_chars Py.isspace b = true ->
  _parse_value (a +:+ s +:+ b) = _parse_value s.
Proof.
  intros Ha Hb. unfold _parse_value. by rewrite (strip_blanks_around a s b Ha Hb).
Qed.

Lemma X7_parse_value_ignores_blanks_around_witness :
  _parse_value (" " +:+ "22345" +:+ "  ") = _parse_value "22345".
Proof.
  apply (X7_parse_value_ignores_blanks_around " " "22345" "  "); reflexivity.
Defined.

(** ** Templates and the placeholders *)

Lemma replace_absent (o : ascii) (old' new s : string) :
  Py.mem o s = false -> Py.replace (String o old') new s = s.
Proof.
  unfold Py.replace. induction s as [|c s IH]; [done|].
  cbn [Py.mem Py.replace_from String.prefix].
  intros [Hc Hs]%orb_false_iff.
  destruct (ascii_dec o c) as [->|_]; [by rewrite Ascii.eqb_refl in Hc|].
  by rewrite (IH Hs).
Qed.

Lemma replace_noocc (o : ascii) (old' new s : string) :
  Py.contains (String o old') s = false -> Py.replace (String o old') new s = s.
Proof.
  intros Hs.
  destruct (replace_cases o old' new s) as [[_ ?]|(a & b & _ & Hf & _)]; [done|].
  unfold Py.contains in Hs. rewrite Hf in Hs.
  by destruct (Z.leb_spec 0 (Z.of_nat (String.length a))); [|lia].
Qed.

Lemma prefix_refl (s : string) : String.prefix s s = true.
Proof.
  induction s as [|c s IH]; [done|]. cbn [String.prefix].
  by destruct (ascii_dec c c).
Qed.

Lemma replace_self (o : ascii) (old' new : string) :
  Py.replace (String o old') new (String o old') = new.
Proof.
  unfold Py.replace. cbn [Py.replace_from]. rewrite prefix_refl.
  cbn [String.length]. rewrite Nat.sub_1_r. cbn [Nat.pred].
  pose proof (replace_from_skip (String o old') new old' EmptyString) as H.
  rewrite str_app_empty_r in H. rewrite H. cbn [Py.replace_from].
  apply str_app_empty_r.
Qed.

Lemma expand_cons (template k v : string) (ps : list (string * string)) :
  expand_template template ((k, v) :: ps)
  = expand_template (Py.replace (String "%" k) v template) ps.
Proof. done. Qed.

Lemma expand_no_percent (template : string) (ps : list (string * string)) :
  Py.mem "%" template = false -> expand_template template ps = template.
Proof.
  intros Ht. induction ps as [|[k v] ps IH]; [done|].
  by rewrite expand_cons, replace_absent.
Qed.

(** X8: a template without a percent sign is its own expansion, whatever
    the placeholders are. *)
Theorem X8_expand_template_without_percent (template : string)
    (ps : list (string * string)) :
  Py.mem "%" template = false -> expand_template template ps = template.
Proof. apply expand_no_percent. Qed.

Lemma X8_expand_template_without_percent_witness :
  expand_template "/data/run.xdf" (placeholders_of sample_host ∅)
  = "/data/run.xdf".
Proof.
  apply (X8_expand_template_without_percent "/data/run.xdf"
           (placeholders_of sample_host ∅)).
  reflexivity.
Defined.

(** X9: the order of the placeholder dict shadows no placeholder: a
    template that is one placeholder of the ten expands to the value of that
    placeholder, when that value holds no percent sign; so [%datetime] gives
    the datetime token and not the date token followed by [time]. *)
Theorem X9_each_placeholder_expands_to_its_value (host : Host)
    (cfg : gmap string ConfigValue) (k v : string) :
  In (k, v) (placeholders_of host cfg) -> Py.mem "%" v = false ->
  expand_template (String "%" k) (placeholders_of host cfg) = v.
Proof.
  intros Hin Hv. unfold placeholders_of in *. cbn [In] in Hin.
  repeat (destruct Hin as [[= <- <-]|Hin];
          [repeat (rewrite expand_cons, replace_noocc by reflexivity);
           rewrite expand_cons, replace_self; by apply expand_no_percent|]).
  done.
Qed.

Lemma X9_each_placeholder_expands_to_its_value_witness :
  expand_template (String "%" "date") (placeholders_of sample_host ∅)
  = "2024-01-02".
Proof.
  apply (X9_each_placeholder_expands_to_its_value sample_host ∅
           "date" "2024-01-02").
  - right. left. reflexivity.
  - reflexivity.
Defined.

(** ** The extension and the sanitizer *)

Lemma map_chars_app (f : ascii -> ascii) (a b : string) :
  Py.map_chars f (a +:+ b) = Py.map_chars f a +:+ Py.map_chars f b.
Proof. induction a as [|x a IH]; simpl; [done | by rewrite IH]. Qed.

Lemma ensure_xdf_ends (dest : string) :
  Py.endswith ".xdf" (Py.lower (ensure_xdf dest)) = true.
Proof.
  unfold ensure_xdf. destruct (Py.endswith ".xdf" (Py.lower dest)) eqn:H; [done|].
  cbn [negb]. unfold Py.lower. rewrite map_chars_app. apply endswith_app.
Qed.

(** X10: after the extension check the path ends in [.xdf], in any mix of
    cases; the check only ever appends, and a second check changes
    nothing. *)
Theorem X10_ensure_xdf_extension (dest : string) :
  Py.endswith ".xdf" (Py.lower (ensure_xdf dest)) = true
  /\ (ensure_xdf dest = dest \/ ensure_xdf dest = dest +:+ ".xdf")
  /\ ensure_xdf (ensure_xdf dest) = ensure_xdf dest.
Proof.
  split_and!.
  - apply ensure_xdf_ends.
  - unfold ensure_xdf. destruct (negb _); auto.
  - unfold ensure_xdf at 1. by rewrite ensure_xdf_ends.
Qed.

Lemma sanitize_map_plain (name : string) :
  all_chars plain
    (Py.map_chars (fun c => if windows_invalid c then "-"%char else c) name) = true.
Proof.
  induction name as [|x name IH]; [done|]. cbn [Py.map_chars all_chars].
  rewrite IH, andb_true_r. unfold plain.
  by destruct (windows_invalid x) eqn:Hx; [|rewrite Hx].
Qed.

Lemma all_chars_rstrip (q p : ascii -> bool) (s : string) :
  all_chars q s = true -> all_chars q (Py.rstrip_by p s) = true.
Proof.
  destruct (rstrip_spec p s) as (b & Hs & _). rewrite Hs at 1.
  rewrite all_chars_app. by intros [? _]%andb_true_iff.
Qed.

Lemma map_plain_fixed (s : string) :
  all_chars plain s = true ->
  Py.map_chars (fun c => if windows_invalid c then "-"%char else c) s = s.
Proof.
  induction s as [|x s IH]; [done|]. cbn [Py.map_chars all_chars]. unfold plain at 1.
  intros [Hx Hs]%andb_true_iff. apply negb_true_iff in Hx. by rewrite Hx, (IH Hs).
Qed.

Lemma sanitized_plain (name : string) :
  all_chars plain (_sanitize_basename name) = true.
Proof. apply all_chars_rstrip, sanitize_map_plain. Qed.

Lemma sanitized_last (name : string) (c : ascii) :
  last_char (_sanitize_basename name) = Some c -> Py.mem c " ." = false.
Proof.
  unfold _sanitize_basename, Py.rstrip_chars.
  destruct (rstrip_spec (fun c => Py.mem c " .")
              (Py.map_chars (fun c => if windows_invalid c then "-"%char else c) name))
    as (b & _ & _ & Hl).
  apply Hl.
Qed.

(** X11: a sanitized name holds none of the nine characters the sanitizer
    replaces and does not end in a space or a dot; sanitizing it again
    changes nothing. *)
Theorem X11_sanitize_basename_clean_and_idempotent (name : string) :
  (forall c, windows_invalid c = true -> Py.mem c (_sanitize_basename name) = false)
  /\ (forall c, last_char (_sanitize_basename name) = Some c -> Py.mem c " ." = false)
  /\ _sanitize_basename (_sanitize_basename name) = _sanitize_basename name.
Proof.
  split_and!.
  - intros c Hc. apply (all_chars_mem plain); [apply sanitized_plain|].
    unfold plain. by rewrite Hc.
  - apply sanitized_last.
  - unfold _sanitize_basename at 1.
    rewrite (map_plain_fixed _ (sanitized_plain name)).
    apply rstrip_fixed, sanitized_last.
Qed.

Lemma endswith_map_split (f : ascii -> ascii) (p s : string) :
  Py.endswith p (Py.map_chars f s) = true ->
  exists a e, s = a +:+ e /\ Py.map_chars f e = p.
Proof.
  induction s as [|x s IH]; cbn [Py.map_chars Py.endswith].
  - destruct (String.eqb_spec p EmptyString) as [->|]; [|done].
    by exists EmptyString, EmptyString.
  - destruct (String.eqb_spec p (String (f x) (Py.map_chars f s))) as [->|_].
    + intros _. by exists EmptyString, (String x s).
    + intros (a & e & -> & He)%IH. by exists (String x a), e.
Qed.

Lemma lower_char_class (c : ascii) :
  windows_invalid (Py.lower_char c) = windows_invalid c
  /\ Py.mem (Py.lower_char c) " ." = Py.mem c " .".
Proof. ascii_cases c. Qed.

Lemma all_plain_lower (s : string) :
  all_chars plain (Py.lower s) = all_chars plain s.
Proof.
  induction s as [|x s IH]; [done|]. cbn [Py.lower Py.map_chars all_chars].
  unfold Py.lower in IH. rewrite IH. unfold plain at 1 3.
  by rewrite (proj1 (lower_char_class x)).
Qed.

Lemma last_char_map (f : ascii -> ascii) (s : string) :
  last_char (Py.map_chars f s) = f <$> last_char s.
Proof.
  induction s as [|x s IH]; [done|]. cbn [Py.map_chars].
  destruct s as [|y s]; [done|]. exact IH.
Qed.

Lemma last_char_app (a e : string) :
  e <> EmptyString -> last_char (a +:+ e) = last_char e.
Proof.
  intros He. induction a as [|x a IH]; [done|]. cbn [String.append].
  rewrite last_char_cons; [done|]. destruct a; [done|]. done.
Qed.

(** A text that reads [.xdf] in lower case holds plain characters only and
    does not end in a space or a dot. *)
Lemma xdf_suffix_plain (e : string) :
  Py.lower e = ".xdf" ->
  e <> EmptyString /\ all_chars plain e = true
  /\ forall c, last_char e = Some c -> Py.mem c " ." = false.
Proof.
  intros He. split_and!.
  - by intros ->.
  - by rewrite <- all_plain_lower, He.
  - intros c Hc. pose proof (last_char_map Py.lower_char e) as Hl.
    fold (Py.lower e) in Hl. rewrite He, Hc in Hl. injection Hl as Hl.
    by rewrite <- (proj2 (lower_char_class c)), <- Hl.
Qed.

Lemma sanitize_suffix (b e : string) :
  e <> EmptyString -> all_chars plain e = true ->
  (forall c, last_char e = Some c -> Py.mem c " ." = false) ->
  exists m, _sanitize_basename (b +:+ e) = m +:+ e.
Proof.
  intros He Hp Hl.
  exists (Py.map_chars (fun c => if windows_invalid c then "-"%char else c) b).
  unfold _sanitize_basename, Py.rstrip_chars.
  rewrite map_chars_app, (map_plain_fixed e Hp).
  apply rstrip_fixed. intros c. rewrite last_char_app by done. apply Hl.
Qed.

Lemma join_suffix (a b : string) : exists q, PosixPath.join a b = q +:+ b.
Proof.
  unfold PosixPath.join. destruct (Py.startswith "/" b); [by exists EmptyString|].
  destruct (_ || _); [by exists a|]. exists (a +:+ "/").
  by rewrite str_app_assoc.
Qed.

Lemma sanitize_path_suffix (a e : string) :
  e <> EmptyString -> all_chars plain e = true ->
  (forall c, last_char e = Some c -> Py.mem c " ." = false) ->
  exists q, sanitize_path (a +:+ e) = q +:+ e.
Proof.
  intros He Hp Hl.
  assert (Py.mem "/" e = false) as Hslash by by apply (all_chars_mem plain).
  assert (exists d b, PosixPath.split (a +:+ e) = (d, b +:+ e)) as (d & b & Hsplit).
  { destruct (last_slash a) as [Ha|(a1 & b1 & -> & Hb1)].
    - exists EmptyString, a. apply split_none. by rewrite mem_app, Ha, Hslash.
    - exists (head_of (a1 +:+ "/")), b1. rewrite str_app_assoc.
      cbn [String.append]. apply split_app. by rewrite mem_app, Hb1, Hslash. }
  unfold sanitize_path. rewrite Hsplit.
  destruct (sanitize_suffix b e He Hp Hl) as [m ->].
  destruct (join_suffix d (m +:+ e)) as [q ->].
  exists (q +:+ m). by rewrite str_app_assoc.
Qed.

Lemma sanitize_path_keeps_xdf (dest : string) :
  Py.endswith ".xdf" (Py.lower (sanitize_path (ensure_xdf dest))) = true.
Proof.
  destruct (endswith_map_split _ _ _ (ensure_xdf_ends dest)) as (a & e & -> & He).
  destruct (xdf_suffix_plain e He) as (Hne & Hp & Hl).
  destruct (sanitize_path_suffix a e Hne Hp Hl) as [q ->].
  unfold Py.lower in *. rewrite map_chars_app, He. apply endswith_app.
Qed.

(** X12: the sanitizer does not undo the extension check: the path that
    leaves the split, the sanitizer and the join still ends in [.xdf], in
    any mix of cases; so does the file name [build_filename_from_cfg]
    returns, on a host where the expansion of the user directory and of the
    environment variables has nothing to expand in it. *)
Theorem X12_built_filename_ends_in_xdf (host : Host) :
  (forall dest,
     Py.endswith ".xdf" (Py.lower (sanitize_path (ensure_xdf dest))) = true)
  /\ ((forall p, expanduser host p = p) -> (forall p, expandvars host p = p) ->
      forall cfg,
        Py.endswith ".xdf" (Py.lower (build_filename_from_cfg host cfg)) = true).
Proof.
  split; [apply sanitize_path_keeps_xdf|].
  intros Hu Hv cfg. unfold build_filename_from_cfg, finish_dest.
  rewrite Hu, Hv. apply sanitize_path_keeps_xdf.
Qed.

(** ** The store: nothing is removed *)

Lemma extends_refl (h : heap) : extends h h.
Proof. by split. Qed.

Lemma extends_trans (h1 h2 h3 : heap) :
  extends h1 h2 -> extends h2 h3 -> extends h1 h3.
Proof. intros [Hl1 H1] [Hl2 H2]. split; [lia | auto]. Qed.

Lemma key_at_is_Some_lt (h : heap) (l : nat) (k : string) :
  is_Some (key_at h l k) -> (l < length h)%nat.
Proof.
  unfold key_at. intros [v Hv]. apply lookup_lt_is_Some.
  destruct (h !! l); [eauto | done].
Qed.

Lemma extends_alloc (h : heap) (d : gmap string value) :
  extends h (h ++ [d])%list.
Proof.
  split; [rewrite length_app; lia|]. intros l k Hs.
  pose proof (key_at_is_Some_lt _ _ _ Hs) as Hl.
  unfold key_at in *. by rewrite lookup_app_l.
Qed.

Lemma extends_insert (h : heap) (l : nat) (d : gmap string value)
    (k : string) (x : value) :
  h !! l = Some d -> extends h (<[l := <[k := x]> d]> h).
Proof.
  intros Hl. split; [by rewrite length_insert|]. intros l' k'.
  destruct (decide (k = k')) as [<-|Hk]; [|by rewrite key_at_insert].
  destruct (decide (l = l')) as [<-|Hne].
  - by rewrite (key_at_insert_eq h l d k x Hl).
  - unfold key_at. by rewrite list_lookup_insert_ne.
Qed.

Lemma grows_ret {A} (a : A) : grows (ret a).
Proof. intros h h' r [= <- _]. apply extends_refl. Qed.

Lemma grows_raise {A} (e : exn) : grows (@raise A e).
Proof. intros h h' r [= <- _]. apply extends_refl. Qed.

Lemma grows_lift {A} (r : outcome A) : grows (lift r).
Proof. intros h h' r' [= <- _]. apply extends_refl. Qed.

Lemma grows_bind {A B} (m : M A) (f : A -> M B) :
  grows m -> (forall a, grows (f a)) -> grows (bind m f).
Proof.
  intros Hm Hf h h' r. unfold bind.
  destruct (m h) as [h1 [a|e|]] eqn:E; intros Heq.
  - eapply extends_trans; [by eapply Hm | by eapply Hf].
  - injection Heq as <- _. by eapply Hm.
  - injection Heq as <- _. by eapply Hm.
Qed.

Lemma grows_try_pass (m : M unit) : grows m -> grows (try_pass m).
Proof.
  intros Hm h h' r. unfold try_pass.
  destruct (m h) as [h1 [a|e|]] eqn:E; intros [= <- _]; by eapply Hm.
Qed.

Lemma grows_alloc (d : gmap string value) : grows (alloc d).
Proof. intros h h' r [= <- _]. apply extends_alloc. Qed.

Lemma grows_py_in (k : string) (v : value) : grows (py_in k v).
Proof.
  intros h h' r. unfold py_in.
  destruct v as [| | | | | |l0]; try (intros [= <- _]; apply extends_refl).
  destruct (h !! l0); intros [= <- _]; apply extends_refl.
Qed.

Lemma grows_getitem (v : value) (k : string) : grows (getitem v k).
Proof.
  intros h h' r. unfold getitem.
  destruct v as [| | | | | |l0]; try (intros [= <- _]; apply extends_refl).
  destruct (h !! l0) as [d|]; [|intros [= <- _]; apply extends_refl].
  destruct (d !! k); intros [= <- _]; apply extends_refl.
Qed.

Lemma grows_dict_get (l0 : nat) (k : string) (x : value) :
  grows (dict_get l0 k x).
Proof.
  intros h h' r. unfold dict_get.
  destruct (h !! l0); intros [= <- _]; apply extends_refl.
Qed.

Lemma grows_setitem (v : value) (k : string) (x : value) :
  grows (setitem v k x).
Proof.
  intros h h' r. unfold setitem.
  destruct v as [| | | | | |l0]; try (intros [= <- _]; apply extends_refl).
  destruct (h !! l0) as [d|] eqn:Hd; intros [= <- _];
    [by apply extends_insert | apply extends_refl].
Qed.

Lemma grows_set_walk (keys : list string) (v : value) :
  grows (Config.set_walk keys v).
Proof.
  revert v. induction keys as [|k keys IH]; intros v; cbn [Config.set_walk].
  - apply grows_ret.
  - apply grows_bind; [apply grows_py_in|]. intros present.
    apply grows_bind.
    + destruct present; cbn [negb]; [apply grows_ret|].
      apply grows_bind; [apply grows_alloc|].
      intros fresh. apply grows_setitem.
    + intros _. apply grows_bind; [apply grows_getitem | apply IH].
Qed.

Lemma grows_set (self : nat) (key : string) (x : value) :
  grows (Config.set self key x).
Proof.
  unfold Config.set. apply grows_bind; [apply grows_set_walk|].
  intros config. apply grows_setitem.
Qed.

Lemma grows_store_tree (t : tree) : grows (Config.store_tree t).
Proof.
  induction t as [| | | | | |items IH] using tree_ind'; try apply grows_ret.
  cbn [Config.store_tree]. apply grows_bind;
    [|intros d; apply grows_bind; [apply grows_alloc | intros; apply grows_ret]].
  generalize (∅ : gmap string value).
  induction IH as [|[k t'] rest Ht' _ IHrest]; intros d.
  - apply grows_ret.
  - apply grows_bind; [exact Ht' | intros v; apply IHrest].
Qed.

Lemma grows_nested_dict (base : nat) (key : string) (x : tree) :
  grows (Config.nested_dict base key x).
Proof.
  unfold Config.nested_dict. apply grows_bind; [apply grows_py_in|].
  intros present. destruct present; [|apply grows_ret].
  apply grows_bind; [apply grows_getitem | intros; apply grows_ret].
Qed.

Lemma grows_deep_update (t : tree) :
  forall base, grows (Config._deep_update base t).
Proof.
  induction t as [| | | | | |items IH] using tree_ind'; intros base;
    try apply grows_raise.
  cbn [Config._deep_update].
  induction IH as [|[key x] rest Hx _ IHrest]; [apply grows_ret|].
  apply grows_bind; [apply grows_nested_dict|]. intros nested.
  apply grows_bind; [|intros _; apply IHrest].
  destruct nested as [sub|]; [apply Hx|].
  apply grows_bind; [apply grows_store_tree | intros; apply grows_setitem].
Qed.

Lemma grows_cfg_filename (host : Host) (self : nat)
    (cfg : gmap string ConfigValue) :
  grows (Config.cfg_filename host self cfg).
Proof.
  unfold Config.cfg_filename. apply grows_bind.
  - destruct (Py.nonempty (path_field host cfg "StorageLocation"));
      [apply grows_ret|].
    destruct (Py.nonempty (path_field host cfg "StudyRoot"));
      destruct (Py.nonempty (path_field host cfg "PathTemplate")); cbn [andb];
      first [apply grows_ret | apply grows_dict_get].
  - intros dest. apply grows_bind.
    + destruct dest; first [apply grows_ret | apply grows_raise].
    + intros s. apply grows_set.
Qed.

Lemma grows_try_set (host : Host) (self : nat) (key : string)
    (raw : ConfigValue) (f : Z -> value) :
  grows (try_pass (i <- lift (int_of host raw) ;; Config.set self key (f i))).
Proof.
  apply grows_try_pass, grows_bind; [apply grows_lift|].
  intros i. apply grows_set.
Qed.

Lemma grows_cfg_remote_control (host : Host) (self : nat)
    (cfg : gmap string ConfigValue) :
  grows (Config.cfg_remote_control host self cfg).
Proof.
  unfold Config.cfg_remote_control. apply grows_bind; [|intros _];
    (destruct (cfg !! _); [apply grows_try_set | apply grows_ret]).
Qed.

Lemma grows_cfg_auto_start (host : Host) (self : nat)
    (cfg : gmap string ConfigValue) :
  grows (Config.cfg_auto_start host self cfg).
Proof.
  unfold Config.cfg_auto_start.
  destruct (cfg !! _); [apply grows_try_set | apply grows_ret].
Qed.

Lemma grows_cfg_required_streams (host : Host) (self : nat)
    (cfg : gmap string ConfigValue) :
  grows (Config.cfg_required_streams host self cfg).
Proof.
  unfold Config.cfg_required_streams.
  destruct (cfg !! _); [|apply grows_ret].
  apply grows_bind; [apply grows_py_in|]. intros present.
  apply grows_bind.
  - destruct present; [apply grows_getitem|].
    apply grows_bind; [apply grows_alloc | intros; apply grows_ret].
  - intros streams_cfg. apply grows_bind; intros; apply grows_setitem.
Qed.

Lemma grows_load_from_cfg (host : Host) (files : Files) (self : nat)
    (path : string) :
  grows (Config._load_from_cfg host files self path).
Proof.
  unfold Config._load_from_cfg.
  apply grows_bind; [apply grows_lift|]. intros lines.
  apply grows_bind; [apply grows_cfg_filename|]. intros _.
  apply grows_bind; [apply grows_cfg_remote_control|]. intros _.
  apply grows_bind; [apply grows_cfg_auto_start|]. intros _.
  apply grows_cfg_required_streams.
Qed.

Lemma grows_load_from_file (host : Host) (files : Files) (self : nat)
    (filename : string) :
  grows (Config.load_from_file host files self filename).
Proof.
  intros h h' r. unfold Config.load_from_file.
  match goal with |- context [?body h] => assert (grows body) as Hbody end.
  { destruct (Py.endswith ".cfg" (Py.lower filename)).
    - apply grows_load_from_cfg.
    - apply grows_bind; [apply grows_lift|]. intros t. apply grows_deep_update. }
  match goal with |- context [?body h] =>
    destruct (body h) as [h1 [[]|e|]] eqn:E
  end; intros [= <- _]; by eapply Hbody.
Qed.

Lemma grows_init (host : Host) (files : Files) (config_file : option string) :
  grows (Config.__init__ host files config_file).
Proof.
  unfold Config.__init__. apply grows_bind.
  - intros h h' r. destruct (h !! Config.DEFAULT_CONFIG);
      intros [= <- _]; apply extends_refl.
  - intros defaults. apply grows_bind; [apply grows_alloc|]. intros self.
    destruct config_file as [path|]; [|apply grows_ret].
    destruct (Py.nonempty path && exists_path files path); [|apply grows_ret].
    apply grows_bind; [apply grows_load_from_file | intros; apply grows_ret].
Qed.

(** X13: the class removes nothing: an entry that a dict object of the
    store holds before [set], [load_from_file] or [__init__] is held after
    it, with the same or with a new value, whatever the call returns or
    raises; and no dict object goes away. *)
Theorem X13_store_never_loses_an_entry (host : Host) (files : Files)
    (self : nat) (key : string) (x : value) (filename : string)
    (config_file : option string) (h : heap) (l : nat) (k : string) :
  is_Some (key_at h l k) ->
  is_Some (key_at (Config.set self key x h).1 l k)
  /\ is_Some (key_at (Config.load_from_file host files self filename h).1 l k)
  /\ is_Some (key_at (Config.__init__ host files config_file h).1 l k)
  /\ (length h <= length (Config.set self key x h).1)%nat
  /\ (length h <= length (Config.load_from_file host files self filename h).1)%nat
  /\ (length h <= length (Config.__init__ host files config_file h).1)%nat.
Proof.
  intros Hk.
  destruct (Config.set self key x h) as [h1 r1] eqn:E1.
  destruct (Config.load_from_file host files self filename h) as [h2 r2] eqn:E2.
  destruct (Config.__init__ host files config_file h) as [h3 r3] eqn:E3.
  apply grows_set in E1 as [? ?]. apply grows_load_from_file in E2 as [? ?].
  apply grows_init in E3 as [? ?]. simpl. split_and!; auto.
Qed.

Lemma X13_store_never_loses_an_entry_witness :
  is_Some (key_at (Config.set 0 "remote_control" (VInt 1) Config.initial_heap).1
             1 "port")
  /\ is_Some (key_at (Config.load_from_file sample_host sample_files 0 "lab.cfg"
                        Config.initial_heap).1 1 "port")
  /\ is_Some (key_at (Config.__init__ sample_host sample_files None
                        Config.initial_heap).1 1 "port")
  /\ (length Config.initial_heap
      <= length (Config.set 0 "remote_control" (VInt 1) Config.initial_heap).1)%nat
  /\ (length Config.initial_heap
      <= length (Config.load_from_file sample_host sample_files 0 "lab.cfg"
                   Config.initial_heap).1)%nat
  /\ (length Config.initial_heap
      <= length (Config.__init__ sample_host sample_files None
                   Config.initial_heap).1)%nat.
Proof.
  apply (X13_store_never_loses_an_entry sample_host sample_files 0
           "remote_control" (VInt 1) "lab.cfg" None Config.initial_heap 1 "port").
  vm_compute. eauto.
Defined.

(** ** The store: what a JSON overlay leaves alone *)

Lemma keeps_with_ret (kk : string) {A} (a : A) (Q : A -> Prop) :
  Q a -> keeps_with kk (ret a) Q.
Proof. intros HQ h h' r l [= <- <-]. done. Qed.

Lemma keeps_with_bind (kk : string) {A B} (m : M A) (f : A -> M B)
    (Q : A -> Prop) (R : B -> Prop) :
  keeps_with kk m Q -> (forall a, Q a -> keeps_with kk (f a) R) ->
  keeps_with kk (bind m f) R.
Proof.
  intros Hm Hf h h' r l. unfold bind.
  destruct (m h) as [h1 [a|e|]] eqn:E; intros Heq.
  - destruct (Hm _ _ _ l E) as [Hk Ha].
    destruct (Hf a Ha _ _ _ l Heq) as [Hk' Hr]. split; [congruence | done].
  - injection Heq as <- <-. by destruct (Hm _ _ _ l E).
  - injection Heq as <- <-. by destruct (Hm _ _ _ l E).
Qed.

Lemma keeps_with_of_keeps (kk : string) {A} (m : M A) :
  keeps kk m -> keeps_with kk m (fun _ => True).
Proof. intros Hm h h' r l E. split; [by eapply Hm | by destruct r]. Qed.

Lemma keeps_of_keeps_with (kk : string) {A} (m : M A) (Q : A -> Prop) :
  keeps_with kk m Q -> keeps kk m.
Proof. intros Hm h h' r l E. by destruct (Hm _ _ _ l E). Qed.

Lemma key_at_alloc (h : heap) (d : gmap string value) (l : nat) (kk : string) :
  d !! kk = None -> key_at (h ++ [d])%list l kk = key_at h l kk.
Proof.
  intros Hd. unfold key_at. destruct (decide (l < length h)%nat) as [Hlt|Hge].
  - by rewrite lookup_app_l.
  - rewrite (lookup_ge_None_2 h l) by lia.
    destruct (decide (l = length h)) as [->|Hne].
    + by rewrite list_lookup_middle.
    + rewrite lookup_ge_None_2; [done|]. rewrite length_app. simpl. lia.
Qed.

Lemma keeps_store_tree (kk : string) (t : tree) :
  kk ∉ tree_keys t -> keeps kk (Config.store_tree t).
Proof.
  induction t as [| | | | | |items IH] using tree_ind'; intros Hnot;
    try apply keeps_ret.
  cbn [Config.store_tree tree_keys] in *.
  apply (keeps_of_keeps_with kk _ (fun _ => True)).
  apply (keeps_with_bind kk _ _ (fun d => d !! kk = None)).
  - assert ((∅ : gmap string value) !! kk = None) as Hd by done.
    revert Hd Hnot. generalize (∅ : gmap string value).
    induction IH as [|[k t'] rest Ht' _ IHrest]; intros d Hd Hnot.
    + by apply keeps_with_ret.
    + apply not_elem_of_cons in Hnot as [Hk Hnot].
      apply not_elem_of_app in Hnot as [Hnot' Hrest].
      apply (keeps_with_bind kk _ _ (fun _ => True)).
      * by apply keeps_with_of_keeps, Ht'.
      * intros v _. apply IHrest; [|done]. by rewrite lookup_insert_ne.
  - intros d Hd h h' r l. unfold bind, alloc, ret. intros [= <- <-].
    split; [by apply key_at_alloc | done].
Qed.

Lemma keeps_nested_dict (kk : string) (base : nat) (key : string) (x : tree) :
  keeps kk (Config.nested_dict base key x).
Proof.
  unfold Config.nested_dict. apply keeps_bind; [apply keeps_py_in|].
  intros present. destruct present; [|apply keeps_ret].
  apply keeps_bind; [apply keeps_getitem | intros; apply keeps_ret].
Qed.

Lemma keeps_deep_update (kk : string) (t : tree) :
  kk ∉ tree_keys t -> forall base, keeps kk (Config._deep_update base t).
Proof.
  induction t as [| | | | | |items IH] using tree_ind'; intros Hnot base;
    try apply keeps_raise.
  cbn [Config._deep_update tree_keys] in *. revert Hnot.
  induction IH as [|[key x] rest Hx _ IHrest]; intros Hnot; [apply keeps_ret|].
  apply not_elem_of_cons in Hnot as [Hk Hnot].
  apply not_elem_of_app in Hnot as [Hnot' Hrest].
  apply keeps_bind; [apply keeps_nested_dict|]. intros nested.
  apply keeps_bind; [|intros _; by apply IHrest].
  destruct nested as [sub|]; [by apply Hx|].
  apply keeps_bind; [by apply keeps_store_tree|].
  intros v. by apply keeps_setitem.
Qed.

(** X14: loading a JSON file leaves every key the document does not
    mention as it is, in every dict object of the store: a key that is no
    key of the document, at any depth, has the value it had, and is absent
    where it was absent. *)
Theorem X14_json_load_keeps_unmentioned_keys (host : Host) (files : Files)
    (self : nat) (filename : string) (t : tree) (kk : string) (h : heap) :
  Py.endswith ".cfg" (Py.lower filename) = false ->
  load_json files filename = Returns t ->
  kk ∉ tree_keys t ->
  forall l, key_at (Config.load_from_file host files self filename h).1 l kk
            = key_at h l kk.
Proof.
  intros Hext Hload Hnot l. unfold Config.load_from_file.
  rewrite Hext, Hload. unfold bind at 1, lift.
  destruct (Config._deep_update self t h) as [h1 [[]|e|]] eqn:E; simpl;
    by eapply keeps_deep_update.
Qed.

Lemma X14_json_load_keeps_unmentioned_keys_witness :
  key_at (Config.load_from_file sample_host
            {| exists_path := fun _ => true;
               read_cfg_lines := fun _ => Raises OSError;
               load_json := fun _ =>
                 Returns (TDict [("remote_control", TDict [("enabled", TBool false)])]) |}
            0 "lab.json" Config.initial_heap).1 1 "port"
  = key_at Config.initial_heap 1 "port".
Proof.
  refine (X14_json_load_keeps_unmentioned_keys sample_host _ 0 "lab.json"
            (TDict [("remote_control", TDict [("enabled", TBool false)])])
            "port" Config.initial_heap _ _ _ 1%nat).
  - reflexivity.
  - reflexivity.
  - apply (bool_decide_unpack _). vm_compute. exact I.
Defined.

(** ** The store: one nested key, by [set] and by a JSON overlay *)

Lemma resolves_to_dict (h : heap) (v : value) (keys : list string) (l : nat) :
  resolves h v keys (VDict l) -> exists l1, v = VDict l1.
Proof. inversion 1; subst; eauto. Qed.

Lemma key_at_Some (h : heap) (l : nat) (k : string) (v : value) :
  key_at h l k = Some v <-> exists d, h !! l = Some d /\ d !! k = Some v.
Proof.
  unfold key_at. destruct (h !! l) as [d|]; simpl.
  - split; [eauto | by intros (? & [= <-] & ?)].
  - split; [done | by intros (? & ? & ?)].
Qed.

Lemma get_walk_resolves (h : heap) (v : value) (keys : list string) (w : value) :
  resolves h v keys w -> Config.get_walk keys v h = (h, Ok w).
Proof.
  induction 1 as [v|l d k v keys w Hl Hk _ IH]; [done|].
  cbn [Config.get_walk]. unfold bind, getitem. by rewrite Hl, Hk.
Qed.

Lemma get_resolves (h : heap) (self : nat) (key : string) (w fallback : value) :
  resolves h (VDict self) (Py.split "." key) w ->
  Config.get self key fallback h = (h, Ok w).
Proof. intros Hr. unfold Config.get. by rewrite (get_walk_resolves _ _ _ _ Hr). Qed.

Lemma resolves_two (h : heap) (self l : nat) (k1 k2 : string) (w : value) :
  key_at h self k1 = Some (VDict l) -> key_at h l k2 = Some w ->
  resolves h (VDict self) [k1; k2] w.
Proof.
  intros (d & Hd & Hk1)%key_at_Some (d2 & Hd2 & Hk2)%key_at_Some.
  econstructor; [done..|]. econstructor; [done..|]. constructor.
Qed.

Lemma set_from_last (l : nat) (k : string) (x : value) (d : gmap string value)
    (h : heap) :
  h !! l = Some d ->
  set_from [k] (VDict l) x h = (<[l := <[k := x]> d]> h, Ok tt).
Proof.
  intros Hl. unfold set_from. cbn [removelast List.last Config.set_walk].
  unfold bind, ret, setitem. by rewrite Hl.
Qed.

Lemma set_from_resolved (pre : list string) (k : string) (x : value) :
  forall (v : value) (l : nat) (d : gmap string value) (h : heap),
    resolves h v pre (VDict l) -> h !! l = Some d ->
    set_from (pre ++ [k]) v x h = (<[l := <[k := x]> d]> h, Ok tt).
Proof.
  induction pre as [|k1 pre IH]; intros v l d h Hr Hl.
  - inversion Hr; subst. by apply set_from_last.
  - inversion Hr as [|l0 d0 k0 v0 keys0 w0 Hl0 Hk0 Hr0]; subst.
    assert (exists k2 ks, (pre ++ [k])%list = k2 :: ks) as (k2 & ks & Hks)
      by (destruct pre; simpl; eauto).
    cbn [app]. rewrite Hks, set_from_step, <- Hks.
    unfold bind at 1, py_in. rewrite Hl0.
    rewrite bool_decide_eq_true_2 by eauto. cbn [negb].
    unfold bind at 1, ret. unfold bind at 1, getitem. rewrite Hl0, Hk0.
    by apply IH.
Qed.

Lemma store_tree_value (t : tree) (x : value) (h : heap) :
  tree_value t = Some x -> Config.store_tree t h = (h, Ok x).
Proof. destruct t; intros [= <-]; done. Qed.

Lemma deep_update_leaf (l : nat) (k : string) (leaf : tree) (x : value)
    (d : gmap string value) (h : heap) :
  h !! l = Some d -> tree_value leaf = Some x ->
  Config._deep_update l (TDict [(k, leaf)]) h = (<[l := <[k := x]> d]> h, Ok tt).
Proof.
  intros Hl Hx. cbn [Config._deep_update].
  assert (Config.nested_dict l k leaf h = (h, Ok None)) as Hn.
  { unfold Config.nested_dict, bind, py_in, getitem, ret. rewrite Hl.
    destruct (d !! k) as [old|] eqn:Hk; simpl.
    - rewrite Hl, Hk. destruct old; try done. by destruct leaf.
    - done. }
  unfold bind at 1. rewrite Hn. unfold bind at 1. unfold bind at 1.
  rewrite (store_tree_value _ _ _ Hx). unfold setitem. rewrite Hl. done.
Qed.

Lemma deep_update_resolved (pre : list string) (k : string) (leaf : tree)
    (x : value) :
  forall (self l : nat) (d : gmap string value) (h : heap),
    resolves h (VDict self) pre (VDict l) -> h !! l = Some d ->
    tree_value leaf = Some x ->
    Config._deep_update self (path_tree (pre ++ [k]) leaf) h
    = (<[l := <[k := x]> d]> h, Ok tt).
Proof.
  induction pre as [|k1 pre IH]; intros self l d h Hr Hl Hx.
  - inversion Hr; subst. by apply deep_update_leaf.
  - inversion Hr as [|l0 d0 k0 v0 keys0 w0 Hl0 Hk0 Hr0]; subst.
    destruct (resolves_to_dict _ _ _ _ Hr0) as [l1 ->].
    cbn [app path_tree foldr]. fold (path_tree (pre ++ [k]) leaf).
    assert (exists items, path_tree (pre ++ [k]) leaf = TDict items) as [items Hi]
      by (destruct pre; simpl; eauto).
    cbn [Config._deep_update].
    assert (Config.nested_dict self k1 (path_tree (pre ++ [k]) leaf) h
            = (h, Ok (Some l1))) as Hn.
    { unfold Config.nested_dict, bind, py_in, getitem, ret. rewrite Hl0.
      rewrite bool_decide_eq_true_2 by eauto. by rewrite Hl0, Hk0, Hi. }
    unfold bind at 1. rewrite Hn. unfold bind at 1.
    by rewrite (IH l1 l d h Hr0 Hl Hx).
Qed.

(** X15: a nested key can be written in two ways that do the same: when
    the segments before the last lead through dicts to the dict object [l],
    [set] with the dotted key and [_deep_update] with the document that
    nests the value under the same segments both assign the last segment in
    [l] and change nothing else. *)
Theorem X15_set_and_overlay_write_alike (self l : nat) (key : string)
    (pre : list string) (k : string) (leaf : tree) (x : value)
    (d : gmap string value) (h : heap) :
  Py.split "." key = (pre ++ [k])%list ->
  resolves h (VDict self) pre (VDict l) -> h !! l = Some d ->
  tree_value leaf = Some x ->
  Config.set self key x h = (<[l := <[k := x]> d]> h, Ok tt)
  /\ Config._deep_update self (path_tree (pre ++ [k]) leaf) h
     = (<[l := <[k := x]> d]> h, Ok tt).
Proof.
  intros Hkey Hr Hl Hx. split.
  - change (Config.set self key x h)
      with (set_from (Py.split "." key) (VDict self) x h).
    rewrite Hkey. by apply set_from_resolved.
  - by apply deep_update_resolved.
Qed.

Lemma X15_set_and_overlay_write_alike_witness :
  Config.set 0 "remote_control.port" (VInt 7) Config.initial_heap
  = (<[1%nat := <["port" := VInt 7]>
                  {[ "enabled" := VBool true; "port" := VInt 22345 ]}]>
       Config.initial_heap, Ok tt)
  /\ Config._deep_update 0 (path_tree (["remote_control"] ++ ["port"]) (TInt 7))
       Config.initial_heap
     = (<[1%nat := <["port" := VInt 7]>
                     {[ "enabled" := VBool true; "port" := VInt 22345 ]}]>
          Config.initial_heap, Ok tt).
Proof.
  apply (X15_set_and_overlay_write_alike 0 1 "remote_control.port"
           ["remote_control"] "port" (TInt 7) (VInt 7)).
  - reflexivity.
  - econstructor; [reflexivity | reflexivity | constructor].
  - reflexivity.
  - reflexivity.
Defined.

(** ** The two parsers on one file *)

Lemma split1_shape (c : ascii) (s a b : string) :
  Py.split1 c s = [a; b] -> s = a +:+ String c b /\ Py.mem c a = false.
Proof.
  revert a. induction s as [|x s IH]; intros a; cbn [Py.split1]; [done|].
  destruct (Ascii.eqb_spec x c) as [->|Hne].
  - by intros [= <- <-].
  - destruct (Py.split1 c s) as [|y [|z [|]]] eqn:Hs; try done.
    intros [= <- <-]. destruct (IH y eq_refl) as [-> Hy].
    split; [done|]. cbn [Py.mem]. rewrite Hy, orb_false_r.
    apply Ascii.eqb_neq. congruence.
Qed.

Lemma mem_lstrip (p : ascii -> bool) (c : ascii) (s : string) :
  Py.mem c s = false -> Py.mem c (Py.lstrip_by p s) = false.
Proof.
  induction s as [|x s IH]; [done|]. cbn [Py.lstrip_by].
  destruct (p x); [|done]. cbn [Py.mem]. intros [_ Hs]%orb_false_iff. auto.
Qed.

Lemma mem_strip (c : ascii) (s : string) :
  Py.mem c s = false -> Py.mem c (Py.strip s) = false.
Proof. intros Hs. unfold Py.strip. by apply mem_rstrip, mem_lstrip. Qed.

Lemma strip_head (m : ascii) (t : string) :
  Py.isspace m = false -> exists t', Py.strip (String m t) = String m t'.
Proof.
  intros Hm. unfold Py.strip. cbn [Py.lstrip_by]. rewrite Hm.
  by apply rstrip_head.
Qed.

(** One line, read by the two loops into maps that agree at the key [k]:
    the maps still agree at [k], when [k] does not start with a marker.  An
    indented comment line is skipped by [utils/config.py] and can give
    [cfg_loader.py] an entry, but only one whose key starts with the
    marker. *)
Lemma parse_line_agree (k : string) (cfgL cfgU : gmap string ConfigValue)
    (raw : string) :
  commented_key k = false -> cfgL !! k = cfgU !! k ->
  parse_line CfgLoader._strip_comment cfgL raw !! k
  = parse_line UtilsConfig._strip_comment cfgU raw !! k.
Proof.
  intros Hk Heq. unfold parse_line.
  destruct (indented_comment raw) eqn:Hi.
  - destruct (strip_comment_indented raw Hi) as (Hu & m & t & Hm & Hc).
    rewrite Hu, Hc. cbn [Py.nonempty negb].
    destruct (negb (Py.contains "=" (String m t))); [done|].
    destruct (Py.split1 "=" (String m t)) as [|key [|value [|]]] eqn:Hs;
      try done.
    destruct (split1_shape _ _ _ _ Hs) as [Hline _].
    destruct key as [|c key]; simpl in Hline.
    { injection Hline as -> _. done. }
    injection Hline as <- _.
    destruct (strip_head m key (marker_not_space _ Hm)) as [t' ->].
    rewrite lookup_insert_ne; [done|]. intros <-. simpl in Hk. congruence.
  - rewrite (copies_agree_off_indented raw Hi).
    destruct (negb (Py.nonempty _)); [done|].
    destruct (negb (Py.contains "=" _)); [done|].
    destruct (Py.split1 "=" _) as [|key [|value [|]]]; try done.
    destruct (decide (Py.strip key = k)) as [<-|Hne].
    + by rewrite !lookup_insert_eq.
    + by rewrite !lookup_insert_ne.
Qed.

Lemma parse_lines_agree (k : string) (lines : list string) :
  commented_key k = false ->
  parse_lines CfgLoader._strip_comment lines !! k
  = parse_lines UtilsConfig._strip_comment lines !! k.
Proof.
  intros Hk. induction lines as [|raw lines IH] using rev_ind; [done|].
  rewrite !parse_lines_snoc. by apply parse_line_agree.
Qed.

(** What [parse_cfg_file] returns, and the dict [Config._load_from_cfg]
    builds of the same file. *)
Lemma parse_cfg_file_lines (files : Files) (path : string)
    (cfg : gmap string ConfigValue) :
  parse_cfg_file files path = Returns cfg ->
  exists lines,
    read_cfg_lines files path = Returns lines
    /\ forall k, commented_key k = false ->
         parse_lines UtilsConfig._strip_comment lines !! k = cfg !! k.
Proof.
  unfold parse_cfg_file.
  destruct (read_cfg_lines files path) as [lines|e]; [|done].
  intros [= <-]. exists lines. split; [done|].
  intros k Hk. by rewrite parse_lines_agree.
Qed.

(** X27: the two parsers agree on every key that is not commented out:
    for every file and every key that does not start with [;] or [#], the
    dict of [cfg_loader.parse_cfg_file] and the dict [Config._load_from_cfg]
    builds hold the same value at the key, or both none.  The difference
    of the two copies of [_strip_comment] on indented comment lines shows
    only in entries whose key starts with the marker. *)
Theorem X27_parsers_agree_on_plain_keys (lines : list string) (k : string) :
  commented_key k = false ->
  parse_lines CfgLoader._strip_comment lines !! k
  = parse_lines UtilsConfig._strip_comment lines !! k.
Proof. apply parse_lines_agree. Qed.

Lemma X27_parsers_agree_on_plain_keys_witness :
  parse_lines CfgLoader._strip_comment commented_lines !! "RCSPort"
  = parse_lines UtilsConfig._strip_comment commented_lines !! "RCSPort".
Proof.
  apply (X27_parsers_agree_on_plain_keys commented_lines "RCSPort").
  reflexivity.
Defined.

(** ** The legacy file: the remote control fields *)

Lemma set_nested_present (self l : nat) (key k1 k2 : string) (x : value)
    (h : heap) (d2 : gmap string value) :
  Py.split "." key = [k1; k2] -> key_at h self k1 = Some (VDict l) ->
  h !! l = Some d2 ->
  Config.set self key x h = (<[l := <[k2 := x]> d2]> h, Ok tt).
Proof.
  intros Hkey (d & Hd & Hk1)%key_at_Some Hl.
  change (Config.set self key x h)
    with (set_from (Py.split "." key) (VDict self) x h).
  rewrite Hkey. apply (set_from_resolved [k1] k2 x); [|done].
  econstructor; [done..|]. constructor.
Qed.

(** A field under [try]: the value is written when [int] returns. *)
Lemma try_set_nested (host : Host) (self l : nat) (key k1 k2 : string)
    (raw : ConfigValue) (z : Z) (f : Z -> value) (h : heap)
    (d2 : gmap string value) :
  int_of host raw = Returns z -> Py.split "." key = [k1; k2] ->
  key_at h self k1 = Some (VDict l) -> h !! l = Some d2 ->
  try_pass (i <- lift (int_of host raw) ;; Config.set self key (f i)) h
  = (<[l := <[k2 := f z]> d2]> h, Ok tt).
Proof.
  intros Hz Hkey Hk1 Hl. unfold try_pass, bind, lift. rewrite Hz.
  by rewrite (set_nested_present self l key k1 k2 (f z) h d2).
Qed.

(** A field under [try]: nothing happens when [int] raises. *)
Lemma try_set_skipped (host : Host) (self : nat) (key : string)
    (raw : ConfigValue) (f : Z -> value) (h : heap) :
  (forall z, int_of host raw <> Returns z) ->
  try_pass (i <- lift (int_of host raw) ;; Config.set self key (f i)) h
  = (h, Ok tt).
Proof.
  intros Hz. unfold try_pass, bind, lift.
  destruct (int_of host raw) as [z|e]; [by destruct (Hz z) | done].
Qed.

Lemma keeps_try_set (kk : string) (host : Host) (self : nat) (key : string)
    (raw : ConfigValue) (f : Z -> value) :
  Forall (fun k => k <> kk) (Py.split "." key) ->
  keeps kk (try_pass (i <- lift (int_of host raw) ;; Config.set self key (f i))).
Proof.
  intros Hk. apply keeps_try_pass, keeps_bind; [apply keeps_lift|].
  intros i. by apply keeps_set.
Qed.

(** One field of a nested dict under [try]: the heap it leaves. *)
Lemma try_set_step (host : Host) (self l : nat) (key k1 k2 : string)
    (raw : ConfigValue) (f : Z -> value) (h : heap) :
  Py.split "." key = [k1; k2] -> k1 <> k2 ->
  key_at h self k1 = Some (VDict l) -> (l < length h)%nat ->
  exists h',
    try_pass (i <- lift (int_of host raw) ;; Config.set self key (f i)) h
    = (h', Ok tt)
    /\ length h' = length h
    /\ (forall l' kk, kk <> k2 -> key_at h' l' kk = key_at h l' kk)
    /\ key_at h' l k2
       = match int_of host raw with
         | Returns z => Some (f z)
         | Raises _ => key_at h l k2
         end.
Proof.
  intros Hkey Hne Hk1 Hl. destruct (int_of host raw) as [z|e] eqn:Hz.
  - destruct (lookup_lt_is_Some_2 h l Hl) as [d2 Hd2]. rewrite <- Hz.
    eexists. split; [by eapply (try_set_nested _ _ l _ k1 k2)|].
    split_and!.
    + by rewrite length_insert.
    + intros l' kk Hkk. by rewrite key_at_insert.
    + by rewrite key_at_insert_eq.
  - exists h. rewrite <- Hz. split; [|done]. apply try_set_skipped. congruence.
Qed.

(** The block of the remote control settings on an instance whose
    [remote_control] entry holds the dict object [l]. *)
Lemma cfg_remote_control_present (host : Host) (self l : nat)
    (cfg : gmap string ConfigValue) (h : heap) :
  key_at h self "remote_control" = Some (VDict l) -> (l < length h)%nat ->
  exists h',
    Config.cfg_remote_control host self cfg h = (h', Ok tt)
    /\ length h' = length h
    /\ key_at h' self "remote_control" = Some (VDict l)
    /\ key_at h' l "enabled"
       = field_result host (cfg !! "RCSEnabled")
           (fun i => VBool (negb (i =? 0))) (key_at h l "enabled")
    /\ key_at h' l "port"
       = field_result host (cfg !! "RCSPort") VInt (key_at h l "port").
Proof.
  intros Hrc Hl. unfold Config.cfg_remote_control, field_result.
  unfold bind at 1.
  match goal with |- context [match ?m h with _ => _ end] =>
    assert (exists h1, m h = (h1, Ok tt)
              /\ length h1 = length h
              /\ (forall l' kk, kk <> "enabled" -> key_at h1 l' kk = key_at h l' kk)
              /\ key_at h1 l "enabled"
                 = field_result host (cfg !! "RCSEnabled")
                     (fun i => VBool (negb (i =? 0))) (key_at h l "enabled"))
      as (h1 & -> & Hlen1 & Hkeep1 & Hen1)
  end.
  { unfold field_result. destruct (cfg !! "RCSEnabled") as [en|]; [|by exists h].
    by apply (try_set_step host self l "remote_control.enabled"
                "remote_control" "enabled"). }
  match goal with |- context [?m h1 = _] =>
    assert (exists h2, m h1 = (h2, Ok tt)
              /\ length h2 = length h1
              /\ (forall l' kk, kk <> "port" -> key_at h2 l' kk = key_at h1 l' kk)
              /\ key_at h2 l "port"
                 = field_result host (cfg !! "RCSPort") VInt (key_at h1 l "port"))
      as (h2 & -> & Hlen2 & Hkeep2 & Hport2)
  end.
  { unfold field_result. destruct (cfg !! "RCSPort") as [raw|]; [|by exists h1].
    apply (try_set_step host self l "remote_control.port"
             "remote_control" "port"); [done..| |lia].
    by rewrite Hkeep1. }
  exists h2. split_and!; [done | lia | | |].
  - by rewrite Hkeep2, Hkeep1.
  - by rewrite Hkeep2.
  - by rewrite Hport2, Hkeep1.
Qed.

Lemma load_from_file_cfg_heap (host : Host) (files : Files) (self : nat)
    (filename : string) (h : heap) :
  Py.endswith ".cfg" (Py.lower filename) = true ->
  (Config.load_from_file host files self filename h).1
  = (Config._load_from_cfg host files self filename h).1.
Proof.
  intros Hext. unfold Config.load_from_file. rewrite Hext.
  by destruct (Config._load_from_cfg host files self filename h) as [h1 [[]|e|]].
Qed.

(** The key [kk] after the legacy loader, when the blocks behind the block
    of the remote control settings leave it alone. *)
Lemma load_from_cfg_key (kk : string) (host : Host) (files : Files)
    (self : nat) (path : string) (lines : list string) (h : heap)
    (d : gmap string value) (fallback : string) (l : nat) :
  read_cfg_lines files path = Returns lines ->
  h !! self = Some d ->
  default (VStr "recording.xdf") (d !! "filename") = VStr fallback ->
  "auto_start" <> kk -> "required_labels" <> kk -> "streams" <> kk ->
  exists dest,
    key_at (Config._load_from_cfg host files self path h).1 l kk
    = key_at (Config.cfg_remote_control host self
                (parse_lines UtilsConfig._strip_comment lines)
                (<[self := <["filename" := VStr (finish_dest host dest)]> d]> h)).1
        l kk.
Proof.
  intros Hread Hself Hname Hk1 Hk2 Hk3.
  set (cfg := parse_lines UtilsConfig._strip_comment lines).
  destruct (cfg_filename_sets host self cfg h d fallback Hself Hname)
    as (dest & _ & E1).
  exists dest. unfold Config._load_from_cfg. unfold bind at 1, lift.
  rewrite Hread. fold cfg. unfold bind at 1. rewrite E1. unfold bind at 1.
  destruct (Config.cfg_remote_control host self cfg _) as [h2 r2] eqn:E2.
  destruct r2 as [[]|e2|]; [|done..]. unfold bind at 1.
  destruct (Config.cfg_auto_start host self cfg h2) as [h3 r3] eqn:E3.
  pose proof (keeps_cfg_auto_start kk host self cfg Hk1 _ _ _ l E3) as H3.
  destruct r3 as [[]|e3|]; [|done..].
  destruct (Config.cfg_required_streams host self cfg h3) as [h4 r4] eqn:E4.
  cbn [fst].
  by rewrite (keeps_cfg_required_streams kk host self cfg Hk2 Hk3 _ _ _ l E4).
Qed.

(** The three entries of the remote control settings after the legacy
    loader, on an instance whose [filename] entry is a [str] or is missing,
    and whose [remote_control] entry holds the dict object [l]. *)
Lemma load_from_cfg_remote_control (host : Host) (files : Files) (self l : nat)
    (path : string) (lines : list string) (h : heap) (d : gmap string value)
    (fallback : string) :
  read_cfg_lines files path = Returns lines ->
  h !! self = Some d ->
  default (VStr "recording.xdf") (d !! "filename") = VStr fallback ->
  d !! "remote_control" = Some (VDict l) -> (l < length h)%nat ->
  let cfg := parse_lines UtilsConfig._strip_comment lines in
  let h' := (Config._load_from_cfg host files self path h).1 in
  key_at h' self "remote_control" = Some (VDict l)
  /\ key_at h' l "enabled"
     = field_result host (cfg !! "RCSEnabled")
         (fun i => VBool (negb (i =? 0))) (key_at h l "enabled")
  /\ key_at h' l "port"
     = field_result host (cfg !! "RCSPort") VInt (key_at h l "port").
Proof.
  intros Hread Hself Hname Hrc Hl cfg h'. subst h'.
  destruct (load_from_cfg_key "remote_control" host files self path lines h d
              fallback self Hread Hself Hname) as (dest1 & ->); [done..|].
  destruct (load_from_cfg_key "enabled" host files self path lines h d
              fallback l Hread Hself Hname) as (dest2 & ->); [done..|].
  destruct (load_from_cfg_key "port" host files self path lines h d
              fallback l Hread Hself Hname) as (dest3 & ->); [done..|].
  fold cfg.
  assert (forall dest,
            let h1 := <[self := <["filename" := VStr (finish_dest host dest)]> d]> h in
            key_at h1 self "remote_control" = Some (VDict l)
            /\ (l < length h1)%nat
            /\ key_at h1 l "enabled" = key_at h l "enabled"
            /\ key_at h1 l "port" = key_at h l "port") as Hh1.
  { intros dest. cbn zeta. rewrite !key_at_insert by done.
    rewrite length_insert. split_and!; [|done..]. apply key_at_Some. eauto. }
  split_and!.
  - destruct (Hh1 dest1) as (H1 & H2 & _).
    destruct (cfg_remote_control_present host self l cfg _ H1 H2)
      as (h2 & E & _ & Hk & _).
    by rewrite E.
  - destruct (Hh1 dest2) as (H1 & H2 & H3 & _).
    destruct (cfg_remote_control_present host self l cfg _ H1 H2)
      as (h2 & E & _ & _ & Hk & _).
    rewrite E. cbn [fst]. by rewrite Hk, H3.
  - destruct (Hh1 dest3) as (H1 & H2 & _ & H4).
    destruct (cfg_remote_control_present host self l cfg _ H1 H2)
      as (h2 & E & _ & _ & _ & Hk).
    rewrite E. cbn [fst]. by rewrite Hk, H4.
Qed.

Lemma load_from_cfg_frame (kk : string) (host : Host) (files : Files)
    (self : nat) (path : string) :
  kk ∉ ["filename"; "remote_control"; "enabled"; "port"; "auto_start";
        "required_labels"; "streams"] ->
  keeps kk (Config._load_from_cfg host files self path).
Proof.
  intros Hkk. unfold Config._load_from_cfg.
  apply keeps_bind; [apply keeps_lift|]. intros lines.
  set (cfg := parse_lines UtilsConfig._strip_comment lines).
  apply keeps_bind; [apply keeps_cfg_filename; set_solver|]. intros _.
  apply keeps_bind; [apply keeps_cfg_remote_control; repeat constructor; set_solver|].
  intros _.
  apply keeps_bind; [apply keeps_cfg_auto_start; set_solver|]. intros _.
  apply keeps_cfg_required_streams; set_solver.
Qed.



(** X17: the legacy loader writes seven keys and no other: a key that is
    none of [filename], [remote_control], [enabled], [port], [auto_start],
    [required_labels] and [streams] has after [load_from_file] of a [.cfg]
    file the value it had, in every dict object, whatever the file holds. *)
Theorem X17_legacy_load_writes_seven_keys (host : Host) (files : Files)
    (self : nat) (filename : string) (kk : string) (h : heap) :
  Py.endswith ".cfg" (Py.lower filename) = true ->
  kk ∉ ["filename"; "remote_control"; "enabled"; "port"; "auto_start";
        "required_labels"; "streams"] ->
  forall l, key_at (Config.load_from_file host files self filename h).1 l kk
            = key_at h l kk.
Proof.
  intros Hext Hkk l. rewrite load_from_file_cfg_heap by done.
  destruct (Config._load_from_cfg host files self filename h) as [h1 r] eqn:E.
  by eapply load_from_cfg_frame.
Qed.

Lemma X17_legacy_load_writes_seven_keys_witness :
  key_at (Config.load_from_file sample_host sample_files 0 "lab.cfg"
            Config.initial_heap).1 2 "buffer_size"
  = key_at Config.initial_heap 2 "buffer_size".
Proof.
  refine (X17_legacy_load_writes_seven_keys sample_host sample_files 0 "lab.cfg"
            "buffer_size" Config.initial_heap _ _ 2%nat).
  - reflexivity.
  - apply (bool_decide_unpack _). vm_compute. exact I.
Defined.

(** X18: [run_with_cfg] and the class [Config] take the same port from the
    same file.  [run_with_cfg] computes its port from the dict of
    [parse_cfg_file]; on an instance that holds the default port 22345, the
    port [get] returns after [load_from_file] of the same file is that
    port, also when [RCSPort] is missing, is commented out or is no
    number. *)
Theorem X18_loaders_agree_on_port (host : Host) (files : Files) (self l : nat)
    (filename : string) (cfg : gmap string ConfigValue) (h : heap)
    (d : gmap string value) (fallback : string) (other : value) :
  Py.endswith ".cfg" (Py.lower filename) = true ->
  parse_cfg_file files filename = Returns cfg ->
  h !! self = Some d ->
  default (VStr "recording.xdf") (d !! "filename") = VStr fallback ->
  d !! "remote_control" = Some (VDict l) ->
  key_at h l "port" = Some (VInt 22345) ->
  (Config.get self "remote_control.port" other
     (Config.load_from_file host files self filename h).1).2
  = Ok (VInt (RunWithCfg.rc_port host cfg)).
Proof.
  intros Hext Hcfg Hself Hname Hrc Hport.
  destruct (parse_cfg_file_lines files filename cfg Hcfg) as (lines & Hread & Hagree).
  assert (l < length h)%nat as Hl.
  { apply (key_at_is_Some_lt h l "port"). by rewrite Hport. }
  rewrite load_from_file_cfg_heap by done.
  destruct (load_from_cfg_remote_control host files self l filename lines h d
              fallback Hread Hself Hname Hrc Hl) as (H1 & _ & H3).
  assert (key_at (Config._load_from_cfg host files self filename h).1 l "port"
          = Some (VInt (RunWithCfg.rc_port host cfg))) as H4.
  { rewrite H3, Hport, (Hagree "RCSPort" eq_refl).
    unfold field_result, RunWithCfg.rc_port.
    destruct (cfg !! "RCSPort") as [raw|]; [|done].
    simpl. by destruct (int_of host raw). }
  by rewrite (get_resolves _ self "remote_control.port" _ other
                (resolves_two _ _ _ _ _ _ H1 H4)).
Qed.

Lemma X18_loaders_agree_on_port_witness :
  (Config.get 0 "remote_control.port" VNone
     (Config.load_from_file sample_host commented_files 0 "lab.cfg"
        Config.initial_heap).1).2
  = Ok (VInt (RunWithCfg.rc_port sample_host
                (parse_lines CfgLoader._strip_comment commented_lines))).
Proof.
  apply (X18_loaders_agree_on_port sample_host commented_files 0 1 "lab.cfg"
           (parse_lines CfgLoader._strip_comment commented_lines)
           Config.initial_heap
           {[ "filename" := VStr "recording.xdf"; "remote_control" := VDict 1;
              "recording" := VDict 2; "streams" := VDict 3 ]}
           "recording.xdf" VNone);
    reflexivity.
Defined.



(** ** The legacy file: the required streams *)

Lemma parse_required_streams_list (host : Host) (cfg : gmap string ConfigValue)
    (required : ConfigValue) :
  cfg !! "RequiredStreams" = Some required ->
  match required with
  | CList items => map TStr items
  | _ => [TStr (str_of host required)]
  end = map TStr (_parse_required_streams host cfg).
Proof.
  intros Hr. unfold _parse_required_streams. rewrite Hr.
  destruct required as [s|z|x|items]; try done.
  simpl. by rewrite map_id.
Qed.

(** The block of the required streams on an instance whose [streams] entry
    holds the dict object [l3]. *)
Lemma cfg_required_streams_sets (host : Host) (self l3 : nat)
    (cfg : gmap string ConfigValue) (required : ConfigValue) (h : heap) :
  key_at h self "streams" = Some (VDict l3) -> (l3 < length h)%nat ->
  cfg !! "RequiredStreams" = Some required ->
  exists h',
    Config.cfg_required_streams host self cfg h = (h', Ok tt)
    /\ key_at h' self "streams" = Some (VDict l3)
    /\ key_at h' l3 "required_labels"
       = Some (VList (map TStr (_parse_required_streams host cfg))).
Proof.
  intros Hs Hl Hreq. pose proof Hs as (d & Hd & Hk)%key_at_Some.
  unfold Config.cfg_required_streams. rewrite Hreq.
  rewrite (parse_required_streams_list host cfg required Hreq).
  unfold bind at 1, py_in. rewrite Hd.
  rewrite bool_decide_eq_true_2 by eauto.
  unfold bind at 1, getitem. rewrite Hd, Hk.
  destruct (lookup_lt_is_Some_2 h l3 Hl) as [d3 Hd3].
  unfold bind, setitem. rewrite Hd3.
  match goal with |- context [<[l3 := ?d3']> h] => set (h4 := <[l3 := d3']> h) end.
  assert (self < length h4)%nat as Hself4.
  { subst h4. rewrite length_insert. by eapply lookup_lt_Some. }
  destruct (lookup_lt_is_Some_2 h4 self Hself4) as [d4 Hd4]. rewrite Hd4.
  eexists. split; [reflexivity|]. split.
  - by apply key_at_insert_eq.
  - rewrite key_at_insert by done. subst h4. by apply key_at_insert_eq.
Qed.

Lemma load_from_cfg_required (host : Host) (files : Files) (self l3 : nat)
    (path : string) (lines : list string) (h : heap) (d : gmap string value)
    (fallback : string) (required : ConfigValue) :
  heap_closed h ->
  read_cfg_lines files path = Returns lines ->
  h !! self = Some d ->
  default (VStr "recording.xdf") (d !! "filename") = VStr fallback ->
  d !! "streams" = Some (VDict l3) ->
  parse_lines UtilsConfig._strip_comment lines !! "RequiredStreams"
  = Some required ->
  exists h',
    Config._load_from_cfg host files self path h = (h', Ok tt)
    /\ key_at h' self "streams" = Some (VDict l3)
    /\ key_at h' l3 "required_labels"
       = Some (VList (map TStr (_parse_required_streams host
                                  (parse_lines UtilsConfig._strip_comment lines)))).
Proof.
  intros Hh Hread Hself Hname Hs Hreq.
  set (cfg := parse_lines UtilsConfig._strip_comment lines) in *.
  destruct (cfg_filename_sets host self cfg h d fallback Hself Hname)
    as (dest & _ & E1).
  set (h1 := <[self := <["filename" := VStr (finish_dest host dest)]> d]> h) in *.
  assert (heap_closed h1) as Hh1 by by apply heap_closed_insert.
  assert (self < length h1)%nat as Hself1.
  { subst h1. rewrite length_insert. by eapply lookup_lt_Some. }
  assert (key_at h1 self "streams" = Some (VDict l3)) as Hs1.
  { subst h1. rewrite key_at_insert by done. apply key_at_Some. eauto. }
  destruct (safe_cfg_remote_control (length h1) host self cfg Hself1 h1 Hh1)
    as (h2 & r2 & E2 & Hh2 & Hlen2 & Hr2); [done|].
  destruct r2 as [[]|e2|];
    [|by destruct (never_raises_cfg_remote_control host self cfg h1 h2 e2)|done].
  assert (key_at h2 self "streams" = Some (VDict l3)) as Hs2.
  { rewrite <- Hs1. eapply keeps_cfg_remote_control; [|exact E2].
    by repeat constructor. }
  destruct (safe_cfg_auto_start (length h2) host self cfg ltac:(lia) h2 Hh2)
    as (h3 & r3 & E3 & Hh3 & Hlen3 & Hr3); [done|].
  destruct r3 as [[]|e3|];
    [|by destruct (never_raises_cfg_auto_start host self cfg h2 h3 e3)|done].
  assert (key_at h3 self "streams" = Some (VDict l3)) as Hs3.
  { rewrite <- Hs2. eapply keeps_cfg_auto_start; [|exact E3]. done. }
  assert (l3 < length h3)%nat as Hl3.
  { pose proof Hs3 as (d3 & Hd3 & Hk3)%key_at_Some.
    apply (heap_closed_lookup h3 self d3 "streams" (VDict l3)); done. }
  destruct (cfg_required_streams_sets host self l3 cfg required h3 Hs3 Hl3 Hreq)
    as (h4 & E4 & Hk4 & Hk4').
  exists h4. split; [|done].
  unfold Config._load_from_cfg. unfold bind at 1, lift. rewrite Hread.
  fold cfg. unfold bind at 1. rewrite E1. unfold bind at 1. rewrite E2.
  unfold bind at 1. by rewrite E3.
Qed.

(** X20: a legacy file with [RequiredStreams] loads without a warning on
    a closed heap, on an instance whose [filename] is a [str] or missing and
    whose [streams] entry is a dict; after it [get] with the key
    [streams.required_labels] returns the list of labels that
    [cfg_loader._parse_required_streams] makes of the dict of
    [parse_cfg_file] for the same file: the items of a quoted list, or the
    one value as a [str]. *)
Theorem X20_legacy_required_streams_loaded (host : Host) (files : Files)
    (self l3 : nat) (filename : string) (cfg : gmap string ConfigValue)
    (h : heap) (d : gmap string value) (fallback : string)
    (required : ConfigValue) (other : value) :
  heap_closed h ->
  Py.endswith ".cfg" (Py.lower filename) = true ->
  parse_cfg_file files filename = Returns cfg ->
  h !! self = Some d ->
  default (VStr "recording.xdf") (d !! "filename") = VStr fallback ->
  d !! "streams" = Some (VDict l3) ->
  cfg !! "RequiredStreams" = Some required ->
  (Config.load_from_file host files self filename h).2 = Ok None
  /\ (Config.get self "streams.required_labels" other
        (Config.load_from_file host files self filename h).1).2
     = Ok (VList (map TStr (_parse_required_streams host cfg))).
Proof.
  intros Hh Hext Hcfg Hself Hname Hs Hreq.
  destruct (parse_cfg_file_lines files filename cfg Hcfg) as (lines & Hread & Hagree).
  rewrite <- (Hagree "RequiredStreams" eq_refl) in Hreq.
  destruct (load_from_cfg_required host files self l3 filename lines h d
              fallback required Hh Hread Hself Hname Hs Hreq)
    as (h' & E & H1 & H2).
  assert (_parse_required_streams host
            (parse_lines UtilsConfig._strip_comment lines)
          = _parse_required_streams host cfg) as Hsame.
  { unfold _parse_required_streams. by rewrite (Hagree "RequiredStreams" eq_refl). }
  rewrite Hsame in H2.
  unfold Config.load_from_file. rewrite Hext, E. cbn [fst snd]. split; [done|].
  by rewrite (get_resolves _ self "streams.required_labels" _ other
                (resolves_two _ _ _ _ _ _ H1 H2)).
Qed.

Lemma X20_legacy_required_streams_loaded_witness :
  (Config.load_from_file sample_host commented_files 0 "lab.cfg"
     Config.initial_heap).2 = Ok None
  /\ (Config.get 0 "streams.required_labels" VNone
        (Config.load_from_file sample_host commented_files 0 "lab.cfg"
           Config.initial_heap).1).2
     = Ok (VList (map TStr (_parse_required_streams sample_host
                              (parse_lines CfgLoader._strip_comment
                                 commented_lines)))).
Proof.
  apply (X20_legacy_required_streams_loaded sample_host commented_files 0 3
           "lab.cfg" (parse_lines CfgLoader._strip_comment commented_lines)
           Config.initial_heap
           {[ "filename" := VStr "recording.xdf"; "remote_control" := VDict 1;
              "recording" := VDict 2; "streams" := VDict 3 ]}
           "recording.xdf" (CStr "EEG") VNone);
    try reflexivity.
  apply initial_heap_closed.
Defined.

(** ** A new instance *)

Lemma get_snd (self : nat) (key : string) (other : value) (h : heap) :
  (Config.get self key other h).2
  = match (Config.get_walk (Py.split "." key) (VDict self) h).2 with
    | Raise KeyError | Raise TypeError => Ok other
    | r => r
    end.
Proof.
  unfold Config.get.
  by destruct (Config.get_walk (Py.split "." key) (VDict self) h) as [h' [w|[]|]].
Qed.

Lemma get_walk_alloc (d0 : gmap string value) (h : heap) (keys : list string) :
  heap_closed h ->
  forall v, value_closed (length h) v ->
    (Config.get_walk keys v (h ++ [d0])%list).2 = (Config.get_walk keys v h).2.
Proof.
  intros Hh. induction keys as [|k keys IH]; intros v Hv; [done|].
  cbn [Config.get_walk]. unfold bind, getitem.
  destruct v as [| | | | | |l]; try done. simpl in Hv.
  rewrite lookup_app_l by done.
  destruct (lookup_lt_is_Some_2 h l Hv) as [d Hd]. rewrite Hd.
  destruct (d !! k) as [w|] eqn:Hk; [|done].
  apply IH. by eapply heap_closed_lookup.
Qed.

(** X21: a new instance made without a file to load (no name, an empty
    name, or the name of a file that does not exist) reads what the class
    attribute [DEFAULT_CONFIG] holds at that moment: on a closed heap
    [__init__] returns a new dict object, and [get] on the new instance
    returns for every key and default what the same walk from
    [DEFAULT_CONFIG] returns. *)
Theorem X21_new_instance_reads_defaults (host : Host) (files : Files)
    (config_file : option string) (h : heap) (d : gmap string value) :
  no_file files config_file ->
  heap_closed h -> h !! Config.DEFAULT_CONFIG = Some d ->
  Config.__init__ host files config_file h = ((h ++ [d])%list, Ok (length h))
  /\ forall key other,
       (Config.get (length h) key other (h ++ [d])%list).2
       = (Config.get Config.DEFAULT_CONFIG key other h).2.
Proof.
  intros Hfile Hh Hd. split.
  - unfold Config.__init__, bind, alloc, ret. rewrite Hd.
    destruct config_file as [path|]; [|done]. simpl in Hfile. by rewrite Hfile.
  - intros key other. rewrite !get_snd.
    pose proof (split_not_nil "." key) as Hne.
    destruct (Py.split "." key) as [|k keys]; [done|].
    cbn [Config.get_walk]. unfold bind, getitem.
    rewrite list_lookup_middle by done. rewrite Hd.
    destruct (d !! k) as [w|] eqn:Hk; [|done].
    rewrite get_walk_alloc; [done..|]. by eapply heap_closed_lookup.
Qed.

Lemma X21_new_instance_reads_defaults_witness :
  Config.__init__ sample_host
    {| exists_path := fun _ => false;
       read_cfg_lines := fun _ => Raises OSError;
       load_json := fun _ => Raises OSError |}
    (Some "missing.cfg") Config.initial_heap
  = ((Config.initial_heap
      ++ [ {[ "filename" := VStr "recording.xdf"; "remote_control" := VDict 1;
              "recording" := VDict 2; "streams" := VDict 3 ]} ])%list,
     Ok (length Config.initial_heap))
  /\ forall key other,
       (Config.get (length Config.initial_heap) key other
          (Config.initial_heap
           ++ [ {[ "filename" := VStr "recording.xdf";
                   "remote_control" := VDict 1;
                   "recording" := VDict 2; "streams" := VDict 3 ]} ])%list).2
       = (Config.get Config.DEFAULT_CONFIG key other Config.initial_heap).2.
Proof.
  apply (X21_new_instance_reads_defaults sample_host _ (Some "missing.cfg")
           Config.initial_heap).
  - reflexivity.
  - apply initial_heap_closed.
  - reflexivity.
Defined.

(** ** The time stamps *)

Lemma pad_good_range (w : nat) (bound : Z) :
  forallb (pad_good w) (map Z.of_nat (seq 0 (Z.to_nat bound))) = true ->
  forall n, 0 <= n < bound -> pad_good w n = true.
Proof.
  intros Hall n Hn. rewrite forallb_forall in Hall. apply Hall.
  rewrite <- (Z2Nat.id n) by lia. apply in_map, in_seq. lia.
Qed.

Lemma pad_good_2 (n : Z) : 0 <= n <= 99 -> pad_good 2 n = true.
Proof.
  intros Hn. apply (pad_good_range 2 100); [by vm_compute | lia].
Qed.

Lemma pad_good_3 (n : Z) : 0 <= n <= 999 -> pad_good 3 n = true.
Proof.
  intros Hn. apply (pad_good_range 3 1000); [by vm_compute | lia].
Qed.

Lemma pad_good_4 (n : Z) : 0 <= n <= 9999 -> pad_good 4 n = true.
Proof.
  intros Hn. apply (pad_good_range 4 10000); [by vm_compute | lia].
Qed.

Lemma pad_good_spec (w : nat) (n : Z) :
  pad_good w n = true ->
  String.length (zero_pad w n) = w /\ all_chars stamp_char (zero_pad w n) = true.
Proof.
  unfold pad_good. intros [Hl Hd]%andb_true_iff. split; [by apply Nat.eqb_eq|].
  revert Hd. generalize (zero_pad w n). intros s.
  induction s as [|c s IH]; [done|]. simpl.
  intros [Hc Hs]%andb_true_iff. unfold stamp_char at 1. by rewrite Hc, (IH Hs).
Qed.

Lemma stamp_char_plain (c : ascii) :
  stamp_char c = true -> plain c = true /\ Ascii.eqb "%" c = false.
Proof. ascii_cases c. Qed.

Lemma stamp_chars_plain (s : string) :
  all_chars stamp_char s = true ->
  all_chars plain s = true /\ Py.mem "%" s = false.
Proof.
  induction s as [|c s IH]; [done|]. cbn [all_chars Py.mem].
  intros [Hc Hs]%andb_true_iff. destruct (stamp_char_plain c Hc) as [-> ->].
  by destruct (IH Hs) as [-> ->].
Qed.

Lemma millis_range (dt : DateTime) :
  0 <= microsecond dt <= 999999 -> 0 <= millis dt <= 999.
Proof.
  intros Hm. unfold millis. split.
  - apply Z.div_pos; lia.
  - apply Z.lt_succ_r, Z.div_lt_upper_bound; lia.
Qed.

(** The three tokens of a valid clock reading: their lengths and their
    characters. *)
Lemma tokens_shape (dt : DateTime) :
  valid_datetime dt ->
  (String.length (_utc_datetime_token dt) = 22%nat
   /\ all_chars stamp_char (_utc_datetime_token dt) = true)
  /\ (String.length (_utc_date_token dt) = 10%nat
      /\ all_chars stamp_char (_utc_date_token dt) = true)
  /\ (String.length (_utc_time_token dt) = 11%nat
      /\ all_chars stamp_char (_utc_time_token dt) = true).
Proof.
  intros (Hy & Hmo & Hd & Hh & Hmi & Hs & Hus).
  destruct (pad_good_spec 4 (year dt)) as [Ly Cy]; [apply pad_good_4; lia|].
  destruct (pad_good_spec 2 (month dt)) as [Lmo Cmo]; [apply pad_good_2; lia|].
  destruct (pad_good_spec 2 (day dt)) as [Ld Cd]; [apply pad_good_2; lia|].
  destruct (pad_good_spec 2 (hour dt)) as [Lh Ch]; [apply pad_good_2; lia|].
  destruct (pad_good_spec 2 (minute dt)) as [Lmi Cmi]; [apply pad_good_2; lia|].
  destruct (pad_good_spec 2 (second dt)) as [Ls Cs]; [apply pad_good_2; lia|].
  destruct (pad_good_spec 3 (millis dt)) as [Lms Cms];
    [apply pad_good_3, millis_range; lia|].
  unfold _utc_datetime_token, _utc_date_token, _utc_time_token,
    strftime_date, strftime_time.
  rewrite !str_length_app, !all_chars_app.
  rewrite Ly, Lmo, Ld, Lh, Lmi, Ls, Lms, Cy, Cmo, Cd, Ch, Cmi, Cs, Cms.
  done.
Qed.

(** X22: the three time stamps of one valid clock reading: the datetime
    token is the date token, a [T] and the time token; it has 22 characters,
    all of them digits, hyphens, [T], dot or [Z], so it holds no percent
    sign for a later placeholder pass and no character the sanitizer
    replaces; and the file name made of it for a bare [StudyRoot] goes
    through the sanitizer unchanged when the host name does. *)
Theorem X22_time_stamps (dt : DateTime) (hostname : string) :
  valid_datetime dt ->
  _utc_datetime_token dt
  = _utc_date_token dt +:+ "T" +:+ _utc_time_token dt
  /\ String.length (_utc_datetime_token dt) = 22%nat
  /\ all_chars stamp_char (_utc_datetime_token dt) = true
  /\ Py.mem "%" (_utc_datetime_token dt) = false
  /\ Py.mem "%" (_utc_date_token dt) = false
  /\ Py.mem "%" (_utc_time_token dt) = false
  /\ (all_chars plain hostname = true ->
      _sanitize_basename ("LabRecorder_" +:+ hostname +:+ "_"
                          +:+ _utc_datetime_token dt +:+ "_eeg.xdf")
      = "LabRecorder_" +:+ hostname +:+ "_"
        +:+ _utc_datetime_token dt +:+ "_eeg.xdf").
Proof.
  intros Hdt.
  destruct (tokens_shape dt Hdt) as ((L1 & C1) & (L2 & C2) & (L3 & C3)).
  destruct (stamp_chars_plain _ C1) as [P1 M1].
  destruct (stamp_chars_plain _ C2) as [_ M2].
  destruct (stamp_chars_plain _ C3) as [_ M3].
  split_and!; try done.
  - unfold _utc_datetime_token, _utc_date_token, _utc_time_token.
    by rewrite !str_app_assoc.
  - intros Hhost. unfold _sanitize_basename, Py.rstrip_chars.
    rewrite map_plain_fixed.
    + apply rstrip_fixed. intros c.
      rewrite <- !str_app_assoc, last_char_app by done. by intros [= <-].
    + rewrite !all_chars_app, Hhost, P1. done.
Qed.

Lemma X22_time_stamps_witness :
  _utc_datetime_token sample_datetime
  = _utc_date_token sample_datetime +:+ "T" +:+ _utc_time_token sample_datetime
  /\ String.length (_utc_datetime_token sample_datetime) = 22%nat
  /\ all_chars stamp_char (_utc_datetime_token sample_datetime) = true
  /\ Py.mem "%" (_utc_datetime_token sample_datetime) = false
  /\ Py.mem "%" (_utc_date_token sample_datetime) = false
  /\ Py.mem "%" (_utc_time_token sample_datetime) = false
  /\ (all_chars plain "lab" = true ->
      _sanitize_basename ("LabRecorder_" +:+ "lab" +:+ "_"
                          +:+ _utc_datetime_token sample_datetime +:+ "_eeg.xdf")
      = "LabRecorder_" +:+ "lab" +:+ "_"
        +:+ _utc_datetime_token sample_datetime +:+ "_eeg.xdf").
Proof.
  apply (X22_time_stamps sample_datetime "lab").
  unfold valid_datetime. simpl. lia.
Defined.

(** ** The parsed file: where an entry comes from *)

(** X23: every entry of the dict the loop over the lines builds comes
    from a line: its key is the trimmed text before the first [=] of a line
    without its comment, and its value is that line's text behind the [=],
    typed; so a key holds no [=]. *)
Theorem X23_parsed_entry_comes_from_a_line (sc : string -> string)
    (lines : list string) (k : string) (v : ConfigValue) :
  parse_lines sc lines !! k = Some v ->
  exists raw key value,
    In raw lines /\ sc raw = key +:+ String "=" value
    /\ Py.mem "=" key = false
    /\ k = Py.strip key /\ v = _parse_value value
    /\ Py.mem "=" k = false.
Proof.
  revert k v. induction lines as [|raw lines IH] using rev_ind; intros k v.
  - unfold parse_lines. simpl. by rewrite lookup_empty.
  - rewrite parse_lines_snoc. unfold parse_line.
    assert (parse_lines sc lines !! k = Some v ->
            exists raw0 key value,
              In raw0 (lines ++ [raw]) /\ sc raw0 = key +:+ String "=" value
              /\ Py.mem "=" key = false
              /\ k = Py.strip key /\ v = _parse_value value
              /\ Py.mem "=" k = false) as Hold.
    { intros (raw0 & key & value & Hin & H)%IH.
      exists raw0, key, value. split; [|done]. apply in_or_app. by left. }
    destruct (negb (Py.nonempty (sc raw))); [done|].
    destruct (negb (Py.contains "=" (sc raw))); [done|].
    destruct (Py.split1 "=" (sc raw)) as [|key [|value [|]]] eqn:Hs; try done.
    destruct (split1_shape _ _ _ _ Hs) as [Hraw Hkey].
    destruct (decide (Py.strip key = k)) as [<-|Hne].
    + rewrite lookup_insert_eq. intros [= <-].
      exists raw, key, value. split_and!; try done.
      * apply in_or_app. right. by left.
      * by apply mem_strip.
    + by rewrite lookup_insert_ne.
Qed.

Lemma X23_parsed_entry_comes_from_a_line_witness :
  exists raw key value,
    In raw ["RCSPort = 7 ; port"]
    /\ UtilsConfig._strip_comment raw = key +:+ String "=" value
    /\ Py.mem "=" key = false
    /\ "RCSPort" = Py.strip key /\ CInt 7 = _parse_value value
    /\ Py.mem "=" "RCSPort" = false.
Proof.
  apply (X23_parsed_entry_comes_from_a_line UtilsConfig._strip_comment
           ["RCSPort = 7 ; port"] "RCSPort" (CInt 7)).
  reflexivity.
Defined.

(** ** Comment markers in what is left of a line *)

Lemma utils_step_clean (c : ascii) (s : string) :
  Py.mem c (UtilsConfig.strip_comment_sep (String c EmptyString) s) = false.
Proof.
  destruct (char_cases c s) as [Hs|(a & b & -> & Ha)].
  - by rewrite utils_step_absent.
  - by rewrite utils_step_split.
Qed.

Lemma utils_step_keeps_clean (c x : ascii) (s : string) :
  Py.mem x s = false ->
  Py.mem x (UtilsConfig.strip_comment_sep (String c EmptyString) s) = false.
Proof.
  intros Hx. destruct (char_cases c s) as [Hs|(a & b & -> & Ha)].
  - by rewrite utils_step_absent.
  - rewrite utils_step_split by done.
    rewrite mem_app in Hx. by apply orb_false_iff in Hx as [? _].
Qed.

Lemma utils_strip_comment_clean (c : ascii) (line : string) :
  is_marker c = true -> Py.mem c (UtilsConfig._strip_comment line) = false.
Proof.
  intros Hc. unfold UtilsConfig._strip_comment. cbn [fold_left].
  apply mem_strip. destruct (marker_cases _ Hc) as [-> | ->].
  - apply utils_step_keeps_clean, utils_step_clean.
  - apply utils_step_clean.
Qed.

(** X24: a comment marker cannot be written into a value: what
    [utils.config._strip_comment] returns holds no [;] and no [#], for every
    line; what [cfg_loader._strip_comment] returns holds one only for a
    line that is blanks followed by a marker.  So no value and no key of a
    dict parsed by [Config._load_from_cfg] holds a marker. *)
Theorem X24_no_marker_survives (line : string) (c : ascii) :
  is_marker c = true ->
  Py.mem c (UtilsConfig._strip_comment line) = false
  /\ (Py.mem c (CfgLoader._strip_comment line) = true ->
      indented_comment line = true)
  /\ forall key value,
       UtilsConfig._strip_comment line = key +:+ String "=" value ->
       Py.mem c (Py.strip key) = false /\ Py.mem c (Py.strip value) = false.
Proof.
  intros Hc. pose proof (utils_strip_comment_clean c line Hc) as Hu.
  split_and!; [done| |].
  - destruct (indented_comment line) eqn:Hi; [done|].
    rewrite (copies_agree_off_indented line Hi). by rewrite Hu.
  - intros key value Heq. rewrite Heq, mem_app in Hu.
    apply orb_false_iff in Hu as [Hk Hv]. cbn [Py.mem] in Hv.
    apply orb_false_iff in Hv as [_ Hv]. split; by apply mem_strip.
Qed.

Lemma X24_no_marker_survives_witness :
  Py.mem "#" (UtilsConfig._strip_comment "StudyRoot=/data/#1") = false
  /\ (Py.mem "#" (CfgLoader._strip_comment "StudyRoot=/data/#1") = true ->
      indented_comment "StudyRoot=/data/#1" = true)
  /\ forall key value,
       UtilsConfig._strip_comment "StudyRoot=/data/#1"
       = key +:+ String "=" value ->
       Py.mem "#" (Py.strip key) = false /\ Py.mem "#" (Py.strip value) = false.
Proof.
  apply (X24_no_marker_survives "StudyRoot=/data/#1" "#"). reflexivity.
Defined.

(** ** Reading the store *)

Lemma get_walk_reads (keys : list string) :
  forall v h, (Config.get_walk keys v h).1 = h
    /\ forall e, (Config.get_walk keys v h).2 = Raise e ->
         e = KeyError \/ e = TypeError.
Proof.
  induction keys as [|k keys IH]; intros v h; [done|].
  cbn [Config.get_walk]. unfold bind, getitem.
  destruct v as [| | | | | |l]; try (split; [done|]; intros e [= <-]; auto).
  destruct (h !! l) as [d|]; [|done].
  destruct (d !! k) as [w|]; [apply IH|].
  split; [done|]. intros e [= <-]. auto.
Qed.

(** X25: [get] only reads: it leaves the heap as it is, and it never
    raises, whatever the key, the default and the store are. *)
Theorem X25_get_only_reads (self : nat) (key : string) (other : value)
    (h : heap) :
  (Config.get self key other h).1 = h
  /\ forall e, (Config.get self key other h).2 <> Raise e.
Proof.
  destruct (get_walk_reads (Py.split "." key) (VDict self) h) as [H1 H2].
  unfold Config.get.
  destruct (Config.get_walk (Py.split "." key) (VDict self) h) as [h' [w|e|]];
    simpl in *; [done| |done].
  destruct (H2 e eq_refl) as [-> | ->]; done.
Qed.

(** ** The legacy file: the auto start flag *)






(** ** Loading a file: what is reported *)

(** The legacy loader does not raise when the file can be read, the stored
    file name is a [str] or missing, and the [streams] entry is absent or a
    dict. *)
Lemma load_from_cfg_no_raise (host : Host) (files : Files) (self : nat)
    (path : string) (lines : list string) (h h' : heap)
    (d : gmap string value) (fallback : string) (e : exn) :
  read_cfg_lines files path = Returns lines ->
  h !! self = Some d ->
  default (VStr "recording.xdf") (d !! "filename") = VStr fallback ->
  streams_is_mapping h self ->
  Config._load_from_cfg host files self path h <> (h', Raise e).
Proof.
  intros Hread Hself Hname Hs. unfold Config._load_from_cfg.
  unfold bind at 1, lift. rewrite Hread.
  set (cfg := parse_lines UtilsConfig._strip_comment lines).
  destruct (cfg_filename_sets host self cfg h d fallback Hself Hname)
    as (dest & _ & E1).
  unfold bind at 1. rewrite E1.
  assert (streams_is_mapping
            (<[self := <["filename" := VStr (finish_dest host dest)]> d]> h) self)
    as Hs1.
  { eapply streams_is_mapping_keeps; [|exact E1|done].
    by apply keeps_cfg_filename. }
  unfold bind at 1.
  set (h1 := <[self := _]> h) in *.
  destruct (Config.cfg_remote_control host self cfg h1) as [h2 [[]|e2|]] eqn:E2;
    [|by destruct (never_raises_cfg_remote_control host self cfg h1 h2 e2)|done].
  assert (streams_is_mapping h2 self) as Hs2.
  { eapply streams_is_mapping_keeps; [|exact E2|done].
    apply keeps_cfg_remote_control. by repeat constructor. }
  unfold bind at 1.
  destruct (Config.cfg_auto_start host self cfg h2) as [h3 [[]|e3|]] eqn:E3;
    [|by destruct (never_raises_cfg_auto_start host self cfg h2 h3 e3)|done].
  assert (streams_is_mapping h3 self) as Hs3.
  { eapply streams_is_mapping_keeps; [|exact E3|done].
    by apply keeps_cfg_auto_start. }
  intros Hraise. by destruct (cfg_required_streams_no_raise _ _ _ _ _ _ Hs3 Hraise).
Qed.

(** X28: what [load_from_file] reports.  On a closed heap it returns for
    every file and every store, and the heap stays closed.  An error of the
    read ([open], the decoding, [json.load]) is the warning, and so is the
    [AttributeError] of a JSON document that is no object; in these cases,
    and in every case of a warning on an instance whose [streams] entry is
    absent or a dict, the store is as it was before the call.  A JSON
    object loads without a warning, and so does a legacy file that can be
    read, on an instance whose [filename] is a [str] or missing and whose
    [streams] entry is absent or a dict. *)
Theorem X28_load_from_file_reports (host : Host) (files : Files) (self : nat)
    (filename : string) (h : heap) :
  heap_closed h -> (self < length h)%nat ->
  exists h' warning,
    Config.load_from_file host files self filename h = (h', Ok warning)
    /\ heap_closed h'
    /\ (Py.endswith ".cfg" (Py.lower filename) = true ->
        forall e, read_cfg_lines files filename = Raises e ->
        warning = Some e /\ h' = h)
    /\ (Py.endswith ".cfg" (Py.lower filename) = false ->
        forall e, load_json files filename = Raises e ->
        warning = Some e /\ h' = h)
    /\ (Py.endswith ".cfg" (Py.lower filename) = false ->
        forall t, load_json files filename = Returns t ->
        (forall items, t <> TDict items) ->
        warning = Some AttributeError /\ h' = h)
    /\ (Py.endswith ".cfg" (Py.lower filename) = false ->
        forall items, load_json files filename = Returns (TDict items) ->
        warning = None)
    /\ (Py.endswith ".cfg" (Py.lower filename) = true ->
        forall lines d fallback,
          read_cfg_lines files filename = Returns lines ->
          h !! self = Some d ->
          default (VStr "recording.xdf") (d !! "filename") = VStr fallback ->
          streams_is_mapping h self ->
          warning = None)
    /\ (warning <> None ->
        (Py.endswith ".cfg" (Py.lower filename) = true ->
         streams_is_mapping h self) ->
        h' = h).
Proof.
  intros Hh Hself.
  destruct (safe_load_from_file (length h) host files self filename Hself h Hh)
    as (h' & r & E & Hh' & _ & Hr); [done|].
  assert (exists warning, r = Ok warning) as [warning ->].
  { destruct r as [warning|e|]; [by eauto| |done].
    revert E. unfold Config.load_from_file.
    by destruct (_ h) as [h1 [[]|e1|]]. }
  exists h', warning. split; [done|]. split; [done|].
  unfold Config.load_from_file in E.
  split_and!.
  - intros Hext e He. rewrite Hext in E. unfold Config._load_from_cfg in E.
    unfold bind at 1, lift in E. rewrite He in E. by injection E as <- <-.
  - intros Hext e He. rewrite Hext in E.
    unfold bind at 1, lift in E. rewrite He in E. by injection E as <- <-.
  - intros Hext t Ht Hnot. rewrite Hext in E.
    unfold bind at 1, lift in E. rewrite Ht in E.
    destruct t; try (by injection E as <- <-). by destruct (Hnot items).
  - intros Hext items Ht. rewrite Hext in E.
    unfold bind at 1, lift in E. rewrite Ht in E.
    destruct (Config._deep_update self (TDict items) h) as [h1 [[]|e1|]] eqn:E1;
      [by injection E as _ <- | | done].
    apply deep_update_raise in E1 as [_ Hnot]. by destruct (Hnot items).
  - intros Hext lines d fallback Hread Hd Hname Hs. rewrite Hext in E.
    destruct (Config._load_from_cfg host files self filename h)
      as [h1 [[]|e1|]] eqn:E1; [by injection E as _ <- | | done].
    by destruct (load_from_cfg_no_raise host files self filename lines h h1 d
                   fallback e1 Hread Hd Hname Hs).
  - intros Hw Hs. destruct warning as [e|]; [|done].
    eapply load_from_file_error; [exact Hs|]. exact E.
Qed.

Lemma X28_load_from_file_reports_witness :
  exists h' warning,
    Config.load_from_file sample_host broken_files 4 "lab.cfg"
      (two_instances sample_host sample_files) = (h', Ok warning)
    /\ heap_closed h'
    /\ warning = Some OSError
    /\ h' = two_instances sample_host sample_files.
Proof.
  destruct (X28_load_from_file_reports sample_host broken_files 4 "lab.cfg"
              (two_instances sample_host sample_files))
    as (h' & warning & E & Hh' & Hread & _).
  - apply (bool_decide_unpack _). vm_compute. exact I.
  - vm_compute. lia.
  - exists h', warning. destruct (Hread eq_refl OSError eq_refl) as [-> ->].
    by split_and!.
Defined.
